(** * YouTube ETL pipeline: classifier, engagement scorer, record assembler
      and the phased Snowflake load, with the publisher, the settings and
      the entry points

    Shallow embedding of
    - [src/azure-functions/function_app.py] (the deployed Azure Function:
      [YouTubeCollectorService], [SnowflakeLoaderService]) and
    - [src/src/youtube_collector.py], [src/src/snowflake_loader.py],
      [src/src/config.py] (the stand-alone scripts),
    followed by the properties stated about them.

    Python values are modelled as follows: [int] is [Z]; [str] is [string];
    [float] is IEEE-754 binary64, given by the Standard Library's executable
    [spec_float] with [prec = 53] and [emax = 1024]; a raised exception is the
    [Raise] branch of [result]; a dictionary read with [.get] is a [gmap]; a
    dictionary whose iteration order is observed is an insertion-ordered
    association list.  SQL tables are lists of rows, a NULL is [None]. *)

From Stdlib Require Import ZArith String Ascii List Bool Lia SpecFloat.
From Stdlib Require OrderedTypeEx.
From stdpp Require Import base option list gmap strings.

Open Scope string_scope.
Open Scope list_scope.
Open Scope Z_scope.

(** ** Python results: a value or a raised exception *)

Inductive exn : Type :=
| KeyError (key : string)
| ValueError
| ZeroDivisionError
| OverflowError
| HttpError.

Inductive result (A : Type) : Type :=
| Ok (a : A)
| Raise (e : exn).
Arguments Ok {A} a.
Arguments Raise {A} e.

#[global] Instance result_ret : MRet result := @Ok.
#[global] Instance result_bind : MBind result :=
  fun A B f m => match m with Ok a => f a | Raise e => Raise e end.

(** [d[key]] on a field that may be absent. *)
Definition getitem {A : Type} (key : string) (field : option A) : result A :=
  match field with
  | Some a => Ok a
  | None => Raise (KeyError key)
  end.

(** [for x in xs: acc = body(acc, x)], stopping at the first exception. *)
Fixpoint for_each {A S : Type} (body : S → A → result S) (xs : list A) (acc : S)
  : result S :=
  match xs with
  | [] => Ok acc
  | x :: rest => acc' ← body acc x; for_each body rest acc'
  end.

(** The Python builtins the sources call: [int(s)] on a string ([None] is
    a [ValueError]) and [str.lower]. *)
Class PyBuiltins : Type := {
  py_int : string → option Z;
  py_lower : string → string
}.

(** [int(x)] where [x] is a string of the API response. *)
Definition int_of_str `{PyBuiltins} (s : string) : result Z :=
  match py_int s with
  | Some n => Ok n
  | None => Raise ValueError
  end.

(** [word in text] on strings. *)
Fixpoint str_contains (word text : string) : bool :=
  String.prefix word text
  || match text with
     | EmptyString => false
     | String _ rest => str_contains word rest
     end.

(** ** An ASCII instance of the builtins, used to run the model *)

Module AsciiBuiltins.

Definition is_space (c : ascii) : bool :=
  let n := nat_of_ascii c in
  ((9 <=? n) && (n <=? 13))%nat || (n =? 32)%nat.

Definition digit_value (c : ascii) : option Z :=
  let n := nat_of_ascii c in
  if ((48 <=? n) && (n <=? 57))%nat then Some (Z.of_nat n - 48) else None.

Fixpoint lstrip (s : string) : string :=
  match s with
  | String c rest => if is_space c then lstrip rest else s
  | EmptyString => s
  end.

Definition strip (s : string) : string :=
  String.rev (lstrip (String.rev (lstrip s))).

(** Decimal digits, single underscores allowed between two digits. *)
Fixpoint digits (acc : Z) (after_digit : bool) (s : string) : option Z :=
  match s with
  | EmptyString => if after_digit then Some acc else None
  | String c rest =>
      match digit_value c with
      | Some d => digits (10 * acc + d) true rest
      | None =>
          if (Ascii.eqb c "_" && after_digit)%bool then digits acc false rest
          else None
      end
  end.

Definition int (s : string) : option Z :=
  match strip s with
  | String "-" rest => Z.opp <$> digits 0 false rest
  | String "+" rest => digits 0 false rest
  | body => digits 0 false body
  end.

Definition lower_char (c : ascii) : ascii :=
  let n := nat_of_ascii c in
  if ((65 <=? n) && (n <=? 90))%nat then ascii_of_nat (n + 32) else c.

Fixpoint lower (s : string) : string :=
  match s with
  | EmptyString => EmptyString
  | String c rest => String (lower_char c) (lower rest)
  end.

Definition builtins : PyBuiltins := {| py_int := int; py_lower := lower |}.

End AsciiBuiltins.

(** ** Python floats: IEEE-754 binary64 *)

Module Float64.

Definition prec : Z := 53.
Definition emax : Z := 1024.

Definition mul : spec_float → spec_float → spec_float := SFmul prec emax.
Definition div : spec_float → spec_float → spec_float := SFdiv prec emax.

(** An integer as an exact, not yet rounded, binary number. *)
Definition exact_int (n : Z) : spec_float :=
  match n with
  | Z0 => S754_zero false
  | Zpos p => S754_finite false p 0
  | Zneg p => S754_finite true p 0
  end.

(** The literals [0.0] and [100]. *)
Definition zero : spec_float := S754_zero false.
Definition hundred : spec_float := S754_finite false 7036874417766400 (-46).

(** [a / b] on Python ints: the quotient rounded once to the nearest
    double, ties to even; [ZeroDivisionError] when [b = 0] and
    [OverflowError] when the rounded quotient is not finite. *)
Definition truediv (a b : Z) : result spec_float :=
  if b =? 0 then Raise ZeroDivisionError
  else match div (exact_int a) (exact_int b) with
       | S754_infinity _ => Raise OverflowError
       | q => Ok q
       end.

(** [n / d] for [d > 0] rounded to the nearest integer, ties to even. *)
Definition round_half_even (n d : Z) : Z :=
  let q := n / d in
  match 2 * (n mod d) ?= d with
  | Lt => q
  | Gt => q + 1
  | Eq => if Z.even q then q else q + 1
  end.

(** [m * 2^e * 10^ndigits] rounded to the nearest integer, ties to even. *)
Definition scaled (ndigits : Z) (m : positive) (e : Z) : Z :=
  let n := Zpos m * 10 ^ ndigits in
  if 0 <=? e then n * 2 ^ e else round_half_even n (2 ^ (- e)).

(** [round(x, ndigits)] for [0 <= ndigits]: CPython prints [x] correctly
    rounded to [ndigits] decimals (ties to even on the exact binary value)
    and reads the decimal back as the nearest double; infinities and NaN
    are returned as they are. *)
Definition round (x : spec_float) (ndigits : Z) : spec_float :=
  match x with
  | S754_finite s m e =>
      match scaled ndigits m e with
      | Zpos k => div (S754_finite s k 0) (exact_int (10 ^ ndigits))
      | _ => S754_zero s
      end
  | _ => x
  end.

(** Sign and class of a float. *)
Definition is_finite (x : spec_float) : bool :=
  match x with
  | S754_zero _ | S754_finite _ _ _ => true
  | _ => false
  end.

Definition sign_bit (x : spec_float) : bool :=
  match x with
  | S754_zero s | S754_infinity s | S754_finite s _ _ => s
  | S754_nan => false
  end.

(** [x <= y] and [x < y] on floats. *)
Definition leb : spec_float → spec_float → bool := SFleb.
Definition ltb : spec_float → spec_float → bool := SFltb.

(** [0 <= x] on floats. *)
Definition nonneg (x : spec_float) : bool := SFleb zero x.

End Float64.

#[global] Instance spec_float_eq_dec : EqDecision spec_float.
Proof. solve_decision. Defined.

(** ** Configuration *)

(** The class attributes of [Config] (src/src/config.py), which are the
    instance attributes of [AzureFunctionConfig] (function_app.py), as far as
    the collector reads them. *)
Record Config : Type := {
  POSITIVE_KEYWORDS : list string;
  NEGATIVE_KEYWORDS : list string;
  POSITIVE_CATEGORIES : list Z;
  NEGATIVE_CATEGORIES : list Z;
  MIXED_CATEGORIES : list Z;
  REGIONS : list string;
  SEARCH_KEYWORDS : list string;
  VIDEOS_PER_KEYWORD : Z
}.

(** src/src/config.py, with [DRY_RUN = False]. *)
Definition ScriptConfig : Config := {|
  POSITIVE_KEYWORDS :=
    ["tutorial"; "guide"; "learn"; "teach"; "education"; "how-to"; "tips";
     "inspire"; "motivate"; "success"; "improve"; "growth"; "help";
     "advice"; "solution"];
  NEGATIVE_KEYWORDS :=
    ["drama"; "exposed"; "controversy"; "scandal"; "fail"; "worst";
     "terrible"; "hate"; "trash"; "clickbait"; "rant"; "angry";
     "crisis"; "disaster"; "warning"];
  POSITIVE_CATEGORIES := [19; 26; 27; 28; 29];
  NEGATIVE_CATEGORIES := [20; 23; 24; 25];
  MIXED_CATEGORIES := [1; 2; 10; 15; 17; 22];
  REGIONS := ["US"; "IN"; "GB"; "CA"; "AU"];
  SEARCH_KEYWORDS :=
    ["technology"; "lifestyle"; "tutorial"; "daily vlog"; "news update";
     "gaming"];
  VIDEOS_PER_KEYWORD := 10
|}.

(** function_app.py, [AzureFunctionConfig.__init__]. *)
Definition AzureFunctionConfig : Config := {|
  POSITIVE_KEYWORDS := ["amazing"; "great"; "excellent"; "best"; "awesome"];
  NEGATIVE_KEYWORDS := ["terrible"; "worst"; "bad"; "awful"; "horrible"];
  POSITIVE_CATEGORIES := [28];
  NEGATIVE_CATEGORIES := [25];
  MIXED_CATEGORIES := [22; 23; 24];
  REGIONS := ["US"; "GB"; "CA"; "AU"];
  SEARCH_KEYWORDS := ["technology"; "AI"; "machine learning"; "data science"];
  VIDEOS_PER_KEYWORD := 5
|}.

(** ** Settings read from the environment *)

(** The attributes that hold credentials and names; [None] is Python's
    [None]. *)
Record Settings : Type := {
  YOUTUBE_API_KEY : option string;
  AZURE_CONNECTION_STRING : option string;
  AZURE_CONTAINER_NAME : option string;
  SNOWFLAKE_USER : option string;
  SNOWFLAKE_PASSWORD : option string;
  SNOWFLAKE_ACCOUNT : option string;
  SNOWFLAKE_WAREHOUSE : option string;
  SNOWFLAKE_DATABASE : option string;
  SNOWFLAKE_SCHEMA : option string
}.

(** [os.environ.get(key, default)], which is [os.getenv(key, default)]. *)
Definition environ_get (environ : gmap string string) (key fallback : string)
  : option string :=
  Some (default fallback (environ !! key)).

(** The truth value of an attribute: [None] and [''] are false. *)
Definition truthy (value : option string) : bool :=
  match value with
  | Some (String _ _) => true
  | _ => false
  end.

(** function_app.py, [AzureFunctionConfig.__init__]: the settings. *)
Definition AzureFunctionConfig_settings (environ : gmap string string) : Settings :=
  {| YOUTUBE_API_KEY := environ !! "YOUTUBE_API_KEY";
     AZURE_CONNECTION_STRING := environ !! "AZURE_CONNECTION_STRING";
     AZURE_CONTAINER_NAME := environ_get environ "AZURE_CONTAINER_NAME" "youtube-data";
     SNOWFLAKE_USER := environ !! "SNOWFLAKE_USER";
     SNOWFLAKE_PASSWORD := environ !! "SNOWFLAKE_PASSWORD";
     SNOWFLAKE_ACCOUNT := environ !! "SNOWFLAKE_ACCOUNT";
     SNOWFLAKE_WAREHOUSE := environ_get environ "SNOWFLAKE_WAREHOUSE" "COMPUTE_WH";
     SNOWFLAKE_DATABASE :=
       environ_get environ "SNOWFLAKE_DATABASE" "YOUTUBE_ANALYTICS";
     SNOWFLAKE_SCHEMA := environ_get environ "SNOWFLAKE_SCHEMA" "CORE" |}.

(** [required], each name with its [getattr]. *)
Definition required : list (string * (Settings → option string)) :=
  [("YOUTUBE_API_KEY", YOUTUBE_API_KEY);
   ("AZURE_CONNECTION_STRING", AZURE_CONNECTION_STRING);
   ("SNOWFLAKE_USER", SNOWFLAKE_USER);
   ("SNOWFLAKE_PASSWORD", SNOWFLAKE_PASSWORD);
   ("SNOWFLAKE_ACCOUNT", SNOWFLAKE_ACCOUNT);
   ("SNOWFLAKE_WAREHOUSE", SNOWFLAKE_WAREHOUSE);
   ("SNOWFLAKE_DATABASE", SNOWFLAKE_DATABASE)].

(** [[key for key in required if not getattr(self, key)]] *)
Definition missing (self : Settings) : list string :=
  (List.filter (λ key, negb (truthy (key.2 self))) required).*1.

(** [AzureFunctionConfig.validate] *)
Definition AzureFunctionConfig_validate (self : Settings) : result () :=
  match missing self with
  | [] => Ok ()
  | _ => Raise ValueError
  end.

(** src/src/config.py: the class attributes of [Config] that are settings,
    read when the module is imported. *)
Definition Config_settings (environ : gmap string string) : Settings :=
  {| YOUTUBE_API_KEY := environ !! "YOUTUBE_API_KEY";
     AZURE_CONNECTION_STRING := environ !! "AZURE_STORAGE_CONNECTION_STRING";
     AZURE_CONTAINER_NAME :=
       environ_get environ "AZURE_CONTAINER_NAME" "youtube-raw-data";
     SNOWFLAKE_USER := environ !! "SNOWFLAKE_USER";
     SNOWFLAKE_PASSWORD := environ !! "SNOWFLAKE_PASSWORD";
     SNOWFLAKE_ACCOUNT := environ !! "SNOWFLAKE_ACCOUNT";
     SNOWFLAKE_WAREHOUSE := environ_get environ "SNOWFLAKE_WAREHOUSE" "COMPUTE_WH";
     SNOWFLAKE_DATABASE :=
       environ_get environ "SNOWFLAKE_DATABASE" "YOUTUBE_ANALYTICS";
     SNOWFLAKE_SCHEMA := environ_get environ "SNOWFLAKE_SCHEMA" "CORE" |}.

(** The list [errors] of [Config.validate]. *)
Definition Config_errors (cls : Settings) : list string :=
  (if truthy (YOUTUBE_API_KEY cls) then [] else ["YOUTUBE_API_KEY not set"])
  ++ (if truthy (AZURE_CONNECTION_STRING cls) then []
      else ["AZURE_STORAGE_CONNECTION_STRING not set"])
  ++ (if truthy (SNOWFLAKE_USER cls) then [] else ["SNOWFLAKE_USER not set"]).

(** [Config.validate] *)
Definition Config_validate (cls : Settings) : result bool :=
  match Config_errors cls with
  | [] => Ok true
  | _ => Raise ValueError
  end.

(** ** YouTube Data API responses

    A field that the code reads with [d[key]] or [d.get(key, ...)] is an
    [option]: [None] is an absent key. *)

Record SearchId : Type := {
  kind : option string;
  videoId : option string
}.

Record SearchItem : Type := { si_id : option SearchId }.

Record VideoSnippet : Type := {
  sn_categoryId : option string;
  sn_title : option string;
  sn_description : option string;
  sn_tags : option (list string);
  sn_channelId : option string;
  sn_publishedAt : option string
}.

Record VideoItem : Type := {
  v_id : option string;
  v_snippet : option VideoSnippet;
  v_statistics : option (gmap string string)
}.

Record ChannelSnippet : Type := {
  cs_title : option string;
  cs_country : option string
}.

Record ChannelItem : Type := {
  c_id : option string;
  c_snippet : option ChannelSnippet;
  c_statistics : option (gmap string string)
}.

(** The collaborators of the collector: [request.execute()] of the three
    API calls, returning [response.get('items')] or raising, and the clock
    read by [datetime.now().isoformat()] (indexed by the number of records
    assembled before the read).  The [id] argument is the list that the code
    joins with commas. *)
Class YouTubeClient : Type := {
  search_list_execute : string → string → Z → result (option (list SearchItem));
  videos_list_execute : list string → result (option (list VideoItem));
  channels_list_execute : list string → result (option (list ChannelItem));
  datetime_now_isoformat : nat → string
}.

(** ** Classifier: [classify_video]

    The two sources have the same body; they differ in where the
    configuration is read from ([Config] or [self.config]). *)

Inductive Sentiment : Type := POSITIVE | NEGATIVE | NEUTRAL | UNKNOWN.
Inductive Method : Type := CATEGORY_BASED | KEYWORD_BASED | UNCATEGORIZED.

Record Classification : Type := {
  final_sentiment : Sentiment;
  classification_method : Method;
  positive_keyword_count : Z;
  negative_keyword_count : Z
}.

(** [sum(1 for word in keywords if word in text)] *)
Definition keyword_count (keywords : list string) (text : string) : Z :=
  Z.of_nat (length (List.filter (λ word, str_contains word text) keywords)).

Definition classify_video `{PyBuiltins} (cfg : Config) (video_data : VideoItem)
  : result Classification :=
  snippet ← getitem "snippet" (v_snippet video_data);
  raw_category ← getitem "categoryId" (sn_categoryId snippet);
  category_id ← int_of_str raw_category;
  title ← getitem "title" (sn_title snippet);
  let description := default "" (sn_description snippet) in
  let tags := default [] (sn_tags snippet) in
  let combined_text :=
    py_lower (title +:+ " " +:+ description +:+ " " +:+ String.concat " " tags) in
  let pos_count := keyword_count (POSITIVE_KEYWORDS cfg) combined_text in
  let neg_count := keyword_count (NEGATIVE_KEYWORDS cfg) combined_text in
  let '(sentiment, method) :=
    if bool_decide (category_id ∈ POSITIVE_CATEGORIES cfg) then
      (POSITIVE, CATEGORY_BASED)
    else if bool_decide (category_id ∈ NEGATIVE_CATEGORIES cfg) then
      (NEGATIVE, CATEGORY_BASED)
    else if bool_decide (category_id ∈ MIXED_CATEGORIES cfg) then
      ((if neg_count <? pos_count then POSITIVE
        else if pos_count <? neg_count then NEGATIVE
        else NEUTRAL),
       KEYWORD_BASED)
    else (UNKNOWN, UNCATEGORIZED) in
  Ok {| final_sentiment := sentiment;
        classification_method := method;
        positive_keyword_count := pos_count;
        negative_keyword_count := neg_count |}.

(** ** EngagementScorer: [calculate_engagement] *)

(** [int(statistics.get(key, 0))] *)
Definition stat_count `{PyBuiltins} (statistics : gmap string string) (key : string)
  : result Z :=
  match statistics !! key with
  | Some s => int_of_str s
  | None => Ok 0
  end.

Definition calculate_engagement `{PyBuiltins} (statistics : gmap string string)
  : result spec_float :=
  views ← stat_count statistics "viewCount";
  likes ← stat_count statistics "likeCount";
  comments ← stat_count statistics "commentCount";
  if views =? 0 then Ok Float64.zero
  else
    ratio ← Float64.truediv (likes + comments) views;
    let engagement_rate := Float64.mul ratio Float64.hundred in
    Ok (Float64.round engagement_rate 4).

(** ** RecordAssembler: the records and the API wrappers *)

Module VideoRecord.
Record t : Type := mk {
  video_id : string;
  channel_id : string;
  category_id : Z;
  title : string;
  description : string;
  tags : list string;
  published_at : string;
  view_count : Z;
  like_count : Z;
  comment_count : Z;
  engagement_rate : spec_float;
  search_keyword : string;
  search_region : string;
  collected_at : string;
  classification : Classification
}.
End VideoRecord.

Module ChannelRecord.
Record t : Type := mk {
  channel_id : string;
  channel_title : string;
  channel_country : string;
  subscriber_count : Z;
  video_count : Z
}.
End ChannelRecord.

(** [xs[i:i+n] for i in range(0, len(xs), n)] *)
Fixpoint batches_fuel {A : Type} (fuel n : nat) (xs : list A) : list (list A) :=
  match fuel, xs with
  | O, _ | _, [] => []
  | S fuel', _ => take n xs :: batches_fuel fuel' n (drop n xs)
  end.

Definition batches {A : Type} (n : nat) (xs : list A) : list (list A) :=
  batches_fuel (length xs) n xs.

(** A [try: ... except Exception: return []] around a list computation. *)
Definition or_empty {A : Type} (r : result (list A)) : list A :=
  match r with
  | Ok xs => xs
  | Raise _ => []
  end.

(** [search_videos], the same in both sources up to the request fields. *)
Definition search_videos `{YouTubeClient} (keyword region_code : string)
    (max_results : Z) : list string :=
  or_empty (
    items ← search_list_execute keyword region_code max_results;
    for_each (λ video_ids item,
        item_id ← getitem "id" (si_id item);
        item_kind ← getitem "kind" (kind item_id);
        if bool_decide (item_kind = "youtube#video") then
          video_id ← getitem "videoId" (videoId item_id);
          Ok (video_ids ++ [video_id])
        else Ok video_ids)
      (default [] items) []).

(** [dict[key] = value] on an insertion-ordered dictionary. *)
Definition dict_set {V : Type} (key : string) (value : V)
    (d : list (string * V)) : list (string * V) :=
  if bool_decide (key ∈ d.*1)
  then (λ kv : string * V, if bool_decide (kv.1 = key) then (key, value) else kv) <$> d
  else d ++ [(key, value)].

(** One iteration of [for video in videos], up to [all_videos.append]. *)
Definition video_record `{PyBuiltins} `{YouTubeClient} (cfg : Config)
    (keyword region : string) (tick : nat) (video : VideoItem)
  : result VideoRecord.t :=
  classification ← classify_video cfg video;
  engagement ← calculate_engagement (default ∅ (v_statistics video));
  video_id ← getitem "id" (v_id video);
  snippet ← getitem "snippet" (v_snippet video);
  channel_id ← getitem "channelId" (sn_channelId snippet);
  raw_category ← getitem "categoryId" (sn_categoryId snippet);
  category_id ← int_of_str raw_category;
  title ← getitem "title" (sn_title snippet);
  published_at ← getitem "publishedAt" (sn_publishedAt snippet);
  statistics ← getitem "statistics" (v_statistics video);
  view_count ← stat_count statistics "viewCount";
  like_count ← stat_count statistics "likeCount";
  comment_count ← stat_count statistics "commentCount";
  Ok {| VideoRecord.video_id := video_id;
        VideoRecord.channel_id := channel_id;
        VideoRecord.category_id := category_id;
        VideoRecord.title := title;
        VideoRecord.description := default "" (sn_description snippet);
        VideoRecord.tags := default [] (sn_tags snippet);
        VideoRecord.published_at := published_at;
        VideoRecord.view_count := view_count;
        VideoRecord.like_count := like_count;
        VideoRecord.comment_count := comment_count;
        VideoRecord.engagement_rate := engagement;
        VideoRecord.search_keyword := keyword;
        VideoRecord.search_region := region;
        VideoRecord.collected_at := datetime_now_isoformat tick;
        VideoRecord.classification := classification |}.

(** The dictionary literal built from one channel item. *)
Definition channel_record `{PyBuiltins} (channel : ChannelItem)
  : result ChannelRecord.t :=
  channel_id ← getitem "id" (c_id channel);
  snippet ← getitem "snippet" (c_snippet channel);
  channel_title ← getitem "title" (cs_title snippet);
  statistics ← getitem "statistics" (c_statistics channel);
  subscriber_count ← stat_count statistics "subscriberCount";
  video_count ← stat_count statistics "videoCount";
  Ok {| ChannelRecord.channel_id := channel_id;
        ChannelRecord.channel_title := channel_title;
        ChannelRecord.channel_country := default "UNKNOWN" (cs_country snippet);
        ChannelRecord.subscriber_count := subscriber_count;
        ChannelRecord.video_count := video_count |}.

(** The state of the collection loops: [all_videos] and [all_channels]. *)
Definition Collected (V : Type) : Type :=
  (list VideoRecord.t * list (string * V))%type.

(** The loops of [collect_data] over regions, keywords and videos, the same
    in both sources apart from the wrapper [get_video_details]. *)
Definition collect_videos `{PyBuiltins} `{YouTubeClient} {V : Type}
    (cfg : Config) (get_video_details : list string → list VideoItem)
    (placeholder : V) : result (Collected V) :=
  for_each (λ acc region,
    for_each (λ acc keyword,
      let video_ids := search_videos keyword region (VIDEOS_PER_KEYWORD cfg) in
      match video_ids with
      | [] => Ok acc
      | _ =>
          for_each (λ '(all_videos, all_channels) video,
              record ← video_record cfg keyword region (length all_videos) video;
              Ok (all_videos ++ [record],
                  dict_set (VideoRecord.channel_id record) placeholder all_channels))
            (get_video_details video_ids) acc
      end)
      (SEARCH_KEYWORDS cfg) acc)
    (REGIONS cfg) ([], []).

(** *** [YouTubeCollectorService] (function_app.py) *)

Module YouTubeCollectorService.

(** Requests in batches of 50; an exception in any batch discards all. *)
Definition get_video_details `{YouTubeClient} (video_ids : list string)
  : list VideoItem :=
  or_empty (
    for_each (λ all_videos batch,
        items ← videos_list_execute batch;
        Ok (all_videos ++ default [] items))
      (batches 50 video_ids) []).

Definition get_channel_details `{YouTubeClient} (channel_ids : list string)
  : list ChannelItem :=
  or_empty (
    for_each (λ all_channels batch,
        items ← channels_list_execute batch;
        Ok (all_channels ++ default [] items))
      (batches 50 channel_ids) []).

(** [list(all_channels.keys())] after the collection loops. *)
Definition requested_channel_ids (collected : Collected ()) : list string :=
  collected.2.*1.

Definition collect_data `{PyBuiltins} `{YouTubeClient} (cfg : Config)
  : result (list VideoRecord.t * list ChannelRecord.t) :=
  collected ← collect_videos cfg get_video_details ();
  let channel_ids := requested_channel_ids collected in
  let channels := get_channel_details channel_ids in
  channel_records ←
    for_each (λ channel_records channel,
        record ← channel_record channel;
        Ok (channel_records ++ [record]))
      channels [];
  Ok (collected.1, channel_records).

End YouTubeCollectorService.

(** *** [YouTubeCollector] (src/src/youtube_collector.py) *)

Module YouTubeCollector.

(** One request for all identifiers. *)
Definition get_video_details `{YouTubeClient} (video_ids : list string)
  : list VideoItem :=
  or_empty (items ← videos_list_execute video_ids; Ok (default [] items)).

Definition get_channel_details `{YouTubeClient} (channel_ids : list string)
  : list ChannelItem :=
  or_empty (items ← channels_list_execute channel_ids; Ok (default [] items)).

(** [all_channels] maps every channel identifier to [None] until a
    detail record replaces it; the returned list is
    [list(all_channels.values())], [None] entries included. *)
Definition collect_data `{PyBuiltins} `{YouTubeClient} (cfg : Config)
  : result (list VideoRecord.t * list (option ChannelRecord.t)) :=
  collected ← collect_videos cfg get_video_details None;
  let channel_ids := collected.2.*1 in
  all_channels ←
    for_each (λ all_channels batch,
        for_each (λ all_channels channel,
            channel_id ← getitem "id" (c_id channel);
            record ← channel_record channel;
            Ok (dict_set channel_id (Some record) all_channels))
          (get_channel_details batch) all_channels)
      (batches 50 channel_ids) collected.2;
  Ok (collected.1, all_channels.*2).

End YouTubeCollector.

(** ** Publisher: blob names and [upload_to_azure] *)

(** [datetime.now()], as far as the blob names and the metadata read it. *)
Module Datetime.
Record t : Type := mk {
  year : nat;
  month : nat;
  day : nat;
  hour : nat;
  minute : nat;
  second : nat
}.
End Datetime.

(** The last decimal digit of [n]. *)
Definition digit (n : nat) : ascii := ascii_of_nat (48 + n mod 10).

Fixpoint decimal (fuel n : nat) (acc : string) : string :=
  let acc' := String (digit n) acc in
  match fuel with
  | O => acc'
  | S fuel' => if (n <? 10)%nat then acc' else decimal fuel' (n / 10) acc'
  end.

(** [str(n)], which is [f"{n}"]. *)
Definition str (n : nat) : string := decimal n n "".

Fixpoint zeros (k : nat) : string :=
  match k with
  | O => ""
  | S k' => String "0" (zeros k')
  end.

(** [f"{n:0Wd}"], and the fields [%Y] (W = 4), [%m], [%d], [%H], [%M] and
    [%S] (W = 2) of [strftime]. *)
Definition zero_padded (width n : nat) : string :=
  zeros (width - String.length (str n)) +:+ str n.

(** [f"raw/{now.year}/{now.month:02d}/{now.day:02d}"] *)
Definition date_path (now : Datetime.t) : string :=
  "raw/" +:+ str (Datetime.year now)
  +:+ "/" +:+ zero_padded 2 (Datetime.month now)
  +:+ "/" +:+ zero_padded 2 (Datetime.day now).

(** [now.strftime("%Y%m%d_%H%M%S")], for the years from 1000 on that
    [datetime.now()] gives. *)
Definition timestamp (now : Datetime.t) : string :=
  zero_padded 4 (Datetime.year now) +:+ zero_padded 2 (Datetime.month now)
  +:+ zero_padded 2 (Datetime.day now) +:+ "_"
  +:+ zero_padded 2 (Datetime.hour now) +:+ zero_padded 2 (Datetime.minute now)
  +:+ zero_padded 2 (Datetime.second now).

Definition videos_blob_name (now : Datetime.t) : string :=
  date_path now +:+ "/videos_" +:+ timestamp now +:+ ".json".

Definition channels_blob_name (now : Datetime.t) : string :=
  date_path now +:+ "/channels_" +:+ timestamp now +:+ ".json".

Definition metadata_blob_name (now : Datetime.t) : string :=
  date_path now +:+ "/metadata_" +:+ timestamp now +:+ ".json".

(** The dictionary [metadata]; [function_execution] is a key of
    function_app.py only. *)
Record Metadata : Type := {
  collection_date : string;
  collection_time : string;
  total_videos : nat;
  total_channels : nat;
  regions : list string;
  keywords : list string;
  function_execution : option bool
}.

(** A blob, by the value whose [json.dumps] text it holds. *)
Inductive Blob (C : Type) : Type :=
| VideosJson (videos : list VideoRecord.t)
| ChannelsJson (channels : list C)
| MetadataJson (metadata : Metadata).
Arguments VideosJson {C} videos.
Arguments ChannelsJson {C} channels.
Arguments MetadataJson {C} metadata.

(** The storage service: whether the upload to a blob name is refused. *)
Class BlobService : Type := upload_raises : string → bool.

(** [get_blob_client(name).upload_blob(data, overwrite=True)] *)
Definition upload_blob {C : Type} `{BlobService} (name : string) (data : Blob C)
    (container : gmap string (Blob C)) : result (gmap string (Blob C)) :=
  if upload_raises name then Raise HttpError else Ok (<[name := data]> container).

(** [upload_to_azure], the same in both sources up to the metadata key
    [function_execution]; the result comes with the container as the call
    leaves it. *)
Definition upload_to_azure {C : Type} `{BlobService} (cfg : Config)
    (function_execution : option bool) (now : Datetime.t)
    (videos : list VideoRecord.t) (channels : list C)
    (container : gmap string (Blob C)) : bool * gmap string (Blob C) :=
  match upload_blob (videos_blob_name now) (VideosJson videos) container with
  | Raise _ => (false, container)
  | Ok container =>
      match upload_blob (channels_blob_name now) (ChannelsJson channels) container with
      | Raise _ => (false, container)
      | Ok container =>
          let metadata :=
            {| collection_date :=
                 zero_padded 4 (Datetime.year now) +:+ "-"
                 +:+ zero_padded 2 (Datetime.month now) +:+ "-"
                 +:+ zero_padded 2 (Datetime.day now);
               collection_time :=
                 zero_padded 2 (Datetime.hour now) +:+ ":"
                 +:+ zero_padded 2 (Datetime.minute now) +:+ ":"
                 +:+ zero_padded 2 (Datetime.second now);
               total_videos := length videos;
               total_channels := length channels;
               regions := REGIONS cfg;
               keywords := SEARCH_KEYWORDS cfg;
               function_execution := function_execution |} in
          match upload_blob (metadata_blob_name now) (MetadataJson metadata) container with
          | Raise _ => (false, container)
          | Ok container => (true, container)
          end
      end
  end.

(** ** The warehouse: stage files and tables

    A TIMESTAMP_NTZ is a number of seconds, a DATE a number of days. *)

Definition DATE (ts : Z) : Z := ts / 86400.

(** One element of a staged JSON array, read the way the SQL reads it:
    for each key [k] that a statement selects as [value:k::TYPE], the value
    after the cast, NULL ([None]) when the key is absent or null. *)
Module Element.
Record t : Type := mk {
  video_id : option string;
  channel_id : option string;
  category_id : option Z;
  title : option string;
  description : option string;
  tags : option (list string);
  final_sentiment : option string;
  classification_method : option string;
  positive_keyword_count : option Z;
  negative_keyword_count : option Z;
  view_count : option Z;
  like_count : option Z;
  comment_count : option Z;
  engagement_rate : option spec_float;
  published_at : option Z;
  collected_at : option Z;
  search_keyword : option string;
  search_region : option string;
  channel_title : option string;
  channel_country : option string;
  subscriber_count : option Z;
  video_count : option Z
}.
End Element.

(** A file of the external stage under today's [date_path]:
    [METADATA$FILENAME] and the JSON array [$1]. *)
Record StageFile : Type := {
  METADATA_FILENAME : string;
  json_array : list Element.t
}.

(** RAW.STG_VIDEOS *)
Module Stg.
Record row : Type := mk {
  raw_json : Element.t;
  load_timestamp : option Z;
  file_name : option string
}.
End Stg.

(** CORE.DIM_CHANNELS: the columns the statements name. *)
Module Dim.
Record row : Type := mk {
  channel_id : option string;
  channel_title : option string;
  channel_country : option string;
  subscriber_count : option Z;
  video_count : option Z;
  first_seen_date : option Z;
  last_updated : option Z
}.
End Dim.

(** TEMP_CHANNELS *)
Module TempChannels.
Record row : Type := mk {
  channel_id : option string;
  channel_title : option string;
  channel_country : option string;
  subscriber_count : option Z;
  video_count : option Z
}.
End TempChannels.

(** CORE.FACT_VIDEOS *)
Module Fact.
Record row : Type := mk {
  video_id : option string;
  channel_id : option string;
  category_id : option Z;
  title : option string;
  description : option string;
  tags : option (list string);
  final_sentiment : option string;
  classification_method : option string;
  positive_keyword_count : option Z;
  negative_keyword_count : option Z;
  view_count : option Z;
  like_count : option Z;
  comment_count : option Z;
  engagement_rate : option spec_float;
  published_at : option Z;
  collected_at : option Z;
  collection_date : option Z;
  search_keyword : option string;
  search_region : option string
}.
End Fact.

#[global] Instance fact_row_eq_dec : EqDecision Fact.row.
Proof. solve_decision. Defined.

(** ANALYTICS.AGG_DAILY_BY_REGION *)
Module Agg.
Record row : Type := mk {
  analysis_date : option Z;
  channel_country : option string;
  final_sentiment : option string;
  video_count : option Z;
  total_views : option Z;
  total_likes : option Z;
  total_comments : option Z;
  avg_engagement_rate : option spec_float
}.
End Agg.

Record Warehouse : Type := {
  STG_VIDEOS : list Stg.row;
  DIM_CHANNELS : list Dim.row;
  FACT_VIDEOS : list Fact.row;
  AGG_DAILY_BY_REGION : list Agg.row
}.

(** What the warehouse supplies to the statements: the stage listing under
    today's [date_path], [CURRENT_TIMESTAMP()], the default of the column
    [DIM_CHANNELS.last_updated] (the table is created outside the sources),
    and the grouped SELECT of [_refresh_aggregations], whose float [AVG]
    the warehouse evaluates. *)
Record SqlEnv : Type := {
  stage : list StageFile;
  CURRENT_TIMESTAMP : Z;
  last_updated_default : option Z;
  daily_aggregates : Z → list Fact.row → list Dim.row → list Agg.row
}.

Definition CURRENT_DATE (env : SqlEnv) : Z := DATE (CURRENT_TIMESTAMP env).

(** [a = b] in a join condition: never true on NULL. *)
Definition sql_eq {A : Type} `{EqDecision A} (a b : option A) : bool :=
  match a, b with
  | Some x, Some y => bool_decide (x = y)
  | _, _ => false
  end.

(** [s LIKE '%word_%']: [word], then one more character at least. *)
Fixpoint like_word_then_char (word s : string) : bool :=
  (String.prefix word s && (String.length word <? String.length s)%nat)
  || match s with
     | EmptyString => false
     | String _ rest => like_word_then_char word rest
     end.

(** [FROM @stage/date_path/, LATERAL FLATTEN(input => $1)
     WHERE METADATA$FILENAME LIKE '%word_%']: each array element with the
    name of its file. *)
Definition flatten_stage (word : string) (files : list StageFile)
  : list (Element.t * string) :=
  f ← List.filter (λ f, like_word_then_char word (METADATA_FILENAME f)) files;
  (λ value, (value, METADATA_FILENAME f)) <$> json_array f.

(** ** The five phases as SQL, when no statement raises *)

(** [QUALIFY ROW_NUMBER() OVER (PARTITION BY value:channel_id
     ORDER BY METADATA$FILENAME DESC) = 1]: per channel identifier the row of
    the greatest file name.  SQL leaves the choice among rows of one file
    open; the model keeps the first of them in scan order. *)
Definition keep_latest (best : list (Element.t * string))
    (r : Element.t * string) : list (Element.t * string) :=
  if existsb (λ b, sql_eq (Element.channel_id b.1) (Element.channel_id r.1)) best
  then (λ b, if sql_eq (Element.channel_id b.1) (Element.channel_id r.1)
                && String.ltb b.2 r.2
             then r else b) <$> best
  else best ++ [r].

Definition qualify_latest (rows : list (Element.t * string))
  : list (Element.t * string) :=
  fold_left keep_latest rows [].

(** [CREATE OR REPLACE TEMPORARY TABLE TEMP_CHANNELS AS SELECT ...] *)
Definition TEMP_CHANNELS (env : SqlEnv) : list TempChannels.row :=
  (λ r : Element.t * string,
     {| TempChannels.channel_id := Element.channel_id r.1;
        TempChannels.channel_title := Element.channel_title r.1;
        TempChannels.channel_country := Element.channel_country r.1;
        TempChannels.subscriber_count := Element.subscriber_count r.1;
        TempChannels.video_count := Element.video_count r.1 |})
  <$> qualify_latest
        (List.filter (λ r, bool_decide (is_Some (Element.channel_id r.1)))
           (flatten_stage "channels" (stage env))).

(** [ON tgt.channel_id = src.channel_id] *)
Definition dim_matches (t : Dim.row) (s : TempChannels.row) : bool :=
  sql_eq (Dim.channel_id t) (TempChannels.channel_id s).

(** [WHEN MATCHED THEN UPDATE SET ...] *)
Definition dim_update (env : SqlEnv) (s : TempChannels.row) (t : Dim.row)
  : Dim.row :=
  {| Dim.channel_id := Dim.channel_id t;
     Dim.channel_title := TempChannels.channel_title s;
     Dim.channel_country := TempChannels.channel_country s;
     Dim.subscriber_count := TempChannels.subscriber_count s;
     Dim.video_count := TempChannels.video_count s;
     Dim.first_seen_date := Dim.first_seen_date t;
     Dim.last_updated := Some (CURRENT_TIMESTAMP env) |}.

(** [WHEN NOT MATCHED THEN INSERT (...) VALUES (...)]; [last_updated] is
    not in the column list and takes the column default. *)
Definition dim_insert (env : SqlEnv) (s : TempChannels.row) : Dim.row :=
  {| Dim.channel_id := TempChannels.channel_id s;
     Dim.channel_title := TempChannels.channel_title s;
     Dim.channel_country := TempChannels.channel_country s;
     Dim.subscriber_count := TempChannels.subscriber_count s;
     Dim.video_count := TempChannels.video_count s;
     Dim.first_seen_date := Some (CURRENT_DATE env);
     Dim.last_updated := last_updated_default env |}.

(** [MERGE INTO DIM_CHANNELS tgt USING TEMP_CHANNELS src ...]: every target
    row with a matching source row is updated in place, every source row
    without a matching target row is appended.  (Several source rows
    matching one target row do not arise: [TEMP_CHANNELS] has one row per
    identifier.) *)
Definition merge_dim_channels (env : SqlEnv) (src : list TempChannels.row)
    (tgt : list Dim.row) : list Dim.row :=
  ((λ t, match List.find (dim_matches t) src with
         | Some s => dim_update env s t
         | None => t
         end) <$> tgt)
  ++ (dim_insert env
        <$> List.filter (λ s, negb (existsb (λ t, dim_matches t s) tgt)) src).

(** The SELECT list of the fact load. *)
Definition fact_of_element (v : Element.t) : Fact.row :=
  {| Fact.video_id := Element.video_id v;
     Fact.channel_id := Element.channel_id v;
     Fact.category_id := Element.category_id v;
     Fact.title := Element.title v;
     Fact.description := Element.description v;
     Fact.tags := Element.tags v;
     Fact.final_sentiment := Element.final_sentiment v;
     Fact.classification_method := Element.classification_method v;
     Fact.positive_keyword_count := Element.positive_keyword_count v;
     Fact.negative_keyword_count := Element.negative_keyword_count v;
     Fact.view_count := Element.view_count v;
     Fact.like_count := Element.like_count v;
     Fact.comment_count := Element.comment_count v;
     Fact.engagement_rate := Element.engagement_rate v;
     Fact.published_at := Element.published_at v;
     Fact.collected_at := Element.collected_at v;
     Fact.collection_date := DATE <$> Element.collected_at v;
     Fact.search_keyword := Element.search_keyword v;
     Fact.search_region := Element.search_region v |}.

(** [SELECT ... FROM STG_VIDEOS WHERE raw_json:video_id IS NOT NULL] *)
Definition staged_facts (stg : list Stg.row) : list Fact.row :=
  fact_of_element ∘ Stg.raw_json
  <$> List.filter (λ r, bool_decide (is_Some (Element.video_id (Stg.raw_json r)))) stg.

(** [ON tgt.video_id = src.video_id] *)
Definition fact_matches (t s : Fact.row) : bool :=
  sql_eq (Fact.video_id t) (Fact.video_id s).

(** [MERGE INTO FACT_VIDEOS tgt USING (SELECT DISTINCT ...) src
     ON tgt.video_id = src.video_id WHEN NOT MATCHED THEN INSERT ...]:
    [DISTINCT] compares whole rows; every source row that matches no target
    row is inserted, the target rows stay. *)
Definition merge_fact_videos (stg : list Stg.row) (tgt : list Fact.row)
  : list Fact.row :=
  let src := remove_dups (staged_facts stg) in
  tgt ++ List.filter (λ s, negb (existsb (λ t, fact_matches t s) tgt)) src.

(** ** LoadOrchestrator: phases, outcomes and the connection *)

Inductive Phase : Type :=
| StagingLoader
| DimensionMerger
| FactMerger
| AggregateRefresher
| StagingCleaner.

#[global] Instance phase_eq_dec : EqDecision Phase.
Proof. solve_decision. Defined.

(** How one phase body ends: it returns, or it raises, either way with
    the warehouse as the statements that ran left it. *)
Inductive Outcome : Type :=
| Returned (w : Warehouse)
| Raised (w : Warehouse).

(** What the orchestrator does to the connection and the phase bodies. *)
Inductive Event : Type :=
| Invoked (p : Phase)
| Commit
| Rollback
| Close.

(** The connection: the committed warehouse (what every other session
    sees), this session's view of it, and the calls made so far.  Both
    sources open it with [snowflake.connector.connect(user, password,
    account, warehouse, database)]: [autocommit=False] is not passed and no
    statement begins a transaction, so the session autocommits, and every
    statement is committed when it ends. *)
Record Connection : Type := {
  committed : Warehouse;
  session : Warehouse;
  calls : list Event
}.

(** [conn.commit()] and [conn.rollback()] on this connection: no
    transaction is open, so there is nothing left to commit and nothing to
    undo. *)
Definition commit (c : Connection) : Connection :=
  {| committed := committed c; session := session c; calls := calls c ++ [Commit] |}.

Definition rollback (c : Connection) : Connection :=
  {| committed := committed c; session := session c;
     calls := calls c ++ [Rollback] |}.

Definition close (c : Connection) : Connection :=
  {| committed := committed c; session := session c; calls := calls c ++ [Close] |}.

(** The bodies of the five phases, as the warehouse runs them in one run. *)
Class PhaseBodies : Type := body : Phase → Warehouse → Outcome.

(** [try: body(); self.conn.commit()  except Exception: self.conn.rollback()],
    with whether the body returned.  What the statements of the body did
    is committed as they end, whether the body returns or raises. *)
Definition attempt `{PhaseBodies} (p : Phase) (c : Connection) : bool * Connection :=
  let invoked w :=
    {| committed := w; session := w; calls := calls c ++ [Invoked p] |} in
  match body p (session c) with
  | Returned w => (true, commit (invoked w))
  | Raised w => (false, rollback (invoked w))
  end.

(** *** [SnowflakeLoaderService] (function_app.py) *)

Module SnowflakeLoaderService.

Definition _load_videos_to_staging (env : SqlEnv) (w : Warehouse) : Warehouse :=
  let TEMP_VIDEOS := flatten_stage "videos" (stage env) in
  {| STG_VIDEOS :=
       STG_VIDEOS w
       ++ ((λ r : Element.t * string,
              {| Stg.raw_json := r.1;
                 Stg.load_timestamp := Some (CURRENT_TIMESTAMP env);
                 Stg.file_name := Some r.2 |}) <$> TEMP_VIDEOS);
     DIM_CHANNELS := DIM_CHANNELS w;
     FACT_VIDEOS := FACT_VIDEOS w;
     AGG_DAILY_BY_REGION := AGG_DAILY_BY_REGION w |}.

Definition _load_channels (env : SqlEnv) (w : Warehouse) : Warehouse :=
  {| STG_VIDEOS := STG_VIDEOS w;
     DIM_CHANNELS := merge_dim_channels env (TEMP_CHANNELS env) (DIM_CHANNELS w);
     FACT_VIDEOS := FACT_VIDEOS w;
     AGG_DAILY_BY_REGION := AGG_DAILY_BY_REGION w |}.

Definition _load_video_facts (w : Warehouse) : Warehouse :=
  {| STG_VIDEOS := STG_VIDEOS w;
     DIM_CHANNELS := DIM_CHANNELS w;
     FACT_VIDEOS := merge_fact_videos (STG_VIDEOS w) (FACT_VIDEOS w);
     AGG_DAILY_BY_REGION := AGG_DAILY_BY_REGION w |}.

(** [DELETE ... WHERE analysis_date = CURRENT_DATE()], then the INSERT of
    the grouped SELECT. *)
Definition _refresh_aggregations (env : SqlEnv) (w : Warehouse) : Warehouse :=
  {| STG_VIDEOS := STG_VIDEOS w;
     DIM_CHANNELS := DIM_CHANNELS w;
     FACT_VIDEOS := FACT_VIDEOS w;
     AGG_DAILY_BY_REGION :=
       List.filter
         (λ a, negb (sql_eq (Agg.analysis_date a) (Some (CURRENT_DATE env))))
         (AGG_DAILY_BY_REGION w)
       ++ daily_aggregates env (CURRENT_DATE env) (FACT_VIDEOS w) (DIM_CHANNELS w) |}.

(** The first of the two statements of [_refresh_aggregations] alone:
    [DELETE FROM AGG_DAILY_BY_REGION WHERE analysis_date = CURRENT_DATE()]. *)
Definition delete_todays_aggregates (env : SqlEnv) (w : Warehouse) : Warehouse :=
  {| STG_VIDEOS := STG_VIDEOS w;
     DIM_CHANNELS := DIM_CHANNELS w;
     FACT_VIDEOS := FACT_VIDEOS w;
     AGG_DAILY_BY_REGION :=
       List.filter
         (λ a, negb (sql_eq (Agg.analysis_date a) (Some (CURRENT_DATE env))))
         (AGG_DAILY_BY_REGION w) |}.

(** [TRUNCATE TABLE STG_VIDEOS] *)
Definition _cleanup_staging (w : Warehouse) : Warehouse :=
  {| STG_VIDEOS := [];
     DIM_CHANNELS := DIM_CHANNELS w;
     FACT_VIDEOS := FACT_VIDEOS w;
     AGG_DAILY_BY_REGION := AGG_DAILY_BY_REGION w |}.

(** [load_todays_data].  [connected] is the result of [self.connect()].
    The outer [except Exception] is not reached: every body is guarded by
    its own handler, and [commit], [rollback] and the logger do not raise
    here. *)
Definition load_todays_data `{PhaseBodies} (connected : bool) (c : Connection)
  : bool * Connection :=
  if negb connected then (false, c)
  else
    let '(ok, c) := attempt StagingLoader c in
    if negb ok then (false, close c)
    else
      let '(ok, c) := attempt DimensionMerger c in
      if negb ok then (false, close c)
      else
        let '(ok, c) := attempt FactMerger c in
        if negb ok then (false, close c)
        else
          let '(_, c) := attempt AggregateRefresher c in
          let '(_, c) := attempt StagingCleaner c in
          (true, close c).

End SnowflakeLoaderService.

(** *** [SnowflakeLoader] (src/src/snowflake_loader.py)

    The bodies other than the fact load are the statements of
    [SnowflakeLoaderService]. *)

Module SnowflakeLoader.

(** [INSERT INTO FACT_VIDEOS SELECT ... FROM STG_VIDEOS
     WHERE raw_json:video_id IS NOT NULL] *)
Definition load_video_facts (w : Warehouse) : Warehouse :=
  {| STG_VIDEOS := STG_VIDEOS w;
     DIM_CHANNELS := DIM_CHANNELS w;
     FACT_VIDEOS := FACT_VIDEOS w ++ staged_facts (STG_VIDEOS w);
     AGG_DAILY_BY_REGION := AGG_DAILY_BY_REGION w |}.

(** [load_todays_data]: one [try] around the five bodies, no [commit] and
    no [rollback]; the connection is closed by the caller.  The connection
    autocommits, so what each statement did is committed when it ends.
    (The queries of [print_summary], which only read, are left out.) *)
Fixpoint run_steps `{PhaseBodies} (steps : list Phase) (c : Connection)
  : bool * Connection :=
  match steps with
  | [] => (true, c)
  | p :: rest =>
      let invoked w :=
        {| committed := w; session := w;
           calls := calls c ++ [Invoked p] |} in
      match body p (session c) with
      | Returned w => run_steps rest (invoked w)
      | Raised w => (false, invoked w)
      end
  end.

Definition load_todays_data `{PhaseBodies} (c : Connection) : bool * Connection :=
  run_steps
    [StagingLoader; DimensionMerger; FactMerger; AggregateRefresher; StagingCleaner]
    c.

End SnowflakeLoader.

(** The bodies of [SnowflakeLoaderService] as SQL. *)
Definition sql_body (env : SqlEnv) (p : Phase) (w : Warehouse) : Warehouse :=
  match p with
  | StagingLoader => SnowflakeLoaderService._load_videos_to_staging env w
  | DimensionMerger => SnowflakeLoaderService._load_channels env w
  | FactMerger => SnowflakeLoaderService._load_video_facts w
  | AggregateRefresher => SnowflakeLoaderService._refresh_aggregations env w
  | StagingCleaner => SnowflakeLoaderService._cleanup_staging w
  end.

(** A run in which the phases of [failing] raise once their statements have
    run (the connection fails before the client has the answer of the last
    one), and the others return. *)
Definition sql_bodies (env : SqlEnv) (failing : list Phase) : PhaseBodies :=
  λ p w,
    if bool_decide (p ∈ failing)
    then Raised (sql_body env p w)
    else Returned (sql_body env p w).

(** A connection just opened on warehouse [w]. *)
Definition connect (w : Warehouse) : Connection :=
  {| committed := w; session := w; calls := [] |}.

(** ** The entry points *)

(** function_app.py, [YouTubeCollectorFunction]: what the invocation
    raises, and the container and the connection as it leaves them.  The
    handler logs the exception and raises it again.  The constructors of
    the collector and of the loader are taken to return. *)
Definition YouTubeCollectorFunction `{PyBuiltins} `{YouTubeClient} `{BlobService}
    `{PhaseBodies} (environ : gmap string string) (now : Datetime.t)
    (connected : bool) (container : gmap string (Blob ChannelRecord.t))
    (c : Connection)
  : result () * gmap string (Blob ChannelRecord.t) * Connection :=
  match AzureFunctionConfig_validate (AzureFunctionConfig_settings environ) with
  | Raise e => (Raise e, container, c)
  | Ok _ =>
      match YouTubeCollectorService.collect_data AzureFunctionConfig with
      | Raise e => (Raise e, container, c)
      | Ok (videos, channels) =>
          match videos with
          | [] => (Ok (), container, c)
          | _ =>
              let '(upload_success, container) :=
                upload_to_azure AzureFunctionConfig (Some true) now videos channels
                  container in
              if negb upload_success then (Ok (), container, c)
              else
                let '(load_success, c) :=
                  SnowflakeLoaderService.load_todays_data connected c in
                (Ok (), container, c)
          end
      end
  end.

(** src/src/youtube_collector.py, [main]: the exit code and the container.
    [print_summary] only prints; the constructor of the collector is taken
    to return. *)
Definition youtube_collector_main `{PyBuiltins} `{YouTubeClient} `{BlobService}
    (environ : gmap string string) (now : Datetime.t)
    (container : gmap string (Blob (option ChannelRecord.t)))
  : Z * gmap string (Blob (option ChannelRecord.t)) :=
  match Config_validate (Config_settings environ) with
  | Raise _ => (1, container)
  | Ok _ =>
      match YouTubeCollector.collect_data ScriptConfig with
      | Raise _ => (1, container)
      | Ok (videos, channels) =>
          let '(success, container) :=
            upload_to_azure ScriptConfig None now videos channels container in
          if success then (0, container) else (1, container)
      end
  end.

(** ** Definitions used to state the properties *)

(** EngagementScorer as section 4.2 of the specification words it, on the
    three counts: [((likes + comments) / views) * 100] rounded to 4 decimal
    places in Python's float arithmetic, [0.0] when [views = 0]. *)
Definition EngagementScorer (views likes comments : Z) : result spec_float :=
  if views =? 0 then Ok Float64.zero
  else
    ratio ← Float64.truediv (likes + comments) views;
    Ok (Float64.round (Float64.mul ratio Float64.hundred) 4).

(** A count as [calculate_engagement] reads it: absent is 0, present is the
    integer the string denotes. *)
Definition has_count `{PyBuiltins} (statistics : gmap string string)
    (key : string) (n : Z) : Prop :=
  match statistics !! key with
  | None => n = 0
  | Some s => py_int s = Some n
  end.

(** The floats [10.0], [100.0] and [200.0]. *)
Definition float_10 : spec_float := S754_finite false 5629499534213120 (-49).
Definition float_100 : spec_float := S754_finite false 7036874417766400 (-46).
Definition float_200 : spec_float := S754_finite false 7036874417766400 (-45).

(** [k] is the integer nearest to [n / d], for [0 < d]: the even one of
    the two nearest when [n / d] is half-way between them. *)
Definition nearest_integer (n d k : Z) : Prop :=
  2 * Z.abs (k * d - n) ≤ d ∧ (2 * Z.abs (k * d - n) = d → Z.even k = true).

(** The double nearest to [k / 10 ^ ndigits], for an integer [0 ≤ k], with
    the sign [s]. *)
Definition decimal_float (s : bool) (k ndigits : Z) : spec_float :=
  if k =? 0 then S754_zero s
  else SFdiv 53 1024 (S754_finite s (Z.to_pos k) 0)
                     (S754_finite false (Z.to_pos (10 ^ ndigits)) 0).

(** [r] is [x] rounded to [ndigits] decimal places: for a finite
    [x = m * 2 ^ e], the double nearest to [k / 10 ^ ndigits], where [k] is
    the integer nearest to [m * 2 ^ e * 10 ^ ndigits]; a zero, an infinity
    and NaN are rounded to themselves. *)
Definition rounded_to (ndigits : Z) (x r : spec_float) : Prop :=
  match x with
  | S754_finite s m e =>
      ∃ k, nearest_integer (Z.pos m * 10 ^ ndigits * 2 ^ Z.max e 0)
             (2 ^ Z.max (- e) 0) k
           ∧ r = decimal_float s k ndigits
  | _ => r = x
  end.

(** [fexp] of binary64: the exponent of the last place of a number with
    [x] binary digits before the point. *)
Definition fexp64 (x : Z) : Z := Z.max (x - 53) (-1074).

(** Zero, a positive finite number or plus infinity. *)
Definition nonneg_float (x : spec_float) : Prop :=
  match x with
  | S754_zero false | S754_finite false _ _ | S754_infinity false => True
  | _ => False
  end.

(** [K * 2^j ≤ m * 2^e], on integers. *)
Definition ple (K j m e : Z) : Prop :=
  K * 2 ^ (j - Z.min j e) ≤ m * 2 ^ (e - Z.min j e).

(** A float that is at least [K * 2^j]: a positive finite number with
    that bound and at most 53 digits, or plus infinity. *)
Definition float_ge (K j : Z) (x : spec_float) : Prop :=
  match x with
  | S754_finite false m e => ple K j (Z.pos m) e ∧ Zdigits2 (Z.pos m) ≤ 53
  | S754_infinity false => True
  | _ => False
  end.

(** The channel identifier of a flattened stage row. *)
Definition row_key (r : Element.t * string) : option string :=
  Element.channel_id r.1.

(** A merge source with one row per channel identifier, none NULL. *)
Definition unique_keys (src : list TempChannels.row) : Prop :=
  Forall (is_Some ∘ TempChannels.channel_id) src
  ∧ NoDup (TempChannels.channel_id <$> src).

(** Two dimension rows that agree on every column but [last_updated]. *)
Definition same_but_last_updated (a b : Dim.row) : Prop :=
  Dim.channel_id a = Dim.channel_id b
  ∧ Dim.channel_title a = Dim.channel_title b
  ∧ Dim.channel_country a = Dim.channel_country b
  ∧ Dim.subscriber_count a = Dim.subscriber_count b
  ∧ Dim.video_count a = Dim.video_count b
  ∧ Dim.first_seen_date a = Dim.first_seen_date b.

(** A table with at most one row per video identifier. *)
Definition one_row_per_video (facts : list Fact.row) : Prop :=
  NoDup (Fact.video_id <$> facts).

(** One channel record for each distinct channel identifier of the video
    batch: no duplicates, none missing. *)
Definition one_record_per_channel (videos : list VideoRecord.t)
    (channels : list ChannelRecord.t) : Prop :=
  NoDup (ChannelRecord.channel_id <$> channels)
  ∧ ∀ c, c ∈ ChannelRecord.channel_id <$> channels
         ↔ c ∈ VideoRecord.channel_id <$> videos.

(** The connection once the three critical phases have returned on a new
    connection: three calls of [commit], the warehouse as the third phase
    left it. *)
Definition after_critical (w3 : Warehouse) : Connection :=
  {| committed := w3; session := w3;
     calls := [Invoked StagingLoader; Commit;
               Invoked DimensionMerger; Commit;
               Invoked FactMerger; Commit] |}.

(** The channel dictionary of the collection loops has one key for each
    distinct channel identifier of the videos collected. *)
Definition channels_of_videos {V : Type} (acc : Collected V) : Prop :=
  NoDup acc.2.*1 ∧ ∀ c, c ∈ acc.2.*1 ↔ c ∈ VideoRecord.channel_id <$> acc.1.

(** An item of a search response that the loop of [search_videos] reads
    without a [KeyError]. *)
Definition readable_item (item : SearchItem) : bool :=
  match si_id item with
  | Some item_id =>
      match kind item_id with
      | Some item_kind =>
          if bool_decide (item_kind = "youtube#video")
          then bool_decide (is_Some (videoId item_id))
          else true
      | None => false
      end
  | None => false
  end.

(** The video identifier of an item of kind [youtube#video]. *)
Definition video_id_of (item : SearchItem) : option string :=
  item_id ← si_id item;
  item_kind ← kind item_id;
  if bool_decide (item_kind = "youtube#video") then videoId item_id else None.

(** Whether a request returned, and the items of its response. *)
Definition returned {A : Type} (r : result A) : bool :=
  match r with
  | Ok _ => true
  | Raise _ => false
  end.

Definition items_of {A : Type} (r : result (option (list A))) : list A :=
  match r with
  | Ok items => default [] items
  | Raise _ => []
  end.

(** The list of video records only grows during the collection. *)
Definition grows {V : Type} (a b : Collected V) : Prop := a.1 `prefix_of` b.1.

#[global] Instance grows_preorder {V : Type} : PreOrder (@grows V).
Proof.
  split.
  - intros a. unfold grows. done.
  - intros a b c. unfold grows. apply transitivity.
Qed.

(** A record that was assembled from an item which [get_video_details]
    returned for the record's own search keyword and region. *)
Definition assembled_from `{PyBuiltins} `{YouTubeClient} (cfg : Config)
    (get_video_details : list string → list VideoItem)
    (record : VideoRecord.t) : Prop :=
  let keyword := VideoRecord.search_keyword record in
  let region := VideoRecord.search_region record in
  region ∈ REGIONS cfg
  ∧ keyword ∈ SEARCH_KEYWORDS cfg
  ∧ ∃ video tick,
      video ∈ get_video_details (search_videos keyword region (VIDEOS_PER_KEYWORD cfg))
      ∧ video_record cfg keyword region tick video = Ok record.

(** An entry of the script's channel list: [None], or the record of the
    channel the key names. *)
Definition entry_of (key : string) (entry : option ChannelRecord.t) : Prop :=
  match entry with
  | None => True
  | Some record => ChannelRecord.channel_id record = key
  end.

(** The channel dictionary of the script while details are filled in:
    the keys [keys0] stay, no key is doubled, every entry fits its key. *)
Definition filled_in (keys0 : list string)
    (d : list (string * option ChannelRecord.t)) : Prop :=
  NoDup d.*1 ∧ (∀ k, k ∈ keys0 → k ∈ d.*1) ∧ Forall (λ kv, entry_of kv.1 kv.2) d.

(** The order in which [load_todays_data] runs the phases. *)
Definition phase_order : list Phase :=
  [StagingLoader; DimensionMerger; FactMerger; AggregateRefresher; StagingCleaner].

(** The calls of one guarded phase: the body, then [commit] when it
    returned and [rollback] when it raised. *)
Definition transaction (step : Phase * bool) : list Event :=
  [Invoked step.1; if step.2 then Commit else Rollback].

(** [s] is [word] after some prefix and before one more character at
    least: what [LIKE '%word_%'] accepts. *)
Definition has_word_then_char (word s : string) : Prop :=
  ∃ pre c post, s = pre +:+ word +:+ String c post.

(** The SELECT list of [TEMP_CHANNELS] on one stage element. *)
Definition temp_channels_row (value : Element.t) : TempChannels.row :=
  {| TempChannels.channel_id := Element.channel_id value;
     TempChannels.channel_title := Element.channel_title value;
     TempChannels.channel_country := Element.channel_country value;
     TempChannels.subscriber_count := Element.subscriber_count value;
     TempChannels.video_count := Element.video_count value |}.

(** An element of a channels file of today's stage that has a channel
    identifier, with the name of its file. *)
Definition channel_source (env : SqlEnv) (value : Element.t) (name : string) : Prop :=
  is_Some (Element.channel_id value)
  ∧ ∃ f, f ∈ stage env ∧ METADATA_FILENAME f = name ∧ value ∈ json_array f
         ∧ has_word_then_char "channels" name.

(** An element of a videos file of today's stage that has a video
    identifier. *)
Definition video_source (env : SqlEnv) (value : Element.t) : Prop :=
  is_Some (Element.video_id value)
  ∧ ∃ f, f ∈ stage env ∧ value ∈ json_array f
         ∧ has_word_then_char "videos" (METADATA_FILENAME f).

(** What [qualify_latest] has done once the rows [seen] are scanned: the
    rows kept are scanned rows, every identifier scanned is kept, and no
    scanned row of an identifier comes from a file with a greater name than
    the row kept for it. *)
Definition latest_of (seen best : list (Element.t * string)) : Prop :=
  Forall (is_Some ∘ row_key) seen
  ∧ (∀ b, b ∈ best → b ∈ seen)
  ∧ (∀ r, r ∈ seen → ∃ b, b ∈ best ∧ row_key b = row_key r)
  ∧ (∀ b r, b ∈ best → r ∈ seen → row_key b = row_key r → String.ltb b.2 r.2 = false).

(** Every character of [s] satisfies [P]. *)
Fixpoint all_chars (P : ascii → bool) (s : string) : bool :=
  match s with
  | EmptyString => true
  | String c rest => P c && all_chars P rest
  end.

(** A decimal digit, or a character of [word]. *)
Definition is_decimal_digit (c : ascii) : bool :=
  let n := nat_of_ascii c in ((48 <=? n) && (n <=? 57))%nat.

Definition digit_or_in (word : string) (c : ascii) : bool :=
  is_decimal_digit c || str_contains (String c "") word.

(** An environment variable that is set and not empty, and one that is
    not set to the empty string. *)
Definition is_set (environ : gmap string string) (key : string) : Prop :=
  ∃ value, environ !! key = Some value ∧ value ≠ "".

Definition not_emptied (environ : gmap string string) (key : string) : Prop :=
  environ !! key ≠ Some "".

(** [word] occurs in [text]: [text] is [word] between two strings. *)
Definition occurs_in (word text : string) : Prop :=
  ∃ pre post, text = pre +:+ word +:+ post.

(** [hit_count text keywords n]: [n] entries of [keywords] occur in
    [text], an entry counting once however often it occurs. *)
Inductive hit_count (text : string) : list string → Z → Prop :=
| hit_count_nil : hit_count text [] 0
| hit_count_hit (word : string) (keywords : list string) (n : Z) :
    occurs_in word text → hit_count text keywords n →
    hit_count text (word :: keywords) (n + 1)
| hit_count_miss (word : string) (keywords : list string) (n : Z) :
    ¬ occurs_in word text → hit_count text keywords n →
    hit_count text (word :: keywords) n.

(** ** Sample inputs, used to run the definitions *)

Definition demo_statistics : gmap string string :=
  {[ "viewCount" := "200"; "likeCount" := "10"; "commentCount" := "10" ]}.

Definition demo_snippet (category title : string) : VideoSnippet :=
  {| sn_categoryId := Some category;
     sn_title := Some title;
     sn_description := Some "The WORST and most terrible day";
     sn_tags := Some ["awful"; "vlog"];
     sn_channelId := Some "UC1";
     sn_publishedAt := Some "2024-01-15T10:00:00Z" |}.

Definition demo_video (category title : string) : VideoItem :=
  {| v_id := Some "v1";
     v_snippet := Some (demo_snippet category title);
     v_statistics := Some demo_statistics |}.

(** A staged video element and a staged channel element. *)
Definition video_element (video_id channel_id search_keyword : string) : Element.t :=
  {| Element.video_id := Some video_id;
     Element.channel_id := Some channel_id;
     Element.category_id := Some 28;
     Element.title := Some "Great stuff";
     Element.description := Some "";
     Element.tags := Some [];
     Element.final_sentiment := Some "POSITIVE";
     Element.classification_method := Some "CATEGORY_BASED";
     Element.positive_keyword_count := Some 1;
     Element.negative_keyword_count := Some 0;
     Element.view_count := Some 200;
     Element.like_count := Some 10;
     Element.comment_count := Some 10;
     Element.engagement_rate := Some float_10;
     Element.published_at := Some 1705312800;
     Element.collected_at := Some 1705384800;
     Element.search_keyword := Some search_keyword;
     Element.search_region := Some "US";
     Element.channel_title := None;
     Element.channel_country := None;
     Element.subscriber_count := None;
     Element.video_count := None |}.

Definition channel_element (channel_id channel_title : string)
    (subscriber_count : Z) : Element.t :=
  {| Element.video_id := None;
     Element.channel_id := Some channel_id;
     Element.category_id := None;
     Element.title := None;
     Element.description := None;
     Element.tags := None;
     Element.final_sentiment := None;
     Element.classification_method := None;
     Element.positive_keyword_count := None;
     Element.negative_keyword_count := None;
     Element.view_count := None;
     Element.like_count := None;
     Element.comment_count := None;
     Element.engagement_rate := None;
     Element.published_at := None;
     Element.collected_at := None;
     Element.search_keyword := None;
     Element.search_region := None;
     Element.channel_title := Some channel_title;
     Element.channel_country := Some "US";
     Element.subscriber_count := Some subscriber_count;
     Element.video_count := Some 12 |}.

(** One day's stage: the video ["v1"] found under two search keywords, and
    the channels ["UC1"] (known to the warehouse) and ["UC2"] (new). *)
Definition demo_env (now : Z) : SqlEnv :=
  {| stage :=
       [ {| METADATA_FILENAME := "raw/2024/01/16/videos_20240116_060000.json";
            json_array := [video_element "v1" "UC1" "technology";
                           video_element "v1" "UC1" "AI"] |};
         {| METADATA_FILENAME := "raw/2024/01/16/channels_20240116_060000.json";
            json_array := [channel_element "UC1" "Channel One" 1500;
                           channel_element "UC2" "Channel Two" 70] |} ];
     CURRENT_TIMESTAMP := now;
     last_updated_default := None;
     daily_aggregates := λ _ _ _, [] |}.

Definition demo_warehouse : Warehouse :=
  {| STG_VIDEOS := [];
     DIM_CHANNELS :=
       [ {| Dim.channel_id := Some "UC1";
            Dim.channel_title := Some "Channel 1";
            Dim.channel_country := Some "GB";
            Dim.subscriber_count := Some 1000;
            Dim.video_count := Some 10;
            Dim.first_seen_date := Some 19700;
            Dim.last_updated := Some 1702000000 |} ];
     FACT_VIDEOS := [];
     AGG_DAILY_BY_REGION := [] |}.

(** The sample warehouse later on 16 January 2024 (day 19738), with the
    aggregate row an earlier refresh of that day has left. *)
Definition refreshed_warehouse : Warehouse :=
  {| STG_VIDEOS := STG_VIDEOS demo_warehouse;
     DIM_CHANNELS := DIM_CHANNELS demo_warehouse;
     FACT_VIDEOS := FACT_VIDEOS demo_warehouse;
     AGG_DAILY_BY_REGION :=
       [ {| Agg.analysis_date := Some 19738;
            Agg.channel_country := Some "GB";
            Agg.final_sentiment := Some "POSITIVE";
            Agg.video_count := Some 1;
            Agg.total_views := Some 200;
            Agg.total_likes := Some 10;
            Agg.total_comments := Some 10;
            Agg.avg_engagement_rate := Some float_10 |} ] |}.

(** A run in which AggregateRefresher raises on its INSERT, its DELETE
    done, and the other phases return. *)
Definition refresh_interrupted (env : SqlEnv) : PhaseBodies :=
  λ p w,
    match p with
    | AggregateRefresher => Raised (SnowflakeLoaderService.delete_todays_aggregates env w)
    | _ => Returned (sql_body env p w)
    end.

(** A client on which only the search for "technology" in region "US" finds
    a video, ["v1"] of channel ["UC1"]; [channels] is what the channel
    lookup answers. *)
Definition demo_client (channels : result (option (list ChannelItem)))
  : YouTubeClient :=
  {| search_list_execute := λ keyword region _,
       if bool_decide (keyword = "technology" ∧ region = "US")
       then Ok (Some [ {| si_id := Some {| kind := Some "youtube#video";
                                          videoId := Some "v1" |} |} ])
       else Ok None;
     videos_list_execute := λ _, Ok (Some [demo_video "28" "Great stuff"]);
     channels_list_execute := λ _, channels;
     datetime_now_isoformat := λ _, "2024-01-16T06:00:00" |}.

Definition demo_channel : ChannelItem :=
  {| c_id := Some "UC1";
     c_snippet := Some {| cs_title := Some "Channel One"; cs_country := None |};
     c_statistics := Some {[ "subscriberCount" := "1500" ]} |}.

(** Statistics with the three counts given as the API gives them. *)
Definition statistics_of (views likes comments : string) : gmap string string :=
  {[ "viewCount" := views; "likeCount" := likes; "commentCount" := comments ]}.

(** The doubles Python prints as [33.33333333333333] and [33.3333]. *)
Definition float_33_33333333333333 : spec_float :=
  S754_finite false 4691249611844266 (-47).
Definition float_33_3333 : spec_float :=
  S754_finite false 4691244920594655 (-47).

(** [2 ^ 1024] in decimal. *)
Definition two_pow_1024 : string :=
  "179769313486231590772930519078902473361797697894230657273430081157732675805500963132708477322407536021120113879871393357658789768814416622492847430639474124377767893424865485276302219601246094119453082952085005768838150682342462881473913110540827237163350510684586298239947245938479716304835356329624224137216".

(** A client on which every video has a category code that is no number. *)
Definition malformed_client : YouTubeClient :=
  {| search_list_execute := λ _ _ _,
       Ok (Some [ {| si_id := Some {| kind := Some "youtube#video";
                                      videoId := Some "v1" |} |} ]);
     videos_list_execute := λ _, Ok (Some [demo_video "abc" "Great stuff"]);
     channels_list_execute := λ _, Ok None;
     datetime_now_isoformat := λ _, "2024-01-16T06:00:00" |}.

(** A client whose searches all fail. *)
Definition failing_client : YouTubeClient :=
  {| search_list_execute := λ _ _ _, Raise HttpError;
     videos_list_execute := λ _, Ok (Some [demo_video "28" "Great stuff"]);
     channels_list_execute := λ _, Ok (Some [demo_channel]);
     datetime_now_isoformat := λ _, "2024-01-16T06:00:00" |}.

(** 16 January 2024, 06:00:00. *)
Definition sample_now : Datetime.t :=
  {| Datetime.year := 2024; Datetime.month := 1; Datetime.day := 16;
     Datetime.hour := 6; Datetime.minute := 0; Datetime.second := 0 |}.

(** A storage service that accepts every upload. *)
Definition accepting_service : BlobService := λ _, false.

(** An environment with every setting the validations read. *)
Definition demo_environ : gmap string string :=
  {[ "YOUTUBE_API_KEY" := "key"; "AZURE_CONNECTION_STRING" := "azure";
     "AZURE_STORAGE_CONNECTION_STRING" := "azure"; "SNOWFLAKE_USER" := "user";
     "SNOWFLAKE_PASSWORD" := "password"; "SNOWFLAKE_ACCOUNT" := "account" ]}.

(** * Properties *)

(** Closes a decidable closed goal by evaluation. *)
Ltac by_decide := apply (bool_decide_unpack _); vm_compute; exact I.

(** ** Strings *)

Lemma app_String (a : ascii) (s t : string) :
  String a s +:+ t = String a (s +:+ t).
Proof. reflexivity. Qed.

Lemma string_prefix_app (word s : string) :
  String.prefix word s = true ↔ ∃ rest, s = word +:+ rest.
Proof.
  revert s. induction word as [|a word IH]; intros s.
  - destruct s; (split; [|done]); intros _; by eexists.
  - destruct s as [|b s]; [split; [done|by intros [? ?]]|]. cbn.
    destruct (ascii_dec a b) as [->|Hab].
    + rewrite IH. split; intros [rest Hrest]; exists rest;
        rewrite app_String in *; congruence.
    + split; [done|]. intros [rest Hrest]. rewrite app_String in Hrest. congruence.
Qed.

Lemma str_contains_unfold (word text : string) :
  str_contains word text
  = String.prefix word text
    || match text with
       | EmptyString => false
       | String _ rest => str_contains word rest
       end.
Proof. by destruct text. Qed.

(** [word in text] is true exactly when [word] occurs in [text]. *)
Lemma str_contains_occurs_in (word text : string) :
  str_contains word text = true ↔ occurs_in word text.
Proof.
  unfold occurs_in. split.
  - induction text as [|a text IH]; rewrite str_contains_unfold.
    + rewrite orb_false_r. intros [rest Hrest]%string_prefix_app.
      by exists "", rest.
    + intros [[rest Hrest]%string_prefix_app|Hin]%orb_true_iff.
      * by exists "", rest.
      * destruct (IH Hin) as (pre & post & ->). by exists (String a pre), post.
  - intros (pre & post & ->). induction pre as [|a pre IH];
      rewrite str_contains_unfold; apply orb_true_iff.
    + left. apply string_prefix_app. by exists post.
    + right. exact IH.
Qed.

(** ** Classifier *)

Lemma keyword_count_cons (word : string) (keywords : list string) (text : string) :
  keyword_count (word :: keywords) text
  = if str_contains word text then keyword_count keywords text + 1
    else keyword_count keywords text.
Proof.
  unfold keyword_count. cbn. destruct (str_contains word text); cbn [length]; lia.
Qed.

(** The count of [classify_video] is the number of keywords that occur in
    the text. *)
Lemma keyword_count_hit_count (keywords : list string) (text : string) :
  hit_count text keywords (keyword_count keywords text).
Proof.
  induction keywords as [|word keywords IH]; [constructor|].
  rewrite keyword_count_cons.
  destruct (str_contains word text) eqn:Hword.
  - apply hit_count_hit; [|done]. by apply str_contains_occurs_in.
  - apply hit_count_miss; [|done]. rewrite <- str_contains_occurs_in. congruence.
Qed.

(** A text and a keyword list have one hit count. *)
Lemma hit_count_unique (text : string) (keywords : list string) (m n : Z) :
  hit_count text keywords m → hit_count text keywords n → m = n.
Proof.
  intros Hm. revert n. induction Hm; intros n' Hn; inversion Hn; subst;
    try done; try (f_equal; auto); auto.
Qed.

(** C4.  With a category code that [int] accepts and a title present,
    [classify_video] returns.  The counts it reports are the numbers of
    positive and of negative keywords that occur in the text, which is the
    title, the description and the tags, joined by spaces and in lower
    case.  It checks the sets in the order positive, negative, mixed: a
    code of the positive set gives POSITIVE and CATEGORY_BASED whatever the
    counts; otherwise a code of the negative set gives NEGATIVE and
    CATEGORY_BASED; otherwise a code of the mixed set gives KEYWORD_BASED,
    with POSITIVE exactly when [pos_count > neg_count], NEGATIVE exactly
    when [neg_count > pos_count] and NEUTRAL exactly on a tie; any other
    code gives UNKNOWN and UNCATEGORIZED. *)
Theorem classify_video_category_order `{PyBuiltins} (cfg : Config)
    (video : VideoItem) (snippet : VideoSnippet) (raw title : string) (code : Z) :
  v_snippet video = Some snippet →
  sn_categoryId snippet = Some raw →
  py_int raw = Some code →
  sn_title snippet = Some title →
  let text :=
    py_lower (title +:+ " " +:+ default "" (sn_description snippet) +:+ " "
              +:+ String.concat " " (default [] (sn_tags snippet))) in
  ∃ pos_count neg_count sentiment method,
    classify_video cfg video
    = Ok {| final_sentiment := sentiment; classification_method := method;
            positive_keyword_count := pos_count;
            negative_keyword_count := neg_count |}
    ∧ hit_count text (POSITIVE_KEYWORDS cfg) pos_count
    ∧ hit_count text (NEGATIVE_KEYWORDS cfg) neg_count
    ∧ (code ∈ POSITIVE_CATEGORIES cfg →
       sentiment = POSITIVE ∧ method = CATEGORY_BASED)
    ∧ (code ∉ POSITIVE_CATEGORIES cfg → code ∈ NEGATIVE_CATEGORIES cfg →
       sentiment = NEGATIVE ∧ method = CATEGORY_BASED)
    ∧ (code ∉ POSITIVE_CATEGORIES cfg → code ∉ NEGATIVE_CATEGORIES cfg →
       code ∈ MIXED_CATEGORIES cfg →
       method = KEYWORD_BASED
       ∧ (sentiment = POSITIVE ↔ pos_count > neg_count)
       ∧ (sentiment = NEGATIVE ↔ neg_count > pos_count)
       ∧ (sentiment = NEUTRAL ↔ pos_count = neg_count))
    ∧ (code ∉ POSITIVE_CATEGORIES cfg → code ∉ NEGATIVE_CATEGORIES cfg →
       code ∉ MIXED_CATEGORIES cfg →
       sentiment = UNKNOWN ∧ method = UNCATEGORIZED).
Proof.
  intros Hsn Hcat Hint Htitle text.
  unfold classify_video, int_of_str.
  rewrite Hsn; cbn. rewrite Hcat; cbn. rewrite Hint; cbn. rewrite Htitle; cbn.
  fold text.
  pose proof (keyword_count_hit_count (POSITIVE_KEYWORDS cfg) text) as Hpos.
  pose proof (keyword_count_hit_count (NEGATIVE_KEYWORDS cfg) text) as Hneg.
  set (pos := keyword_count (POSITIVE_KEYWORDS cfg) text) in *.
  set (neg := keyword_count (NEGATIVE_KEYWORDS cfg) text) in *.
  destruct (decide (code ∈ POSITIVE_CATEGORIES cfg)) as [Hp|Hp].
  { rewrite bool_decide_eq_true_2 by done.
    do 4 eexists; split; [reflexivity|]. repeat split; intros; done. }
  rewrite bool_decide_eq_false_2 by done.
  destruct (decide (code ∈ NEGATIVE_CATEGORIES cfg)) as [Hn|Hn].
  { rewrite bool_decide_eq_true_2 by done.
    do 4 eexists; split; [reflexivity|]. repeat split; intros; done. }
  rewrite bool_decide_eq_false_2 by done.
  destruct (decide (code ∈ MIXED_CATEGORIES cfg)) as [Hm|Hm].
  { rewrite bool_decide_eq_true_2 by done.
    do 4 eexists; split; [reflexivity|].
    split; [done|]. split; [done|].
    split; [done|]. split; [done|]. split; [|done]. intros _ _ _.
    split; [done|].
    destruct (Z.ltb_spec neg pos); [|destruct (Z.ltb_spec pos neg)];
      repeat split; intros; try done; try lia. }
  rewrite bool_decide_eq_false_2 by done.
  do 4 eexists; split; [reflexivity|]. repeat split; intros; done.
Qed.

(** The theorem at a People-and-Blogs video (code 22, mixed) of the
    function app's configuration.  Of the positive keywords, [great]
    occurs in the text; of the negative ones, [terrible], [worst] and
    [awful] do: the counts are 1 and 3 and the sentiment is NEGATIVE. *)
Lemma classify_video_category_order_witness :
  let text := "great stuff the worst and most terrible day awful vlog" in
  classify_video (H := AsciiBuiltins.builtins) AzureFunctionConfig
    (demo_video "22" "Great stuff")
  = Ok {| final_sentiment := NEGATIVE; classification_method := KEYWORD_BASED;
          positive_keyword_count := 1; negative_keyword_count := 3 |}
  ∧ hit_count text ["amazing"; "great"; "excellent"; "best"; "awesome"] 1
  ∧ hit_count text ["terrible"; "worst"; "bad"; "awful"; "horrible"] 3.
Proof.
  destruct (classify_video_category_order (H := AsciiBuiltins.builtins)
              AzureFunctionConfig (demo_video "22" "Great stuff")
              (demo_snippet "22" "Great stuff") "22" "Great stuff" 22
              eq_refl eq_refl eq_refl eq_refl)
    as (pos & neg & sentiment & method & Heq & Hpos & Hneg & _ & _ & Hmixed & _).
  destruct Hmixed as (-> & _ & Hnegative & _); [by_decide..|].
  vm_compute in Heq. injection Heq as <- <- <-.
  split; [reflexivity|]. split; [exact Hpos|exact Hneg].
Defined.

(** C7, as stated, fails: the category code ["abc"] is malformed ([int]
    rejects it) and [classify_video] raises [ValueError] instead of
    returning UNKNOWN; a missing title is a second failure mode. *)
Lemma classify_video_malformed_code_counterexample :
  AsciiBuiltins.int "abc" = None
  ∧ classify_video (H := AsciiBuiltins.builtins) AzureFunctionConfig
      (demo_video "abc" "Great stuff") = Raise ValueError
  ∧ classify_video (H := AsciiBuiltins.builtins) AzureFunctionConfig
      {| v_id := Some "v1";
         v_snippet := Some {| sn_categoryId := Some "28"; sn_title := None;
                              sn_description := None; sn_tags := None;
                              sn_channelId := Some "UC1";
                              sn_publishedAt := None |};
         v_statistics := None |} = Raise (KeyError "title").
Proof. repeat split; vm_compute; reflexivity. Qed.

(** C7, amended.  [classify_video] is a function of the configuration and
    the video (it has no effect); it returns exactly when the snippet, the
    category code and the title are present and [int] accepts the code; a
    malformed code raises [ValueError], an absent snippet, code or title
    raises [KeyError]; a well-formed code that is in none of the three sets
    gives UNKNOWN and UNCATEGORIZED. *)
Theorem classify_video_failure_modes `{PyBuiltins} (cfg : Config) (video : VideoItem) :
  ((∃ r, classify_video cfg video = Ok r)
   ↔ ∃ sn raw code title,
       v_snippet video = Some sn ∧ sn_categoryId sn = Some raw
       ∧ py_int raw = Some code ∧ sn_title sn = Some title)
  ∧ (∀ sn raw, v_snippet video = Some sn → sn_categoryId sn = Some raw →
       py_int raw = None → classify_video cfg video = Raise ValueError)
  ∧ (v_snippet video = None → classify_video cfg video = Raise (KeyError "snippet"))
  ∧ (∀ sn, v_snippet video = Some sn → sn_categoryId sn = None →
       classify_video cfg video = Raise (KeyError "categoryId"))
  ∧ (∀ sn raw code, v_snippet video = Some sn → sn_categoryId sn = Some raw →
       py_int raw = Some code → sn_title sn = None →
       classify_video cfg video = Raise (KeyError "title"))
  ∧ (∀ sn raw code title, v_snippet video = Some sn → sn_categoryId sn = Some raw →
       py_int raw = Some code → sn_title sn = Some title →
       code ∉ POSITIVE_CATEGORIES cfg → code ∉ NEGATIVE_CATEGORIES cfg →
       code ∉ MIXED_CATEGORIES cfg →
       ∃ pos_count neg_count,
         classify_video cfg video
         = Ok {| final_sentiment := UNKNOWN;
                 classification_method := UNCATEGORIZED;
                 positive_keyword_count := pos_count;
                 negative_keyword_count := neg_count |}).
Proof.
  unfold classify_video, int_of_str.
  destruct (v_snippet video) as [sn|] eqn:Hsn; cbn;
    [destruct (sn_categoryId sn) as [raw|] eqn:Hcat; cbn;
     [destruct (py_int raw) as [code|] eqn:Hint; cbn;
      [destruct (sn_title sn) as [title|] eqn:Htitle; cbn|]|]|].
  all: repeat split; intros;
    repeat match goal with
           | H : ∃ _, _ |- _ => destruct H
           | H : _ ∧ _ |- _ => destruct H
           end; simplify_eq; eauto 10.
  - destruct (bool_decide _);
      [|destruct (bool_decide _); [|destruct (bool_decide _)]]; eauto.
  - rewrite !bool_decide_eq_false_2 by done. eauto.
Qed.

(** The amended C7 at two videos: a malformed code, and code 7 (in no set
    of the function app's configuration). *)
Lemma classify_video_failure_modes_witness :
  classify_video (H := AsciiBuiltins.builtins) AzureFunctionConfig
    (demo_video "abc" "Great stuff") = Raise ValueError
  ∧ ∃ pos_count neg_count,
      classify_video (H := AsciiBuiltins.builtins) AzureFunctionConfig
        (demo_video "7" "Great stuff")
      = Ok {| final_sentiment := UNKNOWN;
              classification_method := UNCATEGORIZED;
              positive_keyword_count := pos_count;
              negative_keyword_count := neg_count |}.
Proof.
  split.
  - apply (classify_video_failure_modes (H := AsciiBuiltins.builtins)
             AzureFunctionConfig (demo_video "abc" "Great stuff"))
      with (sn := demo_snippet "abc" "Great stuff") (raw := "abc");
      reflexivity.
  - apply (classify_video_failure_modes (H := AsciiBuiltins.builtins)
             AzureFunctionConfig (demo_video "7" "Great stuff"))
      with (sn := demo_snippet "7" "Great stuff") (raw := "7") (code := 7)
           (title := "Great stuff");
      try reflexivity; by_decide.
Defined.

(** ** EngagementScorer *)

(** [round_half_even n d] is an integer nearest to [n / d], the even one
    of the two on a tie. *)
Lemma round_half_even_nearest (n d : Z) :
  0 < d →
  let k := Float64.round_half_even n d in
  2 * Z.abs (k * d - n) ≤ d
  ∧ (2 * Z.abs (k * d - n) = d → Z.even k = true).
Proof.
  intros Hd. unfold Float64.round_half_even. cbv zeta.
  pose proof (Z.div_mod n d ltac:(lia)) as Hdm.
  pose proof (Z.mod_pos_bound n d Hd) as Hb.
  destruct (Z.compare_spec (2 * (n mod d)) d) as [He|Hl|Hg].
  - destruct (Z.even (n / d)) eqn:Hev.
    + split; [lia|]. done.
    + split; [lia|]. intros _. rewrite Z.even_add, Hev. done.
  - split; lia.
  - split; lia.
Qed.

(** With the three counts read, [calculate_engagement] is the formula of
    [EngagementScorer] on them. *)
Lemma calculate_engagement_reads_counts `{PyBuiltins}
    (statistics : gmap string string) (views likes comments : Z) :
  has_count statistics "viewCount" views →
  has_count statistics "likeCount" likes →
  has_count statistics "commentCount" comments →
  calculate_engagement statistics = EngagementScorer views likes comments.
Proof.
  intros Hv Hl Hc.
  assert (Hread : ∀ key n, has_count statistics key n →
                           stat_count statistics key = Ok n).
  { intros key n. unfold has_count, stat_count, int_of_str.
    destruct (statistics !! key); [intros ->|intros ->]; done. }
  unfold calculate_engagement.
  rewrite (Hread _ _ Hv), (Hread _ _ Hl), (Hread _ _ Hc). reflexivity.
Qed.

(** ** LoadOrchestrator *)

(** A phase whose body returns: what its statements did is committed, and
    [commit] is called. *)
Lemma attempt_returned `{PhaseBodies} (p : Phase) (c : Connection) (w : Warehouse) :
  body p (session c) = Returned w →
  attempt p c
  = (true, {| committed := w; session := w;
              calls := calls c ++ [Invoked p; Commit] |}).
Proof.
  intros Hb. unfold attempt, commit. rewrite Hb. cbn.
  by rewrite <- app_assoc.
Qed.

(** A phase whose body raises: [rollback] is called, and what the
    statements of the body did before the error stays committed. *)
Lemma attempt_raised `{PhaseBodies} (p : Phase) (c : Connection) (w : Warehouse) :
  body p (session c) = Raised w →
  attempt p c
  = (false, {| committed := w; session := w;
               calls := calls c ++ [Invoked p; Rollback] |}).
Proof.
  intros Hb. unfold attempt, rollback. rewrite Hb. cbn.
  by rewrite <- app_assoc.
Qed.

(** When the three critical phases return, the run goes on to the two
    non-critical phases and returns [True] whatever they do. *)
Lemma load_todays_data_after_critical `{PhaseBodies} (w0 w1 w2 w3 : Warehouse) :
  body StagingLoader w0 = Returned w1 →
  body DimensionMerger w1 = Returned w2 →
  body FactMerger w2 = Returned w3 →
  SnowflakeLoaderService.load_todays_data true (connect w0)
  = (true, close (attempt StagingCleaner
                    (attempt AggregateRefresher (after_critical w3)).2).2).
Proof.
  intros H1 H2 H3. unfold SnowflakeLoaderService.load_todays_data. cbn [negb].
  rewrite (attempt_returned StagingLoader (connect w0) w1) by done. cbn [negb].
  rewrite (attempt_returned DimensionMerger _ w2) by done. cbn [negb].
  rewrite (attempt_returned FactMerger _ w3) by done. cbn [negb].
  change (attempt AggregateRefresher _)
    with (attempt AggregateRefresher (after_critical w3)).
  destruct (attempt AggregateRefresher (after_critical w3)) as [ok4 c4]. cbn.
  by destruct (attempt StagingCleaner c4).
Qed.

(** In a run whose three critical phases return, a failure of
    AggregateRefresher, of StagingCleaner or of both is absorbed:
    [load_todays_data] calls [rollback], goes on to the next phase and
    returns [True].  The next phase runs on the warehouse as the failed
    phase left it, and that is what stays committed. *)
Lemma load_todays_data_noncritical_failure `{PhaseBodies} (w0 w1 w2 w3 : Warehouse) :
  body StagingLoader w0 = Returned w1 →
  body DimensionMerger w1 = Returned w2 →
  body FactMerger w2 = Returned w3 →
  (∀ wa w5,
     body AggregateRefresher w3 = Raised wa →
     body StagingCleaner wa = Returned w5 →
     SnowflakeLoaderService.load_todays_data true (connect w0)
     = (true, {| committed := w5; session := w5;
                 calls := calls (after_critical w3)
                          ++ [Invoked AggregateRefresher; Rollback;
                              Invoked StagingCleaner; Commit; Close] |}))
  ∧ (∀ wa wc,
       body AggregateRefresher w3 = Raised wa →
       body StagingCleaner wa = Raised wc →
       SnowflakeLoaderService.load_todays_data true (connect w0)
       = (true, {| committed := wc; session := wc;
                   calls := calls (after_critical w3)
                            ++ [Invoked AggregateRefresher; Rollback;
                                Invoked StagingCleaner; Rollback; Close] |}))
  ∧ (∀ w4 wc,
       body AggregateRefresher w3 = Returned w4 →
       body StagingCleaner w4 = Raised wc →
       SnowflakeLoaderService.load_todays_data true (connect w0)
       = (true, {| committed := wc; session := wc;
                   calls := calls (after_critical w3)
                            ++ [Invoked AggregateRefresher; Commit;
                                Invoked StagingCleaner; Rollback; Close] |})).
Proof.
  intros H1 H2 H3.
  rewrite (load_todays_data_after_critical w0 w1 w2 w3) by done.
  repeat split.
  - intros wa w5 Ha Hc.
    rewrite (attempt_raised AggregateRefresher (after_critical w3) wa) by done.
    rewrite (attempt_returned StagingCleaner _ w5) by done. reflexivity.
  - intros wa wc Ha Hc.
    rewrite (attempt_raised AggregateRefresher (after_critical w3) wa) by done.
    rewrite (attempt_raised StagingCleaner _ wc) by done. reflexivity.
  - intros w4 wc Ha Hc.
    rewrite (attempt_returned AggregateRefresher (after_critical w3) w4) by done.
    rewrite (attempt_raised StagingCleaner _ wc) by done. reflexivity.
Qed.

(** [_refresh_aggregations] is its DELETE followed by its INSERT of the
    grouped rows. *)
Lemma refresh_aggregations_statements (env : SqlEnv) (w : Warehouse) :
  let deleted := SnowflakeLoaderService.delete_todays_aggregates env w in
  SnowflakeLoaderService._refresh_aggregations env w
  = {| STG_VIDEOS := STG_VIDEOS deleted;
       DIM_CHANNELS := DIM_CHANNELS deleted;
       FACT_VIDEOS := FACT_VIDEOS deleted;
       AGG_DAILY_BY_REGION :=
         AGG_DAILY_BY_REGION deleted
         ++ daily_aggregates env (CURRENT_DATE env) (FACT_VIDEOS deleted)
              (DIM_CHANNELS deleted) |}.
Proof. reflexivity. Qed.

(** C1.  A run on a warehouse that holds an aggregate row of the day, in
    which the three critical phases return and AggregateRefresher raises on
    its INSERT, after its DELETE: [load_todays_data] calls [rollback], goes
    on to StagingCleaner and returns [True], but the DELETE is not undone.
    The aggregate row of the day, in the table before the run and through
    the three critical phases, is gone from the committed table. *)
Theorem aggregate_failure_not_rolled_back :
  let env := demo_env 1705384800 in
  let w3 :=
    sql_body env FactMerger
      (sql_body env DimensionMerger
         (sql_body env StagingLoader refreshed_warehouse)) in
  let run :=
    SnowflakeLoaderService.load_todays_data (H := refresh_interrupted env) true
      (connect refreshed_warehouse) in
  run.1 = true
  ∧ calls run.2
    = [Invoked StagingLoader; Commit; Invoked DimensionMerger; Commit;
       Invoked FactMerger; Commit; Invoked AggregateRefresher; Rollback;
       Invoked StagingCleaner; Commit; Close]
  ∧ Agg.analysis_date <$> AGG_DAILY_BY_REGION refreshed_warehouse
    = [Some (CURRENT_DATE env)]
  ∧ AGG_DAILY_BY_REGION w3 = AGG_DAILY_BY_REGION refreshed_warehouse
  ∧ AGG_DAILY_BY_REGION (committed run.2) = []
  ∧ STG_VIDEOS (committed run.2) = [].
Proof.
  intros env w3 run.
  pose (w1 := sql_body env StagingLoader refreshed_warehouse).
  pose (w2 := sql_body env DimensionMerger w1).
  pose (wa := SnowflakeLoaderService.delete_todays_aggregates env w3).
  pose proof (proj1 (load_todays_data_noncritical_failure
                       (H := refresh_interrupted env)
                       refreshed_warehouse w1 w2 w3 eq_refl eq_refl eq_refl)
                wa (sql_body env StagingCleaner wa) eq_refl eq_refl) as Hrun.
  subst run. rewrite Hrun. repeat split.
Qed.

(** When FactMerger raises after the first two phases returned, the run
    stops: [rollback] is called, the connection is closed and the result is
    [False]; the warehouse stays as the fact merge left it. *)
Lemma load_todays_data_fact_failure `{PhaseBodies} (w0 w1 w2 w : Warehouse) :
  body StagingLoader w0 = Returned w1 →
  body DimensionMerger w1 = Returned w2 →
  body FactMerger w2 = Raised w →
  SnowflakeLoaderService.load_todays_data true (connect w0)
  = (false, {| committed := w; session := w;
               calls := [Invoked StagingLoader; Commit;
                         Invoked DimensionMerger; Commit;
                         Invoked FactMerger; Rollback; Close] |}).
Proof.
  intros H1 H2 H3. unfold SnowflakeLoaderService.load_todays_data. cbn [negb].
  rewrite (attempt_returned StagingLoader (connect w0) w1) by done. cbn [negb].
  rewrite (attempt_returned DimensionMerger _ w2) by done. cbn [negb].
  rewrite (attempt_raised FactMerger _ w) by done. reflexivity.
Qed.

(** When the MERGE of FactMerger is refused (the body raises with the
    warehouse as it found it), the run returns [False] without invoking the
    last two phases; the dimension table keeps the channel merge and the
    fact table is the one of before the run. *)
Lemma load_todays_data_fact_refused `{PhaseBodies} (env : SqlEnv) (w0 : Warehouse) :
  let w1 := SnowflakeLoaderService._load_videos_to_staging env w0 in
  let w2 := SnowflakeLoaderService._load_channels env w1 in
  body StagingLoader w0 = Returned w1 →
  body DimensionMerger w1 = Returned w2 →
  body FactMerger w2 = Raised w2 →
  let run := SnowflakeLoaderService.load_todays_data true (connect w0) in
  run.1 = false
  ∧ calls run.2
    = [Invoked StagingLoader; Commit; Invoked DimensionMerger; Commit;
       Invoked FactMerger; Rollback; Close]
  ∧ DIM_CHANNELS (committed run.2)
    = merge_dim_channels env (TEMP_CHANNELS env) (DIM_CHANNELS w0)
  ∧ FACT_VIDEOS (committed run.2) = FACT_VIDEOS w0.
Proof.
  intros w1 w2 H1 H2 H3 run. subst run.
  rewrite (load_todays_data_fact_failure w0 w1 w2 w2) by done. cbn.
  repeat split.
Qed.

(** C2.  A run on the sample warehouse in which StagingLoader and
    DimensionMerger return and FactMerger raises once its MERGE has run:
    [load_todays_data] calls [rollback] and returns [False], the dimension
    table keeps the channel merge (UC1 updated, UC2 inserted), and neither
    AggregateRefresher nor StagingCleaner is invoked; but the MERGE is not
    undone: the fact table, empty before the run, holds the two merged
    rows. *)
Theorem fact_merge_failure_not_rolled_back :
  let env := demo_env 1705384800 in
  let run :=
    SnowflakeLoaderService.load_todays_data (H := sql_bodies env [FactMerger]) true
      (connect demo_warehouse) in
  run.1 = false
  ∧ calls run.2
    = [Invoked StagingLoader; Commit; Invoked DimensionMerger; Commit;
       Invoked FactMerger; Rollback; Close]
  ∧ Dim.channel_id <$> DIM_CHANNELS (committed run.2) = [Some "UC1"; Some "UC2"]
  ∧ FACT_VIDEOS demo_warehouse = []
  ∧ Fact.video_id <$> FACT_VIDEOS (committed run.2) = [Some "v1"; Some "v1"].
Proof.
  intros env run.
  pose (w1 := sql_body env StagingLoader demo_warehouse).
  pose (w2 := sql_body env DimensionMerger w1).
  pose proof (load_todays_data_fact_failure (H := sql_bodies env [FactMerger])
                demo_warehouse w1 w2 (sql_body env FactMerger w2)
                eq_refl eq_refl eq_refl) as Hrun.
  subst run. rewrite Hrun. repeat split.
Qed.

(** The stand-alone script differs: its single [try] makes a failure of
    AggregateRefresher fail the run, without a rollback and without
    invoking StagingCleaner. *)
Lemma script_aggregate_failure_fails_run `{PhaseBodies} (c : Connection)
    (w1 w2 w3 w : Warehouse) :
  body StagingLoader (session c) = Returned w1 →
  body DimensionMerger w1 = Returned w2 →
  body FactMerger w2 = Returned w3 →
  body AggregateRefresher w3 = Raised w →
  SnowflakeLoader.load_todays_data c
  = (false, {| committed := w; session := w;
               calls := calls c ++ [Invoked StagingLoader; Invoked DimensionMerger;
                                    Invoked FactMerger;
                                    Invoked AggregateRefresher] |}).
Proof.
  intros H1 H2 H3 H4. unfold SnowflakeLoader.load_todays_data. cbn.
  rewrite H1; cbn. rewrite H2; cbn. rewrite H3; cbn. rewrite H4; cbn.
  by rewrite <- !app_assoc.
Qed.

(** ** DimensionMerger *)

Lemma sql_eq_true {A : Type} `{EqDecision A} (a b : option A) :
  sql_eq a b = true ↔ ∃ x, a = Some x ∧ b = Some x.
Proof.
  destruct a as [x|], b as [y|]; cbn; split; try (intros; done);
    try (intros (? & ? & ?); done).
  - intros ->%bool_decide_eq_true. by exists y.
  - intros (z & [= ->] & [= ->]). by apply bool_decide_eq_true.
Qed.

Lemma keep_latest_keys (best : list (Element.t * string)) (r : Element.t * string) :
  is_Some (row_key r) →
  Forall (is_Some ∘ row_key) best →
  NoDup (row_key <$> best) →
  Forall (is_Some ∘ row_key) (keep_latest best r)
  ∧ NoDup (row_key <$> keep_latest best r).
Proof.
  intros Hr Hbest Hnd. unfold keep_latest.
  destruct (existsb _ best) eqn:Hex.
  - assert (Hkeys :
      row_key <$> ((λ b, if sql_eq (Element.channel_id b.1) (Element.channel_id r.1)
                            && String.ltb b.2 r.2
                         then r else b) <$> best)
      = row_key <$> best).
    { rewrite <- list_fmap_compose. apply list_fmap_ext. intros i b _. cbn.
      destruct (sql_eq _ _) eqn:He; cbn; [|done].
      destruct (String.ltb _ _); [|done].
      apply sql_eq_true in He as (x & Hb & Hx). unfold row_key. congruence. }
    split; [|by rewrite Hkeys].
    apply Forall_fmap. eapply Forall_impl; [exact Hbest|]. intros b Hb. cbn.
    by destruct (_ && _).
  - split; [apply Forall_app; split; [done|by constructor]|].
    rewrite fmap_app. cbn. apply NoDup_app. split; [done|]. split; [|apply NoDup_singleton].
    intros k Hk Hk'. apply list_elem_of_singleton in Hk'. subst k.
    apply list_elem_of_fmap in Hk as (b & Hkb & Hb).
    assert (Hm : sql_eq (Element.channel_id b.1) (Element.channel_id r.1) = true).
    { destruct Hr as [x Hx]. apply sql_eq_true. exists x.
      unfold row_key in *. split; congruence. }
    apply not_true_iff_false in Hex. apply Hex. apply existsb_exists.
    exists b. split; [by apply list_elem_of_In|done].
Qed.

Lemma qualify_latest_keys (rows : list (Element.t * string)) :
  Forall (is_Some ∘ row_key) rows →
  Forall (is_Some ∘ row_key) (qualify_latest rows)
  ∧ NoDup (row_key <$> qualify_latest rows).
Proof.
  unfold qualify_latest.
  assert (Hgen : ∀ best, Forall (is_Some ∘ row_key) rows →
     Forall (is_Some ∘ row_key) best → NoDup (row_key <$> best) →
     Forall (is_Some ∘ row_key) (fold_left keep_latest rows best)
     ∧ NoDup (row_key <$> fold_left keep_latest rows best)).
  { induction rows as [|r rows IH]; intros best Hrows Hbest Hnd; [done|].
    cbn. apply Forall_cons in Hrows as [Hr Hrows].
    destruct (keep_latest_keys best r Hr Hbest Hnd). by apply IH. }
  intros Hrows. apply Hgen; [done|constructor|constructor].
Qed.

Lemma TEMP_CHANNELS_unique_keys (env : SqlEnv) : unique_keys (TEMP_CHANNELS env).
Proof.
  unfold TEMP_CHANNELS, unique_keys.
  set (rows := List.filter _ _).
  destruct (qualify_latest_keys rows) as [Hs Hnd].
  { apply Forall_forall. intros r Hr. apply list_elem_of_In, filter_In in Hr as [_ Hr].
    by apply bool_decide_eq_true in Hr. }
  split.
  - apply Forall_fmap. eapply Forall_impl; [exact Hs|]. done.
  - rewrite <- list_fmap_compose.
    erewrite list_fmap_ext; [exact Hnd|]. done.
Qed.

Lemma dim_matches_true (t : Dim.row) (s : TempChannels.row) :
  dim_matches t s = true
  ↔ is_Some (TempChannels.channel_id s) ∧ Dim.channel_id t = TempChannels.channel_id s.
Proof.
  unfold dim_matches. rewrite sql_eq_true. split.
  - intros (x & -> & ->). split; [by eexists|done].
  - intros [[x Hx] Ht]. exists x. by rewrite Ht.
Qed.

Lemma find_unique_match (src : list TempChannels.row) (t : Dim.row)
    (s : TempChannels.row) :
  unique_keys src → s ∈ src → Dim.channel_id t = TempChannels.channel_id s →
  List.find (dim_matches t) src = Some s.
Proof.
  intros [Hsome Hnd] Hin Hid.
  induction src as [|a src IH]; [by apply elem_of_nil in Hin|].
  apply Forall_cons in Hsome as [Ha Hsome].
  cbn in Hnd. apply NoDup_cons in Hnd as [Hfresh Hnd].
  cbn. destruct (dim_matches t a) eqn:Hm.
  - apply dim_matches_true in Hm as [_ Hta].
    apply elem_of_cons in Hin as [->|Hin]; [done|].
    exfalso. apply Hfresh. rewrite <- Hta, Hid.
    apply list_elem_of_fmap. by exists s.
  - apply elem_of_cons in Hin as [->|Hin].
    + exfalso. apply not_true_iff_false in Hm. apply Hm.
      apply dim_matches_true. done.
    + by apply IH.
Qed.

Lemma find_no_match (src : list TempChannels.row) (t : Dim.row) :
  (∀ s, s ∈ src → Dim.channel_id t ≠ TempChannels.channel_id s) →
  List.find (dim_matches t) src = None.
Proof.
  intros Hne. destruct (List.find _ src) as [s|] eqn:Hf; [|done].
  apply find_some in Hf as [Hin Hm]. apply dim_matches_true in Hm as [_ Hm].
  exfalso. eapply Hne; [|exact Hm]. by apply list_elem_of_In.
Qed.

Lemma find_match_inv (src : list TempChannels.row) (t : Dim.row) (s : TempChannels.row) :
  List.find (dim_matches t) src = Some s →
  s ∈ src ∧ Dim.channel_id t = TempChannels.channel_id s.
Proof.
  intros Hf. apply find_some in Hf as [Hin Hm].
  apply dim_matches_true in Hm as [_ Hm]. split; [by apply list_elem_of_In|done].
Qed.

Lemma no_target_match (tgt : list Dim.row) (s : TempChannels.row) :
  is_Some (TempChannels.channel_id s) →
  existsb (λ t, dim_matches t s) tgt = false
  ↔ ∀ t, t ∈ tgt → Dim.channel_id t ≠ TempChannels.channel_id s.
Proof.
  intros Hs. split.
  - intros Hex t Hin Hid. apply not_true_iff_false in Hex. apply Hex.
    apply existsb_exists. exists t. split; [by apply list_elem_of_In|].
    by apply dim_matches_true.
  - intros Hne. apply not_true_iff_false. intros Hex.
    apply existsb_exists in Hex as (t & Hin & Hm).
    apply dim_matches_true in Hm as [_ Hm].
    eapply Hne; [|exact Hm]. by apply list_elem_of_In.
Qed.

(** The rows a merge appends. *)
Lemma merge_dim_channels_inserted (env : SqlEnv) (src : list TempChannels.row)
    (tgt : list Dim.row) :
  drop (length tgt) (merge_dim_channels env src tgt)
  = dim_insert env
      <$> List.filter (λ s, negb (existsb (λ t, dim_matches t s) tgt)) src.
Proof.
  unfold merge_dim_channels.
  rewrite drop_app_length'; [done|]. by rewrite length_fmap.
Qed.

Lemma merge_dim_channels_lookup (env : SqlEnv) (src : list TempChannels.row)
    (tgt : list Dim.row) (i : nat) (t : Dim.row) :
  tgt !! i = Some t →
  merge_dim_channels env src tgt !! i
  = Some match List.find (dim_matches t) src with
         | Some s => dim_update env s t
         | None => t
         end.
Proof.
  intros Ht. unfold merge_dim_channels.
  rewrite lookup_app_l.
  - by rewrite list_lookup_fmap, Ht.
  - rewrite length_fmap. by eapply lookup_lt_Some.
Qed.

(** C9.  One run of DimensionMerger: a row of the dimension table whose
    channel identifier is in the day's channels has title, country,
    subscriber count and video count overwritten and [last_updated] set to
    the current timestamp, while its identifier and [first_seen_date] stay;
    every other row of the table is unchanged; for a channel identifier of
    the day's channels that the table does not have yet, a row is appended
    with [first_seen_date] the current date; and nothing else is appended. *)
Theorem load_channels_upsert (env : SqlEnv) (w : Warehouse) :
  let src := TEMP_CHANNELS env in
  let tgt := DIM_CHANNELS w in
  let tgt' := DIM_CHANNELS (SnowflakeLoaderService._load_channels env w) in
  (∀ i t s, tgt !! i = Some t → s ∈ src →
     Dim.channel_id t = TempChannels.channel_id s →
     tgt' !! i
     = Some {| Dim.channel_id := Dim.channel_id t;
               Dim.channel_title := TempChannels.channel_title s;
               Dim.channel_country := TempChannels.channel_country s;
               Dim.subscriber_count := TempChannels.subscriber_count s;
               Dim.video_count := TempChannels.video_count s;
               Dim.first_seen_date := Dim.first_seen_date t;
               Dim.last_updated := Some (CURRENT_TIMESTAMP env) |})
  ∧ (∀ i t, tgt !! i = Some t →
       (∀ s, s ∈ src → Dim.channel_id t ≠ TempChannels.channel_id s) →
       tgt' !! i = Some t)
  ∧ (∀ s, s ∈ src →
       (∀ t, t ∈ tgt → Dim.channel_id t ≠ TempChannels.channel_id s) →
       {| Dim.channel_id := TempChannels.channel_id s;
          Dim.channel_title := TempChannels.channel_title s;
          Dim.channel_country := TempChannels.channel_country s;
          Dim.subscriber_count := TempChannels.subscriber_count s;
          Dim.video_count := TempChannels.video_count s;
          Dim.first_seen_date := Some (CURRENT_DATE env);
          Dim.last_updated := last_updated_default env |}
       ∈ drop (length tgt) tgt')
  ∧ (∀ r, r ∈ drop (length tgt) tgt' →
       ∃ s, s ∈ src
            ∧ (∀ t, t ∈ tgt → Dim.channel_id t ≠ TempChannels.channel_id s)
            ∧ r = dim_insert env s).
Proof.
  intros src tgt tgt'.
  pose proof (TEMP_CHANNELS_unique_keys env) as Huniq. fold src in Huniq.
  subst tgt'. cbn [SnowflakeLoaderService._load_channels DIM_CHANNELS]. fold src tgt.
  split; [|split; [|split]].
  - intros i t s Ht Hs Hid.
    rewrite (merge_dim_channels_lookup env src tgt i t Ht).
    by rewrite (find_unique_match src t s Huniq Hs Hid).
  - intros i t Ht Hne.
    rewrite (merge_dim_channels_lookup env src tgt i t Ht).
    by rewrite (find_no_match src t Hne).
  - intros s Hs Hne. rewrite merge_dim_channels_inserted.
    apply list_elem_of_fmap. exists s. split; [done|].
    apply list_elem_of_In, filter_In. split; [by apply list_elem_of_In|].
    apply negb_true_iff, no_target_match; [|done].
    destruct Huniq as [Hsome _]. by eapply Forall_forall in Hsome.
  - intros r Hr. rewrite merge_dim_channels_inserted in Hr.
    apply list_elem_of_fmap in Hr as (s & -> & Hs).
    apply list_elem_of_In, filter_In in Hs as [Hs Hnew].
    apply list_elem_of_In in Hs.
    exists s. split; [done|]. split; [|done].
    apply no_target_match; [|by apply negb_true_iff].
    destruct Huniq as [Hsome _]. by eapply Forall_forall in Hsome.
Qed.

(** After a merge every source row has a matching target row. *)
Lemma merge_dim_channels_covers (env : SqlEnv) (src : list TempChannels.row)
    (tgt : list Dim.row) (s : TempChannels.row) :
  unique_keys src → s ∈ src →
  existsb (λ t, dim_matches t s) (merge_dim_channels env src tgt) = true.
Proof.
  intros Huniq Hs.
  assert (Hsome : is_Some (TempChannels.channel_id s)).
  { destruct Huniq as [Hsome _]. by eapply Forall_forall in Hsome. }
  apply existsb_exists.
  destruct (existsb (λ t, dim_matches t s) tgt) eqn:Hex.
  - apply existsb_exists in Hex as (t & Hin & Hm).
    apply list_elem_of_In, list_elem_of_lookup in Hin as [i Hi].
    apply dim_matches_true in Hm as [_ Hid].
    exists (dim_update env s t). split.
    + apply list_elem_of_In, list_elem_of_lookup. exists i.
      rewrite (merge_dim_channels_lookup env src tgt i t Hi).
      by rewrite (find_unique_match src t s Huniq Hs Hid).
    + by apply dim_matches_true.
  - exists (dim_insert env s). split.
    + apply list_elem_of_In. unfold merge_dim_channels.
      apply elem_of_app. right. apply list_elem_of_fmap. exists s. split; [done|].
      apply list_elem_of_In, filter_In. split; [by apply list_elem_of_In|].
      by rewrite Hex.
    + by apply dim_matches_true.
Qed.

(** A row of a merged table that matches a source row carries that row's
    values. *)
Lemma merge_dim_channels_agrees (env : SqlEnv) (src : list TempChannels.row)
    (tgt : list Dim.row) (r : Dim.row) (s : TempChannels.row) :
  unique_keys src → r ∈ merge_dim_channels env src tgt → s ∈ src →
  Dim.channel_id r = TempChannels.channel_id s →
  Dim.channel_title r = TempChannels.channel_title s
  ∧ Dim.channel_country r = TempChannels.channel_country s
  ∧ Dim.subscriber_count r = TempChannels.subscriber_count s
  ∧ Dim.video_count r = TempChannels.video_count s.
Proof.
  intros Huniq Hr Hs Hid. unfold merge_dim_channels in Hr.
  apply elem_of_app in Hr as [Hr|Hr].
  - apply list_elem_of_fmap in Hr as (t & -> & Ht).
    destruct (List.find (dim_matches t) src) as [s'|] eqn:Hf.
    + apply find_match_inv in Hf as [Hs' Hid']. cbn in Hid.
      assert (s' = s) as ->; [|done].
      pose proof (find_unique_match src t s Huniq Hs Hid) as H1.
      pose proof (find_unique_match src t s' Huniq Hs' Hid') as H2. congruence.
    + pose proof (find_unique_match src t s Huniq Hs Hid). congruence.
  - apply list_elem_of_fmap in Hr as (s' & -> & Hs').
    apply list_elem_of_In, filter_In in Hs' as [Hs' _]. apply list_elem_of_In in Hs'.
    cbn in Hid.
    assert (s' = s) as ->; [|done].
    set (t := dim_insert env s').
    pose proof (find_unique_match src t s Huniq Hs Hid) as H1.
    pose proof (find_unique_match src t s' Huniq Hs' eq_refl) as H2. congruence.
Qed.

Lemma filter_nothing {A : Type} (f : A → bool) (l : list A) :
  (∀ x, x ∈ l → negb (f x) = false) → List.filter (λ x, negb (f x)) l = [].
Proof.
  induction l as [|x l IH]; intros Hf; [done|].
  cbn. rewrite (Hf x) by left. apply IH. intros y Hy. apply Hf. by right.
Qed.

Lemma Forall2_fmap_self {A : Type} (R : A → A → Prop) (g : A → A) (l : list A) :
  (∀ x, x ∈ l → R (g x) x) → Forall2 R (g <$> l) l.
Proof.
  induction l as [|x l IH]; intros Hg; [constructor|].
  cbn. constructor; [apply Hg; left|apply IH; intros; apply Hg; by right].
Qed.

Lemma same_but_last_updated_refl (r : Dim.row) : same_but_last_updated r r.
Proof. by repeat split. Qed.

(** C5, amended.  A second run of DimensionMerger on the same stage
    leaves every row as the first run left it in all columns but
    [last_updated] (identifier, title, country, counts and
    [first_seen_date] are equal, row by row, and no row is added); the rows
    of the day's channels get the timestamp of the second run as
    [last_updated], the other rows keep theirs. *)
Theorem load_channels_twice (env1 env2 : SqlEnv) (w : Warehouse) :
  stage env2 = stage env1 →
  let once := DIM_CHANNELS (SnowflakeLoaderService._load_channels env1 w) in
  let twice :=
    DIM_CHANNELS
      (SnowflakeLoaderService._load_channels env2
         (SnowflakeLoaderService._load_channels env1 w)) in
  Forall2 same_but_last_updated twice once
  ∧ (∀ i r, once !! i = Some r →
       twice !! i
       = Some (if existsb (dim_matches r) (TEMP_CHANNELS env1)
               then {| Dim.channel_id := Dim.channel_id r;
                       Dim.channel_title := Dim.channel_title r;
                       Dim.channel_country := Dim.channel_country r;
                       Dim.subscriber_count := Dim.subscriber_count r;
                       Dim.video_count := Dim.video_count r;
                       Dim.first_seen_date := Dim.first_seen_date r;
                       Dim.last_updated := Some (CURRENT_TIMESTAMP env2) |}
               else r)).
Proof.
  intros Hstage once twice.
  assert (Hsrc : TEMP_CHANNELS env2 = TEMP_CHANNELS env1).
  { unfold TEMP_CHANNELS. by rewrite Hstage. }
  pose proof (TEMP_CHANNELS_unique_keys env1) as Huniq.
  subst once twice. cbn [SnowflakeLoaderService._load_channels DIM_CHANNELS]. rewrite Hsrc.
  set (src := TEMP_CHANNELS env1) in *. set (tgt := DIM_CHANNELS w).
  set (once := merge_dim_channels env1 src tgt).
  assert (Hnew : List.filter (λ s, negb (existsb (λ t, dim_matches t s) once)) src = []).
  { apply filter_nothing. intros s Hs.
    unfold once. by rewrite (merge_dim_channels_covers env1 src tgt s Huniq Hs). }
  assert (Hstep : ∀ r, r ∈ once →
    match List.find (dim_matches r) src with
    | Some s => dim_update env2 s r
    | None => r
    end
    = if existsb (dim_matches r) src
      then {| Dim.channel_id := Dim.channel_id r;
              Dim.channel_title := Dim.channel_title r;
              Dim.channel_country := Dim.channel_country r;
              Dim.subscriber_count := Dim.subscriber_count r;
              Dim.video_count := Dim.video_count r;
              Dim.first_seen_date := Dim.first_seen_date r;
              Dim.last_updated := Some (CURRENT_TIMESTAMP env2) |}
      else r).
  { intros r Hr. destruct (List.find (dim_matches r) src) as [s|] eqn:Hf.
    - pose proof (find_some _ _ Hf) as [Hin Hm].
      assert (Hex : existsb (dim_matches r) src = true).
      { apply existsb_exists. by exists s. }
      rewrite Hex. apply find_match_inv in Hf as [Hs Hid].
      destruct (merge_dim_channels_agrees env1 src tgt r s Huniq Hr Hs Hid)
        as (Ht & Hc & Hsub & Hv).
      unfold dim_update. by rewrite Ht, Hc, Hsub, Hv.
    - assert (Hex : existsb (dim_matches r) src = false).
      { apply not_true_iff_false. intros Hex.
        apply existsb_exists in Hex as (s & Hin & Hm).
        by rewrite (find_none _ _ Hf s Hin) in Hm. }
      by rewrite Hex. }
  assert (Htwice : merge_dim_channels env2 src once
                   = (λ t, match List.find (dim_matches t) src with
                           | Some s => dim_update env2 s t
                           | None => t
                           end) <$> once).
  { unfold merge_dim_channels at 1. rewrite Hnew. apply app_nil_r. }
  rewrite Htwice. split.
  - apply Forall2_fmap_self. intros r Hr. rewrite (Hstep r Hr).
    destruct (existsb _ src); [by repeat split|apply same_but_last_updated_refl].
  - intros i r Hi. rewrite list_lookup_fmap, Hi. cbn.
    f_equal. apply Hstep. by eapply list_elem_of_lookup_2.
Qed.

(** C9 on the sample warehouse: UC1 is known and gets the day's values,
    keeping its [first_seen_date]; UC2 is new and is appended with the
    current date. *)
Lemma load_channels_upsert_witness :
  let env := demo_env 1705384800 in
  DIM_CHANNELS (SnowflakeLoaderService._load_channels env demo_warehouse) !! 0%nat
  = Some {| Dim.channel_id := Some "UC1";
            Dim.channel_title := Some "Channel One";
            Dim.channel_country := Some "US";
            Dim.subscriber_count := Some 1500;
            Dim.video_count := Some 12;
            Dim.first_seen_date := Some 19700;
            Dim.last_updated := Some 1705384800 |}
  ∧ {| Dim.channel_id := Some "UC2";
       Dim.channel_title := Some "Channel Two";
       Dim.channel_country := Some "US";
       Dim.subscriber_count := Some 70;
       Dim.video_count := Some 12;
       Dim.first_seen_date := Some 19738;
       Dim.last_updated := None |}
    ∈ drop 1 (DIM_CHANNELS (SnowflakeLoaderService._load_channels env demo_warehouse)).
Proof.
  intros env.
  destruct (load_channels_upsert env demo_warehouse) as (Hupd & _ & Hins & _).
  split.
  - refine (Hupd 0%nat _ {| TempChannels.channel_id := Some "UC1";
                            TempChannels.channel_title := Some "Channel One";
                            TempChannels.channel_country := Some "US";
                            TempChannels.subscriber_count := Some 1500;
                            TempChannels.video_count := Some 12 |} eq_refl _ eq_refl).
    vm_compute. apply list_elem_of_here.
  - refine (Hins {| TempChannels.channel_id := Some "UC2";
                    TempChannels.channel_title := Some "Channel Two";
                    TempChannels.channel_country := Some "US";
                    TempChannels.subscriber_count := Some 70;
                    TempChannels.video_count := Some 12 |} _ _).
    + vm_compute. apply list_elem_of_further, list_elem_of_here.
    + intros t Ht. apply list_elem_of_singleton in Ht as ->. done.
Defined.

(** C5, as stated, fails: on the sample warehouse a second run one hour
    after the first changes [last_updated] of both channels. *)
Lemma load_channels_twice_counterexample :
  let env1 := demo_env 1705384800 in
  let env2 := demo_env 1705388400 in
  let once :=
    DIM_CHANNELS (SnowflakeLoaderService._load_channels env1 demo_warehouse) in
  let twice :=
    DIM_CHANNELS
      (SnowflakeLoaderService._load_channels env2
         (SnowflakeLoaderService._load_channels env1 demo_warehouse)) in
  stage env2 = stage env1
  ∧ Dim.last_updated <$> once = [Some 1705384800; None]
  ∧ Dim.last_updated <$> twice = [Some 1705388400; Some 1705388400]
  ∧ twice ≠ once.
Proof.
  intros env1 env2 once twice.
  split; [reflexivity|]. split; [reflexivity|]. split; [reflexivity|].
  intros Heq. apply (f_equal (fmap Dim.last_updated)) in Heq.
  vm_compute in Heq. discriminate Heq.
Qed.

(** The amended C5 on the sample warehouse, the second run one hour after
    the first. *)
Lemma load_channels_twice_witness :
  let env1 := demo_env 1705384800 in
  let env2 := demo_env 1705388400 in
  Forall2 same_but_last_updated
    (DIM_CHANNELS
       (SnowflakeLoaderService._load_channels env2
          (SnowflakeLoaderService._load_channels env1 demo_warehouse)))
    (DIM_CHANNELS (SnowflakeLoaderService._load_channels env1 demo_warehouse)).
Proof.
  intros env1 env2.
  exact (proj1 (load_channels_twice env1 env2 demo_warehouse eq_refl)).
Defined.

(** ** FactMerger *)

Lemma fact_matches_true (t s : Fact.row) :
  fact_matches t s = true
  ↔ is_Some (Fact.video_id s) ∧ Fact.video_id t = Fact.video_id s.
Proof.
  unfold fact_matches. rewrite sql_eq_true. split.
  - intros (x & -> & ->). split; [by eexists|done].
  - intros [[x Hx] Ht]. exists x. by rewrite Ht.
Qed.

Lemma staged_facts_video_id (stg : list Stg.row) (r : Fact.row) :
  r ∈ staged_facts stg → is_Some (Fact.video_id r).
Proof.
  unfold staged_facts. intros (row & -> & Hrow)%list_elem_of_fmap.
  apply list_elem_of_In, filter_In in Hrow as [_ Hrow].
  by apply bool_decide_eq_true in Hrow.
Qed.

(** Membership in [List.filter f (remove_dups l)]. *)
Lemma elem_of_filter_distinct {A : Type} `{EqDecision A} (f : A → bool)
    (l : list A) (x : A) :
  x ∈ List.filter f (remove_dups l) → x ∈ l ∧ f x = true.
Proof.
  intros Hx. apply list_elem_of_In, filter_In in Hx as [Hx Hf].
  apply list_elem_of_In in Hx. rewrite elem_of_remove_dups in Hx. done.
Qed.

(** The fact merge never touches a row that is already in the table. *)
Lemma merge_fact_videos_keeps_rows (stg : list Stg.row) (tgt : list Fact.row) :
  take (length tgt) (merge_fact_videos stg tgt) = tgt.
Proof. unfold merge_fact_videos. by rewrite take_app_length. Qed.

(** A row that the fact merge appends comes from the staging area and has
    a video identifier that the table did not have. *)
Lemma merge_fact_videos_inserts_new (stg : list Stg.row) (tgt : list Fact.row)
    (r : Fact.row) :
  r ∈ drop (length tgt) (merge_fact_videos stg tgt) →
  r ∈ staged_facts stg
  ∧ is_Some (Fact.video_id r)
  ∧ ∀ t, t ∈ tgt → Fact.video_id t ≠ Fact.video_id r.
Proof.
  unfold merge_fact_videos. rewrite drop_app_length.
  intros Hr. apply elem_of_filter_distinct in Hr as [Hr Hnew].
  pose proof (staged_facts_video_id stg r Hr) as Hsome.
  split; [done|]. split; [done|].
  intros t Ht Hid. apply negb_true_iff, not_true_iff_false in Hnew.
  apply Hnew, existsb_exists. exists t. split; [by apply list_elem_of_In|].
  by apply fact_matches_true.
Qed.

Lemma NoDup_list_filter {A : Type} (f : A → bool) (l : list A) :
  NoDup l → NoDup (List.filter f l).
Proof.
  induction 1 as [|x l Hx Hnd IH]; cbn; [constructor|].
  destruct (f x); [|done]. constructor; [|done].
  intros Hin. apply Hx. by apply list_elem_of_In, filter_In in Hin as [?%list_elem_of_In _].
Qed.

(** Where all staged copies of a video are equal in every column, the fact
    merge keeps the table at one row per video identifier. *)
Lemma merge_fact_videos_identical_copies (stg : list Stg.row) (tgt : list Fact.row) :
  one_row_per_video tgt →
  (∀ a b, a ∈ staged_facts stg → b ∈ staged_facts stg →
          Fact.video_id a = Fact.video_id b → a = b) →
  one_row_per_video (merge_fact_videos stg tgt).
Proof.
  intros Htgt Hcopies. unfold one_row_per_video, merge_fact_videos.
  rewrite fmap_app. apply NoDup_app. split; [done|]. split.
  - intros k Hk Hk'.
    apply list_elem_of_fmap in Hk as (t & -> & Ht).
    apply list_elem_of_fmap in Hk' as (s & Hid & Hs).
    apply elem_of_filter_distinct in Hs as [Hs Hnew].
    apply staged_facts_video_id in Hs.
    apply negb_true_iff, not_true_iff_false in Hnew.
    apply Hnew, existsb_exists. exists t. split; [by apply list_elem_of_In|].
    by apply fact_matches_true.
  - apply NoDup_fmap_2_strong.
    + intros a b [Ha _]%elem_of_filter_distinct [Hb _]%elem_of_filter_distinct.
      by apply Hcopies.
    + apply NoDup_list_filter, NoDup_remove_dups.
Qed.

(** C3 at the failing input: the staging area holds the video ["v1"] found
    under the search keywords "technology" and "AI".  [SELECT DISTINCT]
    keeps both rows, because they differ in [search_keyword], and the MERGE
    inserts both into the empty fact table: two rows for one video
    identifier. *)
Theorem load_video_facts_duplicate_video :
  let staged :=
    SnowflakeLoaderService._load_videos_to_staging (demo_env 1705384800)
      demo_warehouse in
  let facts := FACT_VIDEOS (SnowflakeLoaderService._load_video_facts staged) in
  FACT_VIDEOS staged = []
  ∧ Element.video_id ∘ Stg.raw_json <$> STG_VIDEOS staged = [Some "v1"; Some "v1"]
  ∧ Fact.video_id <$> facts = [Some "v1"; Some "v1"]
  ∧ Fact.search_keyword <$> facts = [Some "technology"; Some "AI"]
  ∧ ¬ one_row_per_video facts.
Proof.
  intros staged facts.
  split; [reflexivity|]. split; [reflexivity|].
  split; [reflexivity|]. split; [reflexivity|].
  unfold one_row_per_video.
  change (Fact.video_id <$> facts) with [Some "v1"; Some "v1"].
  intros Hnd. apply NoDup_cons in Hnd as [Hnotin _].
  apply Hnotin, list_elem_of_here.
Qed.

(** The stand-alone script inserts every staged row: a second load of the
    same staging area doubles the rows. *)
Lemma script_load_video_facts_appends (w : Warehouse) :
  FACT_VIDEOS (SnowflakeLoader.load_video_facts w)
  = FACT_VIDEOS w ++ staged_facts (STG_VIDEOS w).
Proof. reflexivity. Qed.

(** ** RecordAssembler *)

(** A property kept by every iteration that returns holds when the loop
    returns. *)
Lemma for_each_invariant {A S : Type} (P : S → Prop) (body : S → A → result S)
    (xs : list A) (acc r : S) :
  P acc →
  (∀ s x s', x ∈ xs → P s → body s x = Ok s' → P s') →
  for_each body xs acc = Ok r →
  P r.
Proof.
  revert acc. induction xs as [|x xs IH]; intros acc Hacc Hstep; cbn.
  - by intros [= <-].
  - destruct (body acc x) as [acc'|e] eqn:Hb; cbn; [|done].
    apply IH.
    + eapply Hstep; [left|exact Hacc|exact Hb].
    + intros s y s' Hy. apply Hstep. by right.
Qed.

Lemma dict_set_keys {V : Type} (key : string) (value : V) (d : list (string * V)) :
  (dict_set key value d).*1 = if bool_decide (key ∈ d.*1) then d.*1 else d.*1 ++ [key].
Proof.
  unfold dict_set. case_bool_decide as Hin.
  - rewrite <- list_fmap_compose. apply list_fmap_ext. intros i kv _. cbn.
    by case_bool_decide.
  - by rewrite fmap_app.
Qed.

Lemma collect_videos_channels `{PyBuiltins} `{YouTubeClient} {V : Type}
    (cfg : Config) (get_video_details : list string → list VideoItem)
    (placeholder : V) (collected : Collected V) :
  collect_videos cfg get_video_details placeholder = Ok collected →
  channels_of_videos collected.
Proof.
  unfold collect_videos.
  apply for_each_invariant.
  { split; [constructor|]. intros c. cbn. split; intros Hc; by apply elem_of_nil in Hc. }
  intros acc region acc' _ Hacc. apply for_each_invariant; [done|].
  clear acc acc' Hacc. intros acc keyword acc' _ Hacc.
  destruct (search_videos _ _ _); [by intros [= <-]|].
  apply for_each_invariant; [done|].
  clear acc acc' Hacc. intros [vs chs] video acc' _ [Hnd Hkeys].
  destruct (video_record _ _ _ _ _) as [record|] eqn:Hrec; cbn; [|done].
  intros [= <-]. unfold channels_of_videos. cbn in *.
  rewrite dict_set_keys, fmap_app. cbn.
  case_bool_decide as Hin.
  - split; [done|]. intros c. rewrite elem_of_app, list_elem_of_singleton, <- Hkeys.
    split; [by left|]. intros [?| ->]; done.
  - split.
    + apply NoDup_app. split; [done|]. split; [|apply NoDup_singleton].
      intros c Hc ->%list_elem_of_singleton. done.
    + intros c. rewrite !elem_of_app, !list_elem_of_singleton, Hkeys. done.
Qed.

Lemma for_each_append {A B : Type} (f : A → result B) (xs : list A)
    (acc res : list B) :
  for_each (λ out x, y ← f x; Ok (out ++ [y])) xs acc = Ok res →
  ∃ ys, res = acc ++ ys ∧ Forall2 (λ x y, f x = Ok y) xs ys.
Proof.
  revert acc. induction xs as [|x xs IH]; intros acc; cbn.
  - intros [= <-]. exists []. by rewrite app_nil_r.
  - destruct (f x) as [y|e] eqn:Hf; cbn; [|done].
    intros (ys & -> & Hys)%IH. exists (y :: ys).
    rewrite <- app_assoc. split; [done|]. by constructor.
Qed.

Lemma channel_record_id `{PyBuiltins} (channel : ChannelItem) (record : ChannelRecord.t) :
  channel_record channel = Ok record →
  c_id channel = Some (ChannelRecord.channel_id record).
Proof.
  unfold channel_record.
  destruct (c_id channel) as [i|]; cbn; [|done].
  destruct (c_snippet channel) as [sn|]; cbn; [|done].
  destruct (cs_title sn); cbn; [|done].
  destruct (c_statistics channel) as [st|]; cbn; [|done].
  destruct (stat_count st "subscriberCount"); cbn; [|done].
  destruct (stat_count st "videoCount"); cbn; [|done].
  by intros [= <-].
Qed.

(** C8, amended.  When [collect_data] of the function app returns, the
    channel lookup was asked for the distinct channel identifiers of the
    video batch, each once; the channel list holds one record for each
    item that the lookup answered, in that order, built from that item; so
    it holds exactly one record per distinct channel identifier when the
    lookup answers one item for each identifier asked. *)
Theorem collect_data_channels `{PyBuiltins} `{YouTubeClient} (cfg : Config)
    (videos : list VideoRecord.t) (channels : list ChannelRecord.t) :
  YouTubeCollectorService.collect_data cfg = Ok (videos, channels) →
  ∃ collected,
    collect_videos cfg YouTubeCollectorService.get_video_details () = Ok collected
    ∧ collected.1 = videos
    ∧ let channel_ids := YouTubeCollectorService.requested_channel_ids collected in
      let found := YouTubeCollectorService.get_channel_details channel_ids in
      NoDup channel_ids
      ∧ (∀ c, c ∈ channel_ids ↔ c ∈ VideoRecord.channel_id <$> videos)
      ∧ Forall2 (λ item record, channel_record item = Ok record) found channels
      ∧ Some ∘ ChannelRecord.channel_id <$> channels = c_id <$> found
      ∧ (c_id <$> found ≡ₚ Some <$> channel_ids →
         one_record_per_channel videos channels).
Proof.
  unfold YouTubeCollectorService.collect_data.
  destruct (collect_videos cfg YouTubeCollectorService.get_video_details ())
    as [collected|] eqn:Hcol; cbn; [|done].
  set (channel_ids := YouTubeCollectorService.requested_channel_ids collected).
  set (found := YouTubeCollectorService.get_channel_details channel_ids).
  destruct (for_each _ found []) as [records|] eqn:Hrec; cbn; [|done].
  intros [= <- <-]. exists collected. split; [done|]. split; [done|].
  destruct (collect_videos_channels cfg _ _ collected Hcol) as [Hnd Hkeys].
  apply for_each_append in Hrec as (ys & -> & Hys). cbn in *.
  assert (Hids : Some ∘ ChannelRecord.channel_id <$> ys = c_id <$> found).
  { clear -Hys. induction Hys as [|item record items records Hitem _ IH]; [done|].
    cbn. f_equal; [|done]. symmetry. by apply channel_record_id. }
  split; [done|]. split; [done|]. split; [done|]. split; [done|].
  intros Hperm. subst found channel_ids.
  rewrite <- Hids, list_fmap_compose in Hperm.
  apply Permutation_map_inv in Hperm as (ids & Hids' & Hperm).
  apply (inj (fmap Some)) in Hids' as <-.
  unfold one_record_per_channel. split.
  - by rewrite <- Hperm.
  - intros c. rewrite <- Hperm. apply Hkeys.
Qed.

(** C8, as stated, fails when the channel lookup fails: the function app
    returns the video of channel ["UC1"] and an empty channel list, and the
    stand-alone script returns a list whose only element is [None]. *)
Lemma collect_data_lookup_failure_counterexample :
  let client := demo_client (Raise HttpError) in
  ∃ video,
    VideoRecord.channel_id video = "UC1"
    ∧ YouTubeCollectorService.collect_data (H := AsciiBuiltins.builtins) (H0 := client)
        AzureFunctionConfig = Ok ([video], [])
    ∧ ¬ one_record_per_channel [video] []
    ∧ YouTubeCollector.collect_data (H := AsciiBuiltins.builtins) (H0 := client)
        AzureFunctionConfig = Ok ([video], [None]).
Proof.
  intros client. eexists. split; [|split; [vm_compute; reflexivity|split]].
  - reflexivity.
  - intros [_ Hall]. specialize (Hall "UC1"). cbn in Hall.
    destruct Hall as [_ Hall]. eapply elem_of_nil, Hall, list_elem_of_here.
  - vm_compute. reflexivity.
Qed.

(** The amended C8 at a run where the lookup answers for ["UC1"]. *)
Lemma collect_data_channels_witness :
  let client := demo_client (Ok (Some [demo_channel])) in
  ∃ videos channels,
    YouTubeCollectorService.collect_data (H := AsciiBuiltins.builtins) (H0 := client)
      AzureFunctionConfig = Ok (videos, channels)
    ∧ ChannelRecord.channel_id <$> channels = ["UC1"]
    ∧ one_record_per_channel videos channels.
Proof.
  intros client.
  destruct (YouTubeCollectorService.collect_data
              (H := AsciiBuiltins.builtins) (H0 := client)
              AzureFunctionConfig) as [[videos channels]|] eqn:Hrun;
    [|by vm_compute in Hrun].
  exists videos, channels. split; [done|].
  destruct (collect_data_channels (H := AsciiBuiltins.builtins) (H0 := client)
              AzureFunctionConfig videos channels Hrun)
    as (collected & Hcol & _ & _ & _ & _ & _ & Hone).
  vm_compute in Hrun. injection Hrun as <- <-.
  split; [reflexivity|].
  apply Hone. vm_compute in Hcol. injection Hcol as <-. reflexivity.
Defined.

(** ** Rounding in binary64 *)

Lemma digits2_pos_size (p : positive) : digits2_pos p = Pos.size p.
Proof. induction p; cbn; congruence. Qed.

Lemma Zdigits2_nonneg (m : Z) : 0 ≤ Zdigits2 m.
Proof. destruct m; cbn; lia. Qed.

(** [m < 2 ^ Zdigits2 m] *)
Lemma Zdigits2_gt (m : Z) : 0 ≤ m → m < 2 ^ Zdigits2 m.
Proof.
  destruct m as [|p|p]; cbn [Zdigits2]; [lia| |lia]. intros _.
  rewrite digits2_pos_size.
  pose proof (Pos.size_gt p) as Hgt.
  apply Pos2Z.pos_lt_pos in Hgt. rewrite Pos2Z.inj_pow in Hgt. exact Hgt.
Qed.

(** [Zdigits2 m ≤ k] when [m < 2 ^ k] *)
Lemma Zdigits2_le (m k : Z) : 0 ≤ m → 0 ≤ k → m < 2 ^ k → Zdigits2 m ≤ k.
Proof.
  intros Hm Hk Hlt.
  destruct m as [|p|p]; cbn [Zdigits2]; [lia| |lia].
  rewrite digits2_pos_size.
  pose proof (Pos.size_le p) as Hle.
  apply Pos2Z.pos_le_pos in Hle. rewrite Pos2Z.inj_pow in Hle.
  change (Z.pos p~0) with (2 * Z.pos p) in Hle.
  destruct (Z.le_gt_cases (Z.pos (Pos.size p)) k) as [|Hgt]; [done|].
  exfalso.
  assert (2 ^ (k + 1) ≤ 2 ^ Z.pos (Pos.size p)) by (apply Z.pow_le_mono_r; lia).
  rewrite Z.pow_add_r in * by lia. lia.
Qed.

Lemma shr_1_m (mrs : shr_record) :
  0 ≤ shr_m mrs → shr_m (shr_1 mrs) = shr_m mrs / 2.
Proof.
  destruct mrs as [m r s]. cbn [shr_m]. intros Hm.
  destruct m as [|[p|p|]|p]; cbn [shr_1 shr_m].
  - reflexivity.
  - rewrite Pos2Z.inj_xI. apply Z.div_unique with 1; lia.
  - rewrite Pos2Z.inj_xO. apply Z.div_unique with 0; lia.
  - reflexivity.
  - lia.
Qed.

Lemma iter_pos_shr_m (p : positive) (mrs : shr_record) :
  0 ≤ shr_m mrs →
  shr_m (SpecFloat.iter_pos shr_1 p mrs) = shr_m mrs / 2 ^ Z.pos p.
Proof.
  revert mrs. induction p as [p IH|p IH|]; intros mrs Hm; cbn [SpecFloat.iter_pos].
  - assert (H1 : 0 ≤ shr_m (shr_1 mrs)) by (rewrite shr_1_m by done; apply Z.div_pos; lia).
    assert (H2 : 0 ≤ shr_m (SpecFloat.iter_pos shr_1 p (shr_1 mrs))).
    { rewrite IH by done. apply Z.div_pos; lia. }
    rewrite IH, IH, shr_1_m by done.
    rewrite !Z.div_div by lia. f_equal.
    replace (Z.pos p~1) with (1 + Z.pos p + Z.pos p) by lia.
    rewrite !Z.pow_add_r by lia. change (2 ^ 1) with 2. lia.
  - assert (H2 : 0 ≤ shr_m (SpecFloat.iter_pos shr_1 p mrs)).
    { rewrite IH by done. apply Z.div_pos; lia. }
    rewrite IH, IH by done.
    rewrite !Z.div_div by lia. f_equal.
    replace (Z.pos p~0) with (Z.pos p + Z.pos p) by lia.
    rewrite !Z.pow_add_r by lia. reflexivity.
  - rewrite shr_1_m by done. reflexivity.
Qed.

Lemma shr_record_of_loc_m (m : Z) (l : location) : shr_m (shr_record_of_loc m l) = m.
Proof. by destruct l as [|[]]. Qed.

(** The first component of [shr_fexp] is [m / 2 ^ n] and the exponent
    [e + n], for the shift [n] that [fexp] asks for. *)
Lemma shr_fexp_spec (m e : Z) (l : location) :
  0 ≤ m →
  let n := Z.max 0 (fexp Float64.prec Float64.emax (Zdigits2 m + e) - e) in
  shr_m (shr_fexp Float64.prec Float64.emax m e l).1 = m / 2 ^ n
  ∧ (shr_fexp Float64.prec Float64.emax m e l).2 = e + n.
Proof.
  intros Hm n. unfold shr_fexp, shr. subst n.
  destruct (fexp _ _ _ - e) as [|p|p] eqn:Hn; cbn [fst snd].
  - rewrite shr_record_of_loc_m, Z.max_l by lia. rewrite Z.div_1_r. lia.
  - rewrite iter_pos_shr_m by (by rewrite shr_record_of_loc_m).
    rewrite shr_record_of_loc_m, Z.max_r by lia. done.
  - rewrite shr_record_of_loc_m, Z.max_l by lia. rewrite Z.div_1_r. lia.
Qed.

Lemma round_nearest_even_bounds (m : Z) (l : location) :
  m ≤ round_nearest_even m l ≤ m + 1.
Proof. destruct l as [|[]]; cbn; try destruct (Z.even m); lia. Qed.

Lemma fexp64_eq (x : Z) : fexp Float64.prec Float64.emax x = fexp64 x.
Proof. reflexivity. Qed.

(** [binary_round_aux] on a non-negative mantissa: shift as [fexp] asks,
    round to [m1], shift again. *)
Lemma binary_round_aux_spec (sx : bool) (mx ex : Z) (lx : location) :
  0 ≤ mx →
  let n1 := Z.max 0 (fexp64 (Zdigits2 mx + ex) - ex) in
  let e1 := ex + n1 in
  ∃ m1 : Z,
    mx / 2 ^ n1 ≤ m1 ≤ mx / 2 ^ n1 + 1
    ∧ let n2 := Z.max 0 (fexp64 (Zdigits2 m1 + e1) - e1) in
      binary_round_aux Float64.prec Float64.emax sx mx ex lx
      = match m1 / 2 ^ n2 with
        | Z0 => S754_zero sx
        | Zpos m => if e1 + n2 <=? 971 then S754_finite sx m (e1 + n2)
                    else S754_infinity sx
        | Zneg _ => S754_nan
        end.
Proof.
  intros Hmx n1 e1. unfold binary_round_aux.
  destruct (shr_fexp_spec mx ex lx Hmx) as [Hm0 He1].
  destruct (shr_fexp Float64.prec Float64.emax mx ex lx) as [mrs' e'] eqn:Hs1.
  cbn [fst snd] in Hm0, He1. rewrite fexp64_eq in Hm0, He1. fold n1 in Hm0, He1.
  fold e1 in He1. subst e'.
  set (m1 := round_nearest_even (shr_m mrs') (loc_of_shr_record mrs')).
  pose proof (round_nearest_even_bounds (shr_m mrs') (loc_of_shr_record mrs')) as Hm1.
  fold m1 in Hm1. rewrite Hm0 in Hm1.
  assert (Hm1' : 0 ≤ m1).
  { assert (0 ≤ mx / 2 ^ n1) by (apply Z.div_pos; lia). lia. }
  exists m1. split; [done|].
  set (n2 := Z.max 0 (fexp64 (Zdigits2 m1 + e1) - e1)).
  destruct (shr_fexp_spec m1 e1 loc_Exact Hm1') as [Hm2 He2].
  destruct (shr_fexp Float64.prec Float64.emax m1 e1 loc_Exact) as [mrs'' e''] eqn:Hs2.
  cbn [fst snd] in Hm2, He2. rewrite fexp64_eq in Hm2, He2. fold n2 in Hm2, He2.
  subst e''. rewrite Hm2. reflexivity.
Qed.

Lemma div_pow2_lt (m d n : Z) :
  0 ≤ m < 2 ^ d → 0 ≤ d → 0 ≤ n → m / 2 ^ n < 2 ^ Z.max (d - n) 0.
Proof.
  intros [Hm Hlt] Hd Hn.
  destruct (Z.le_gt_cases n d) as [Hle|Hgt].
  - rewrite Z.max_l by lia.
    apply Z.div_lt_upper_bound; [lia|].
    rewrite <- Z.pow_add_r by lia. by replace (n + (d - n)) with d by lia.
  - rewrite Z.max_r by lia. rewrite Z.div_small; [done|].
    split; [done|]. eapply Z.lt_le_trans; [exact Hlt|].
    apply Z.pow_le_mono_r; lia.
Qed.

(** A rounding whose input has exponent at most [E] and fewer than
    [E + 53] binary digits before the point does not overflow. *)
Lemma binary_round_aux_bounded (sx : bool) (mx ex : Z) (lx : location) (E : Z) :
  0 ≤ mx → -1074 ≤ E → E ≤ 971 → ex ≤ E → Zdigits2 mx + ex ≤ E + 52 →
  binary_round_aux Float64.prec Float64.emax sx mx ex lx = S754_zero sx
  ∨ ∃ m e, binary_round_aux Float64.prec Float64.emax sx mx ex lx = S754_finite sx m e
           ∧ e ≤ E ∧ Zdigits2 (Z.pos m) ≤ 53.
Proof.
  intros Hmx HE1 HE2 Hex HD.
  destruct (binary_round_aux_spec sx mx ex lx Hmx) as (m1 & Hm1 & ->).
  set (D := Zdigits2 mx) in *.
  set (n1 := Z.max 0 (fexp64 (D + ex) - ex)) in *.
  set (e1 := ex + n1) in *.
  set (d1 := Zdigits2 m1).
  set (n2 := Z.max 0 (fexp64 (d1 + e1) - e1)).
  pose proof (Zdigits2_nonneg mx) as HD0. fold D in HD0.
  pose proof (Zdigits2_gt mx Hmx) as HltD. fold D in HltD.
  assert (Hn1 : 0 ≤ n1) by (unfold n1; lia).
  assert (He1 : e1 ≤ E) by (unfold e1, n1, fexp64; lia).
  pose proof (div_pow2_lt mx D n1 (conj Hmx HltD) HD0 Hn1) as Hm0.
  assert (Hm0' : 0 ≤ mx / 2 ^ n1) by (apply Z.div_pos; lia).
  assert (Hm1' : 0 ≤ m1) by lia.
  assert (Hd1 : d1 ≤ Z.max (D - n1) 0 + 1).
  { apply Zdigits2_le; [done|lia|].
    rewrite Z.pow_add_r by lia. change (2 ^ 1) with 2.
    assert (0 < 2 ^ Z.max (D - n1) 0) by (apply Z.pow_pos_nonneg; lia). lia. }
  pose proof (Zdigits2_nonneg m1) as Hd0. fold d1 in Hd0.
  pose proof (Zdigits2_gt m1 Hm1') as Hltd1. fold d1 in Hltd1.
  assert (Hn2 : 0 ≤ n2) by (unfold n2; lia).
  assert (He2 : e1 + n2 ≤ E) by (unfold n2, fexp64, e1 in *; lia).
  pose proof (div_pow2_lt m1 d1 n2 (conj Hm1' Hltd1) Hd0 Hn2) as Hm2.
  assert (Hm2' : 0 ≤ m1 / 2 ^ n2) by (apply Z.div_pos; lia).
  destruct (m1 / 2 ^ n2) as [|m|m] eqn:Hq; [by left| |lia].
  right. exists m, (e1 + n2).
  rewrite (proj2 (Z.leb_le _ _)) by lia. split; [done|]. split; [done|].
  apply Zdigits2_le; [lia|lia|].
  eapply Z.lt_le_trans; [exact Hm2|].
  apply Z.pow_le_mono_r; [lia|]. unfold n2, fexp64. lia.
Qed.

Lemma nonneg_float_nonneg (x : spec_float) :
  nonneg_float x → Float64.nonneg x = true ∧ Float64.sign_bit x = false.
Proof. by destruct x as [[]|[]| |[] m e]. Qed.

Lemma binary_round_aux_nonneg (mx ex : Z) (lx : location) :
  0 ≤ mx → nonneg_float (binary_round_aux Float64.prec Float64.emax false mx ex lx).
Proof.
  intros Hmx.
  destruct (binary_round_aux_spec false mx ex lx Hmx) as (m1 & Hm1 & ->).
  cbv zeta.
  set (n1 := Z.max 0 _) in *. set (n2 := Z.max 0 _).
  assert (0 ≤ mx / 2 ^ n1) by (apply Z.div_pos; lia).
  assert (0 ≤ m1 / 2 ^ n2) by (apply Z.div_pos; lia).
  destruct (m1 / 2 ^ n2); [done| |lia].
  by destruct (_ <=? _).
Qed.

(** The core of the division of two positive integers. *)
Lemma div_core_spec (n v : positive) :
  let e' := Z.min (fexp64 (Zdigits2 (Z.pos n) - Zdigits2 (Z.pos v))) 0 in
  ∃ l, SFdiv_core_binary Float64.prec Float64.emax (Z.pos n) 0 (Z.pos v) 0
       = (Z.pos n * 2 ^ (- e') / Z.pos v, e', l).
Proof.
  intros e'. unfold SFdiv_core_binary.
  rewrite !Z.add_0_r, Z.sub_0_r, fexp64_eq. fold e'.
  assert (He : e' ≤ 0) by (unfold e'; lia).
  assert (Hm : match 0 - e' with
               | 0 => Z.pos n
               | Z.pos _ => Z.shiftl (Z.pos n) (0 - e')
               | Z.neg _ => 0
               end = Z.pos n * 2 ^ (- e')).
  { replace (0 - e') with (- e') by lia.
    destruct (- e') as [|p|p] eqn:Hs; [lia| |lia].
    by rewrite Z.shiftl_mul_pow2. }
  rewrite Hm. unfold Z.div.
  destruct (Z.div_eucl _ _) as [q r]. by eexists.
Qed.

Lemma div_int_nonneg (n v : positive) :
  nonneg_float (Float64.div (S754_finite false n 0) (S754_finite false v 0)).
Proof.
  unfold Float64.div, SFdiv.
  destruct (div_core_spec n v) as [l ->]. cbn [xorb].
  apply binary_round_aux_nonneg. apply Z.div_pos; [|lia].
  apply Z.mul_nonneg_nonneg; [lia|]. apply Z.pow_nonneg. lia.
Qed.

(** The quotient of integers below [2 ^ 1023] is finite. *)
Lemma div_int_finite (n v : positive) :
  Z.pos n < 2 ^ 1023 →
  Float64.is_finite (Float64.div (S754_finite false n 0) (S754_finite false v 0)) = true.
Proof.
  intros Hn. unfold Float64.div, SFdiv.
  destruct (div_core_spec n v) as [l ->]. cbn [xorb].
  set (e' := Z.min _ 0).
  assert (He : e' ≤ 0) by (unfold e'; lia).
  assert (Hpow : 0 < 2 ^ (- e')) by (apply Z.pow_pos_nonneg; lia).
  set (P := 2 ^ (- e')) in *. set (q := _ / _).
  assert (Hq0 : 0 ≤ q) by (apply Z.div_pos; lia).
  assert (Hq : q ≤ Z.pos n * P).
  { unfold q. apply Z.div_le_upper_bound; [lia|]. nia. }
  assert (Hd : Zdigits2 q ≤ 1023 - e').
  { apply Zdigits2_le; [done|lia|].
    replace (1023 - e') with (1023 + - e') by lia.
    rewrite Z.pow_add_r by lia. fold P. nia. }
  destruct (binary_round_aux_bounded false q e' l 971 Hq0) as [->|(m & e & -> & _)];
    try done; lia.
Qed.

Lemma mul_hundred_nonneg (q : spec_float) :
  nonneg_float q → nonneg_float (Float64.mul q Float64.hundred).
Proof.
  destruct q as [[]|[]| |[] m e]; try done. intros _.
  unfold Float64.mul, Float64.hundred, SFmul. cbn [xorb].
  apply binary_round_aux_nonneg. lia.
Qed.

Lemma round_nonneg (p : spec_float) (ndigits : Z) :
  nonneg_float p → nonneg_float (Float64.round p ndigits).
Proof.
  destruct p as [[]|[]| |[] m e]; try done. intros _.
  unfold Float64.round.
  destruct (Float64.scaled ndigits m e) as [|k|k]; [done| |done].
  unfold Float64.exact_int.
  pose proof (Z.pow_nonneg 10 ndigits ltac:(lia)) as Hpow.
  destruct (10 ^ ndigits) as [|t|t]; [done|apply div_int_nonneg|lia].
Qed.

Lemma truediv_nonneg (n v : Z) :
  0 ≤ n → 0 < v → n < 2 ^ 1023 →
  ∃ q, Float64.truediv n v = Ok q ∧ nonneg_float q.
Proof.
  intros Hn Hv Hlt. unfold Float64.truediv.
  rewrite (proj2 (Z.eqb_neq v 0)) by lia.
  destruct v as [|v|v]; [lia| |lia].
  destruct n as [|n|n]; [by eexists| |lia].
  cbn [Float64.exact_int].
  pose proof (div_int_nonneg n v) as Hq.
  pose proof (div_int_finite n v Hlt) as Hfin.
  destruct (Float64.div _ _) as [[]|[]| |[] m e]; try done; by eexists.
Qed.

Lemma EngagementScorer_nonneg (views likes comments : Z) :
  0 ≤ views → 0 ≤ likes → 0 ≤ comments → likes + comments < 2 ^ 1023 →
  ∃ r, EngagementScorer views likes comments = Ok r ∧ nonneg_float r.
Proof.
  intros Hv Hl Hc Hlt. unfold EngagementScorer.
  destruct (Z.eqb_spec views 0) as [->|Hne]; [by eexists|].
  destruct (truediv_nonneg (likes + comments) views) as (q & -> & Hq); [lia..|].
  cbn. eexists. split; [reflexivity|].
  by apply round_nonneg, mul_hundred_nonneg.
Qed.

Lemma ple_scaled (K j m e c : Z) :
  c ≤ j → c ≤ e →
  ple K j m e ↔ K * 2 ^ (j - c) ≤ m * 2 ^ (e - c).
Proof.
  intros Hj He. unfold ple. set (c0 := Z.min j e).
  assert (Hc : c ≤ c0) by (unfold c0; lia).
  replace (j - c) with ((j - c0) + (c0 - c)) by lia.
  replace (e - c) with ((e - c0) + (c0 - c)) by lia.
  rewrite !Z.pow_add_r by lia.
  assert (0 < 2 ^ (c0 - c)) by (apply Z.pow_pos_nonneg; lia).
  split; intros Hle; nia.
Qed.

Lemma Zdigits2_lower (m : Z) : 0 < m → 2 ^ (Zdigits2 m - 1) ≤ m.
Proof.
  destruct m as [|p|p]; [lia| |lia]. intros _. cbn [Zdigits2].
  rewrite digits2_pos_size.
  pose proof (Pos.size_le p) as Hle.
  apply Pos2Z.pos_le_pos in Hle. rewrite Pos2Z.inj_pow in Hle.
  change (Z.pos p~0) with (2 * Z.pos p) in Hle.
  replace (Z.pos (Pos.size p)) with (1 + (Z.pos (Pos.size p) - 1)) in Hle by lia.
  rewrite Z.pow_add_r in Hle by lia. change (2 ^ 1) with 2 in Hle. lia.
Qed.

(** The shift that [fexp] asks for does not take a number below a
    representable number that it was not below. *)
Lemma shift_keeps_ple (K j m e : Z) :
  0 < K → Zdigits2 K ≤ 53 → -1074 ≤ j → 0 ≤ m →
  ple K j m e →
  let n := Z.max 0 (fexp64 (Zdigits2 m + e) - e) in
  ple K j (m / 2 ^ n) (e + n).
Proof.
  intros HK HdK Hj Hm Hle n.
  destruct (Z.eq_dec n 0) as [Hn0|Hn0].
  { rewrite Hn0, Z.div_1_r, Z.add_0_r. done. }
  assert (Hn : 0 < n) by (unfold n in *; lia).
  set (D := Zdigits2 m) in *.
  assert (He1 : e + n = fexp64 (D + e)) by (unfold n in *; lia).
  assert (Hpn : 0 < 2 ^ n) by (apply Z.pow_pos_nonneg; lia).
  destruct (Z.le_gt_cases (e + n) j) as [Hge|Hlt].
  - apply (ple_scaled K j m e e) in Hle; [|lia|lia].
    rewrite Z.sub_diag, Z.mul_1_r in Hle.
    apply (ple_scaled K j _ _ (e + n)); [lia|lia|].
    rewrite Z.sub_diag, Z.mul_1_r.
    apply Z.div_le_lower_bound; [done|].
    replace (j - e) with (n + (j - (e + n))) in Hle by lia.
    rewrite Z.pow_add_r in Hle by lia. lia.
  - assert (He1' : e + n = D + e - 53) by (unfold fexp64 in He1; lia).
    assert (Hmpos : 0 < m).
    { destruct m as [|p|p]; [|lia|lia]. cbn in D. lia. }
    pose proof (Zdigits2_lower m Hmpos) as Hlow. fold D in Hlow.
    pose proof (Zdigits2_gt K ltac:(lia)) as HKlt.
    assert (HK53 : K < 2 ^ 53).
    { eapply Z.lt_le_trans; [exact HKlt|]. apply Z.pow_le_mono_r; lia. }
    assert (Hm0 : 2 ^ 52 ≤ m / 2 ^ n).
    { apply Z.div_le_lower_bound; [done|].
      rewrite <- Z.pow_add_r by lia. replace (n + 52) with (D - 1) by lia. done. }
    apply (ple_scaled K j _ _ j); [lia|lia|].
    rewrite Z.sub_diag, Z.mul_1_r.
    assert (2 ^ 1 ≤ 2 ^ (e + n - j)) by (apply Z.pow_le_mono_r; lia).
    change (2 ^ 1) with 2 in *. nia.
Qed.

Lemma ple_mono (K j m m' e : Z) : m ≤ m' → ple K j m e → ple K j m' e.
Proof.
  intros Hm. unfold ple.
  assert (0 < 2 ^ (e - Z.min j e)) by (apply Z.pow_pos_nonneg; lia). nia.
Qed.

Lemma ple_pos (K j m e : Z) : 0 < K → ple K j m e → 0 < m.
Proof.
  intros HK. unfold ple.
  assert (0 < 2 ^ (e - Z.min j e)) by (apply Z.pow_pos_nonneg; lia).
  assert (0 < 2 ^ (j - Z.min j e)) by (apply Z.pow_pos_nonneg; lia). nia.
Qed.

(** Rounding to nearest does not take a number below a representable
    number that it was not below. *)
Lemma binary_round_aux_ge (mx ex : Z) (lx : location) (K j : Z) :
  0 < K → Zdigits2 K ≤ 53 → -1074 ≤ j → 0 ≤ mx →
  ple K j mx ex →
  float_ge K j (binary_round_aux Float64.prec Float64.emax false mx ex lx).
Proof.
  intros HK HdK Hj Hmx Hle.
  destruct (binary_round_aux_spec false mx ex lx Hmx) as (m1 & Hm1 & ->).
  cbv zeta.
  set (n1 := Z.max 0 (fexp64 (Zdigits2 mx + ex) - ex)) in *.
  set (e1 := ex + n1).
  set (n2 := Z.max 0 (fexp64 (Zdigits2 m1 + e1) - e1)).
  pose proof (shift_keeps_ple K j mx ex HK HdK Hj Hmx Hle) as H0.
  cbv zeta in H0. fold n1 e1 in H0.
  assert (H1 : ple K j m1 e1) by (eapply ple_mono; [|exact H0]; lia).
  assert (Hm1' : 0 ≤ m1) by (apply ple_pos in H1; lia).
  pose proof (shift_keeps_ple K j m1 e1 HK HdK Hj Hm1' H1) as H2.
  cbv zeta in H2. fold n2 in H2.
  pose proof (ple_pos _ _ _ _ HK H2) as Hpos.
  pose proof (Zdigits2_nonneg m1) as Hd0.
  pose proof (Zdigits2_gt m1 Hm1') as Hltd1.
  assert (Hn2 : 0 ≤ n2) by (unfold n2; lia).
  pose proof (div_pow2_lt m1 (Zdigits2 m1) n2 (conj Hm1' Hltd1) Hd0 Hn2) as Hm2.
  destruct (m1 / 2 ^ n2) as [|m|m] eqn:Hq; [lia| |lia].
  destruct (_ <=? _); [|done]. split; [done|].
  apply Zdigits2_le; [lia|lia|].
  eapply Z.lt_le_trans; [exact Hm2|].
  apply Z.pow_le_mono_r; [lia|]. unfold n2, fexp64. lia.
Qed.

(** [n / v ≥ 1] as a float when [n ≥ v]. *)
Lemma div_int_ge_one (n v : positive) :
  Z.pos v ≤ Z.pos n →
  float_ge 1 0 (Float64.div (S754_finite false n 0) (S754_finite false v 0)).
Proof.
  intros Hnv. unfold Float64.div, SFdiv.
  destruct (div_core_spec n v) as [l ->]. cbn [xorb].
  set (e' := Z.min _ 0).
  assert (He : e' ≤ 0) by (unfold e'; lia).
  assert (Hpow : 0 < 2 ^ (- e')) by (apply Z.pow_pos_nonneg; lia).
  apply binary_round_aux_ge; [lia|done|lia| |].
  - apply Z.div_pos; lia.
  - apply (ple_scaled 1 0 _ _ e'); [lia|lia|].
    rewrite Z.sub_diag, Z.mul_1_r, Z.mul_1_l, Z.sub_0_l.
    apply Z.div_le_lower_bound; [lia|]. nia.
Qed.

(** [k / 10^4 ≥ 100] as a float when [k ≥ 10^6]. *)
Lemma div_int_ge_hundred (k : positive) :
  1000000 ≤ Z.pos k →
  float_ge 100 0 (Float64.div (S754_finite false k 0) (S754_finite false 10000 0)).
Proof.
  intros Hk. unfold Float64.div, SFdiv.
  destruct (div_core_spec k 10000) as [l ->]. cbn [xorb].
  set (e' := Z.min _ 0).
  assert (He : e' ≤ 0) by (unfold e'; lia).
  assert (Hpow : 0 < 2 ^ (- e')) by (apply Z.pow_pos_nonneg; lia).
  apply binary_round_aux_ge; [lia|done|lia| |].
  - apply Z.div_pos; lia.
  - apply (ple_scaled 100 0 _ _ e'); [lia|lia|].
    rewrite Z.sub_diag, Z.mul_1_r, Z.sub_0_l.
    apply Z.div_le_lower_bound; [lia|]. nia.
Qed.

Lemma ple_at (K j m e c : Z) :
  c ≤ j → c ≤ e → ple K j m e → K * 2 ^ (j - c) ≤ m * 2 ^ (e - c).
Proof. intros Hj He. by apply ple_scaled. Qed.

Lemma mul_hundred_ge (q : spec_float) :
  float_ge 1 0 q →
  float_ge 7036874417766400 (-46) (Float64.mul q Float64.hundred).
Proof.
  destruct q as [[]|[]| |[] m e]; try done. intros [Hle _].
  unfold Float64.mul, Float64.hundred, SFmul. cbn [xorb].
  apply binary_round_aux_ge; [lia|done|lia|lia|].
  set (c0 := Z.min 0 e).
  apply (ple_at _ _ _ _ c0) in Hle; [|lia|lia].
  apply (ple_scaled _ _ _ _ (c0 - 46)); [lia|lia|].
  replace (-46 - (c0 - 46)) with (0 - c0) by lia.
  replace (e + -46 - (c0 - 46)) with (e - c0) by lia.
  rewrite Pos2Z.inj_mul. rewrite Z.mul_1_l in Hle.
  rewrite (Z.mul_comm (Z.pos m)), <- Z.mul_assoc.
  apply Z.mul_le_mono_nonneg_l; [lia|done].
Qed.

Lemma round_half_even_floor (n d : Z) : n / d ≤ Float64.round_half_even n d.
Proof.
  unfold Float64.round_half_even.
  destruct (_ ?= _); [destruct (Z.even _)| |]; lia.
Qed.

Lemma scaled_ge (m : positive) (e : Z) :
  ple 7036874417766400 (-46) (Z.pos m) e → 1000000 ≤ Float64.scaled 4 m e.
Proof.
  intros Hle. unfold Float64.scaled. change (10 ^ 4) with 10000.
  destruct (Z.leb_spec 0 e) as [He|He].
  - apply (ple_at _ _ _ _ (-46)) in Hle; [|lia|lia].
    rewrite Z.sub_diag, Z.mul_1_r in Hle.
    replace (e - -46) with (e + 46) in Hle by lia.
    rewrite Z.pow_add_r in Hle by lia.
    change (2 ^ 46) with 70368744177664 in Hle. lia.
  - etrans; [|apply round_half_even_floor].
    assert (Hp : 0 < 2 ^ (- e)) by (apply Z.pow_pos_nonneg; lia).
    apply Z.div_le_lower_bound; [done|].
    assert (Hm : 100 * 2 ^ (- e) ≤ Z.pos m).
    { destruct (Z.le_gt_cases e (-46)) as [Hlow|Hhigh].
      - apply (ple_at _ _ _ _ e) in Hle; [|lia|lia].
        rewrite Z.sub_diag, Z.mul_1_r in Hle.
        replace (- e) with (46 + (-46 - e)) by lia.
        rewrite Z.pow_add_r by lia.
        change (2 ^ 46) with 70368744177664. lia.
      - apply (ple_at _ _ _ _ (-46)) in Hle; [|lia|lia].
        rewrite Z.sub_diag, Z.mul_1_r in Hle.
        replace (e - -46) with (e + 46) in Hle by lia.
        assert (Hsplit : 2 ^ 46 = 2 ^ (- e) * 2 ^ (e + 46)).
        { rewrite <- Z.pow_add_r by lia. f_equal. lia. }
        assert (0 < 2 ^ (e + 46)) by (apply Z.pow_pos_nonneg; lia).
        change (2 ^ 46) with 70368744177664 in Hsplit. nia. }
    lia.
Qed.

Lemma round_ge_hundred (p : spec_float) :
  float_ge 7036874417766400 (-46) p → float_ge 100 0 (Float64.round p 4).
Proof.
  destruct p as [[]|[]| |[] m e]; try done. intros [Hle _].
  unfold Float64.round.
  pose proof (scaled_ge m e Hle) as Hk.
  destruct (Float64.scaled 4 m e) as [|k|k]; [lia| |lia].
  change (Float64.exact_int (10 ^ 4)) with (S754_finite false 10000 0).
  by apply div_int_ge_hundred.
Qed.

(** [float_ge 100 0 r] is [100.0 <= r] in the order of the floats. *)
Lemma float_ge_hundred_leb (r : spec_float) :
  float_ge 100 0 r → SFleb float_100 r = true.
Proof.
  destruct r as [[]|[]| |[] m e]; try done. intros [Hle Hd].
  pose proof (Zdigits2_gt (Z.pos m) ltac:(lia)) as Hlt.
  assert (Hm53 : Z.pos m < 2 ^ 53).
  { eapply Z.lt_le_trans; [exact Hlt|]. apply Z.pow_le_mono_r; lia. }
  unfold SFleb, SFcompare, float_100.
  destruct (Z.compare_spec (-46) e) as [<-|Hlt'|Hgt]; [|done|].
  - apply (ple_at _ _ _ _ (-46)) in Hle; [|lia|lia].
    rewrite Z.sub_diag, Z.mul_1_r in Hle.
    change (100 * 2 ^ (0 - -46)) with 7036874417766400 in Hle.
    rewrite Pos.compare_cont_spec. cbn [Pos.switch_Eq].
    destruct (Pos.compare_spec 7036874417766400 m) as [| |Hgt]; [done|done|].
    apply Pos2Z.pos_lt_pos in Hgt. lia.
  - exfalso.
    apply (ple_at _ _ _ _ e) in Hle; [|lia|lia].
    rewrite Z.sub_diag, Z.mul_1_r in Hle.
    assert (2 ^ 47 ≤ 2 ^ (0 - e)) by (apply Z.pow_le_mono_r; lia).
    change (2 ^ 47) with 140737488355328 in *.
    change (2 ^ 53) with 9007199254740992 in *. lia.
Qed.

Lemma EngagementScorer_ge_hundred (views likes comments : Z) (r : spec_float) :
  0 < views → views ≤ likes + comments →
  EngagementScorer views likes comments = Ok r →
  SFleb float_100 r = true.
Proof.
  intros Hv Hn. unfold EngagementScorer, Float64.truediv.
  rewrite (proj2 (Z.eqb_neq views 0)) by lia.
  destruct views as [|v|v]; [lia| |lia].
  destruct (likes + comments) as [|n|n] eqn:Hsum; [lia| |lia].
  cbn [Float64.exact_int].
  pose proof (div_int_ge_one n v Hn) as Hq.
  destruct (Float64.div _ _) as [[]|[]| |[] m e] eqn:Hdiv; try done.
  cbv beta iota delta [mbind result_bind]. intros [= <-].
  apply float_ge_hundred_leb, round_ge_hundred.
  exact (mul_hundred_ge _ Hq).
Qed.

(** ** EngagementScorer: the formula *)

(** A quotient has one nearest integer. *)
Lemma nearest_integer_unique (n d k k' : Z) :
  0 < d → nearest_integer n d k → nearest_integer n d k' → k = k'.
Proof.
  intros Hd [Hk Hk2] [Hk' Hk2'].
  destruct (Z.eq_dec k k') as [|Hne]; [done|exfalso].
  assert (Hdiff : k' = k + 1 ∨ k = k' + 1) by nia.
  assert (Hties : 2 * Z.abs (k * d - n) = d ∧ 2 * Z.abs (k' * d - n) = d) by nia.
  destruct Hties as [Ht Ht'].
  specialize (Hk2 Ht). specialize (Hk2' Ht').
  destruct Hdiff as [-> | ->].
  - rewrite Z.even_add in Hk2'. rewrite Hk2 in Hk2'. done.
  - rewrite Z.even_add in Hk2. rewrite Hk2' in Hk2. done.
Qed.

Lemma nearest_integer_nonneg (n d k : Z) :
  0 < d → 0 ≤ n → nearest_integer n d k → 0 ≤ k.
Proof. intros Hd Hn [Hk _]. nia. Qed.

(** A float has one rounding to [ndigits] decimal places. *)
Lemma rounded_to_unique (ndigits : Z) (x r r' : spec_float) :
  rounded_to ndigits x r → rounded_to ndigits x r' → r = r'.
Proof.
  destruct x as [| | |s m e]; cbn; try congruence.
  intros (k & Hk & ->) (k' & Hk' & ->).
  f_equal. eapply nearest_integer_unique; [|done..].
  apply Z.pow_pos_nonneg; lia.
Qed.

Lemma scaled_nearest (ndigits : Z) (m : positive) (e : Z) :
  nearest_integer (Z.pos m * 10 ^ ndigits * 2 ^ Z.max e 0) (2 ^ Z.max (- e) 0)
    (Float64.scaled ndigits m e).
Proof.
  unfold Float64.scaled. destruct (Z.leb_spec 0 e) as [He|He].
  - rewrite Z.max_l, Z.max_r by lia. change (2 ^ 0) with 1.
    unfold nearest_integer. split; [lia|lia].
  - rewrite Z.max_r, Z.max_l by lia. change (2 ^ 0) with 1. rewrite Z.mul_1_r.
    apply round_half_even_nearest. apply Z.pow_pos_nonneg; lia.
Qed.

(** [round(x, 4)] is [x] rounded to 4 decimal places. *)
Lemma round_rounded_to (x : spec_float) : rounded_to 4 x (Float64.round x 4).
Proof.
  destruct x as [| | |s m e]; try done. cbn [rounded_to].
  exists (Float64.scaled 4 m e). split; [apply scaled_nearest|].
  pose proof (scaled_nearest 4 m e) as Hk.
  apply nearest_integer_nonneg in Hk; [|apply Z.pow_pos_nonneg; lia|].
  2: { apply Z.mul_nonneg_nonneg; [lia|]. apply Z.pow_nonneg. lia. }
  unfold Float64.round, decimal_float.
  destruct (Float64.scaled 4 m e) as [|k|k]; [done|done|lia].
Qed.

(** A quotient [a / b] that is returned is the correctly rounded one. *)
Lemma truediv_ok (n v : Z) (q : spec_float) :
  Float64.truediv n v = Ok q →
  q = SFdiv 53 1024 (Float64.exact_int n) (Float64.exact_int v).
Proof.
  unfold Float64.truediv. destruct (v =? 0); [done|].
  change (Float64.div ?a ?b) with (SFdiv 53 1024 a b).
  destruct (SFdiv 53 1024 _ _); congruence.
Qed.

(** C6, as stated, fails: with [2^1024] likes on one view, counts that are
    not negative, the division raises [OverflowError] and nothing is
    returned. *)
Lemma calculate_engagement_formula_counterexample :
  AsciiBuiltins.int "1" = Some 1
  ∧ AsciiBuiltins.int two_pow_1024 = Some (2 ^ 1024)
  ∧ AsciiBuiltins.int "0" = Some 0
  ∧ 0 ≤ 2 ^ 1024
  ∧ calculate_engagement (H := AsciiBuiltins.builtins)
      (statistics_of "1" two_pow_1024 "0") = Raise OverflowError.
Proof. repeat split; vm_compute; done. Qed.

(** C6, amended.  On non-negative counts, each read as 0 when its key is
    absent: [calculate_engagement] returns exactly [0.0] when [views = 0];
    with [0 < views] and [likes + comments < 2^1023] it returns
    [((likes + comments) / views) * 100] rounded to 4 decimal places, the
    quotient being the double nearest to the exact one and the product the
    double nearest to the exact product by 100; and it returns [10.0] on
    200 views, 10 likes and 10 comments. *)
Theorem calculate_engagement_formula `{PyBuiltins}
    (statistics : gmap string string) (views likes comments : Z) :
  has_count statistics "viewCount" views →
  has_count statistics "likeCount" likes →
  has_count statistics "commentCount" comments →
  0 ≤ views → 0 ≤ likes → 0 ≤ comments →
  (views = 0 → calculate_engagement statistics = Ok (S754_zero false))
  ∧ (0 < views → likes + comments < 2 ^ 1023 →
     ∃ r, calculate_engagement statistics = Ok r
          ∧ rounded_to 4
              (SFmul 53 1024
                 (SFdiv 53 1024 (Float64.exact_int (likes + comments))
                                (Float64.exact_int views))
                 float_100)
              r)
  ∧ (views = 200 → likes = 10 → comments = 10 →
     calculate_engagement statistics = Ok float_10).
Proof.
  intros Hv Hl Hc Hv0 Hl0 Hc0.
  rewrite (calculate_engagement_reads_counts statistics views likes comments)
    by done.
  split; [by intros ->|]. split; [|by intros -> -> ->].
  intros Hpos Hlt. unfold EngagementScorer.
  rewrite (proj2 (Z.eqb_neq views 0)) by lia.
  destruct (truediv_nonneg (likes + comments) views) as (q & Hq & _); [lia..|].
  rewrite Hq. cbn. eexists. split; [reflexivity|].
  apply truediv_ok in Hq as <-. apply round_rounded_to.
Qed.

(** The amended C6 at 1 like on 3 views: the quotient times 100 is the
    double [33.33333333333333], the integer nearest to 10^4 times it is
    333333, and the result is the double [33.3333]; at the statistics
    [{viewCount: "200", likeCount: "10", commentCount: "10"}] the result
    is [10.0], and at statistics without any count it is [0.0]. *)
Lemma calculate_engagement_formula_witness :
  (calculate_engagement (H := AsciiBuiltins.builtins) (statistics_of "3" "1" "0")
   = Ok float_33_3333
   ∧ rounded_to 4 float_33_33333333333333 float_33_3333
   ∧ nearest_integer (4691249611844266 * 10 ^ 4) (2 ^ 47) 333333
   ∧ float_33_3333 = decimal_float false 333333 4)
  ∧ calculate_engagement (H := AsciiBuiltins.builtins) demo_statistics = Ok float_10
  ∧ calculate_engagement (H := AsciiBuiltins.builtins) ∅ = Ok (S754_zero false).
Proof.
  split; [|split].
  - destruct (calculate_engagement_formula (H := AsciiBuiltins.builtins)
                (statistics_of "3" "1" "0") 3 1 0
                eq_refl eq_refl eq_refl ltac:(lia) ltac:(lia) ltac:(lia))
      as (_ & Hrounded & _).
    destruct Hrounded as (r & Hr & Hrounded); [lia|by_decide|].
    vm_compute in Hr. injection Hr as <-.
    split; [reflexivity|]. split; [exact Hrounded|].
    split; [|reflexivity]. split; [by vm_compute|by vm_compute].
  - apply (calculate_engagement_formula (H := AsciiBuiltins.builtins)
             demo_statistics 200 10 10);
      first [reflexivity | lia].
  - apply (calculate_engagement_formula (H := AsciiBuiltins.builtins) ∅ 0 0 0);
      first [reflexivity | lia].
Defined.

(** ** EngagementScorer: range of the result *)

(** C10, as stated, fails in three ways.  With 10000001 likes on 10000000
    views the rate is 100.00001 before rounding and exactly [100.0] after,
    so it does not exceed 100; with 1 like and no view it is [0.0]; and with
    [2^1024] likes on one view the division raises [OverflowError]. *)
Lemma calculate_engagement_range_counterexample :
  calculate_engagement (H := AsciiBuiltins.builtins)
    (statistics_of "10000000" "10000001" "0") = Ok float_100
  ∧ Float64.ltb float_100 float_100 = false
  ∧ calculate_engagement (H := AsciiBuiltins.builtins)
      (statistics_of "0" "1" "0") = Ok Float64.zero
  ∧ AsciiBuiltins.int two_pow_1024 = Some (2 ^ 1024)
  ∧ calculate_engagement (H := AsciiBuiltins.builtins)
      (statistics_of "1" two_pow_1024 "0") = Raise OverflowError.
Proof. repeat split; vm_compute; reflexivity. Qed.

(** C10, amended.  On non-negative counts with [likes + comments < 2^1023],
    [calculate_engagement] does not raise and returns a float that is not
    negative (and not NaN); the result is not clamped to 100: it is at least
    [100.0] whenever [likes + comments > views > 0], and it is [200.0] on 1
    view, 2 likes and no comment. *)
Theorem calculate_engagement_range `{PyBuiltins}
    (statistics : gmap string string) (views likes comments : Z) :
  has_count statistics "viewCount" views →
  has_count statistics "likeCount" likes →
  has_count statistics "commentCount" comments →
  0 ≤ views → 0 ≤ likes → 0 ≤ comments →
  likes + comments < 2 ^ 1023 →
  ∃ r, calculate_engagement statistics = Ok r
       ∧ Float64.nonneg r = true
       ∧ Float64.sign_bit r = false
       ∧ r ≠ S754_nan
       ∧ (0 < views → views < likes + comments → Float64.leb float_100 r = true)
       ∧ (views = 1 → likes = 2 → comments = 0 → r = float_200).
Proof.
  intros Hv Hl Hc Hv0 Hl0 Hc0 Hlt.
  pose proof (calculate_engagement_reads_counts statistics views likes comments
                Hv Hl Hc) as Heq.
  destruct (EngagementScorer_nonneg views likes comments Hv0 Hl0 Hc0 Hlt)
    as (r & Hr & Hnn).
  exists r. rewrite Heq.
  destruct (nonneg_float_nonneg r Hnn) as [Hnonneg Hsign].
  split; [done|]. split; [done|]. split; [done|].
  split; [by destruct r|]. split.
  - intros Hpos Hgt.
    apply (EngagementScorer_ge_hundred views likes comments r); [done|lia|done].
  - intros -> -> ->. vm_compute in Hr. by injection Hr as <-.
Qed.

(** The amended C10 at 3 likes and 2 comments on 2 views: the rate is
    returned, it is not negative and it is at least [100.0]. *)
Lemma calculate_engagement_range_witness :
  ∃ r, calculate_engagement (H := AsciiBuiltins.builtins)
         (statistics_of "2" "3" "2") = Ok r
       ∧ Float64.nonneg r = true
       ∧ Float64.leb float_100 r = true.
Proof.
  destruct (calculate_engagement_range (H := AsciiBuiltins.builtins)
              (statistics_of "2" "3" "2") 2 3 2
              eq_refl eq_refl eq_refl
              ltac:(lia) ltac:(lia) ltac:(lia) ltac:(by_decide))
    as (r & Hr & Hnn & _ & _ & Hge & _).
  exists r. split; [exact Hr|]. split; [exact Hnn|].
  apply Hge; lia.
Defined.

(** * Further properties

    Properties of the code around the claims above: the API wrappers and
    the collection loops, the orchestrator's other paths, the SQL of the
    phases, the publisher and the entry points. *)

(** ** API wrappers *)

Lemma search_loop (items : list SearchItem) (acc : list string) :
  forallb readable_item items = true →
  for_each (λ video_ids item,
      item_id ← getitem "id" (si_id item);
      item_kind ← getitem "kind" (kind item_id);
      if bool_decide (item_kind = "youtube#video") then
        video_id ← getitem "videoId" (videoId item_id);
        Ok (video_ids ++ [video_id])
      else Ok video_ids) items acc
  = Ok (acc ++ omap video_id_of items).
Proof.
  revert acc. induction items as [|item items IH]; intros acc; cbn.
  - by rewrite app_nil_r.
  - unfold readable_item, video_id_of.
    destruct (si_id item) as [item_id|]; cbn; [|done].
    destruct (kind item_id) as [item_kind|]; cbn; [|done].
    case_bool_decide; cbn.
    + destruct (videoId item_id) as [v|]; cbn; [|done].
      intros Hrest. rewrite IH by done. by rewrite <- app_assoc.
    + intros Hrest. by rewrite IH.
Qed.

Lemma search_loop_raises (items : list SearchItem) (acc : list string) :
  forallb readable_item items = false →
  ∃ e, for_each (λ video_ids item,
      item_id ← getitem "id" (si_id item);
      item_kind ← getitem "kind" (kind item_id);
      if bool_decide (item_kind = "youtube#video") then
        video_id ← getitem "videoId" (videoId item_id);
        Ok (video_ids ++ [video_id])
      else Ok video_ids) items acc = Raise e.
Proof.
  revert acc. induction items as [|item items IH]; intros acc; cbn; [done|].
  unfold readable_item.
  destruct (si_id item) as [item_id|]; cbn; [|by eexists].
  destruct (kind item_id) as [item_kind|]; cbn; [|by eexists].
  case_bool_decide; cbn.
  - destruct (videoId item_id) as [v|]; cbn; [|by eexists].
    intros Hrest. apply IH, Hrest.
  - intros Hrest. apply IH, Hrest.
Qed.

(** X1.  [search_videos] never raises.  When the request returns and every
    item of the response has an [id] with a [kind] (and a [videoId] if the
    kind is [youtube#video]), the result is the video identifiers of the
    items of that kind, in the order of the response.  When the request
    raises, or a single item lacks one of these keys, the result is the empty
    list: the identifiers read before the unreadable item are dropped. *)
Theorem search_videos_all_or_nothing `{YouTubeClient} (keyword region : string)
    (max_results : Z) :
  search_videos keyword region max_results
  = let items := items_of (search_list_execute keyword region max_results) in
    if forallb readable_item items then omap video_id_of items else [].
Proof.
  unfold search_videos, items_of.
  destruct (search_list_execute _ _ _) as [items|e]; cbn; [|done].
  destruct (forallb readable_item (default [] items)) eqn:Hall.
  - by rewrite search_loop.
  - destruct (search_loop_raises (default [] items) [] Hall) as [e ->]. done.
Qed.

Lemma batches_fuel_partition {A : Type} (fuel n : nat) (xs : list A) :
  (0 < n)%nat → (length xs ≤ fuel)%nat →
  concat (batches_fuel fuel n xs) = xs
  ∧ Forall (λ batch, (0 < length batch ≤ n)%nat) (batches_fuel fuel n xs).
Proof.
  intros Hn. revert xs. induction fuel as [|fuel IH]; intros xs Hlen.
  - destruct xs; [by split; [|constructor]|cbn in Hlen; lia].
  - destruct xs as [|x xs]; [by split; [|constructor]|].
    change (batches_fuel (S fuel) n (x :: xs))
      with (take n (x :: xs) :: batches_fuel fuel n (drop n (x :: xs))).
    destruct (IH (drop n (x :: xs))) as [Hcat Hall].
    { rewrite length_drop. cbn in *. lia. }
    split.
    + cbn [concat]. rewrite Hcat. apply take_drop.
    + constructor; [|done]. rewrite length_take. cbn [length]. lia.
Qed.

(** X2.  The batches [xs[i:i+n] for i in range(0, len(xs), n)] of the
    detail lookups, for a batch size [n > 0], partition the list: joined in
    order they give the list back, and every batch has between 1 and [n]
    elements.  No identifier is dropped or requested twice. *)
Theorem batches_partition {A : Type} (n : nat) (xs : list A) :
  (0 < n)%nat →
  concat (batches n xs) = xs
  ∧ Forall (λ batch, (0 < length batch ≤ n)%nat) (batches n xs).
Proof. intros Hn. by apply batches_fuel_partition. Qed.

(** X2 on three identifiers in batches of two. *)
Lemma batches_partition_witness :
  concat (batches 2 ["a"; "b"; "c"]) = ["a"; "b"; "c"]
  ∧ Forall (λ batch, (0 < length batch ≤ 2)%nat) (batches 2 ["a"; "b"; "c"]).
Proof. apply (batches_partition 2 ["a"; "b"; "c"]). lia. Defined.

Lemma extend_loop {B : Type} (exec : list string → result (option (list B)))
    (bs : list (list string)) (acc : list B) :
  forallb (λ batch, returned (exec batch)) bs = true →
  for_each (λ out batch, items ← exec batch; Ok (out ++ default [] items)) bs acc
  = Ok (acc ++ (batch ← bs; items_of (exec batch))).
Proof.
  revert acc. induction bs as [|b bs IH]; intros acc; cbn.
  - by rewrite app_nil_r.
  - destruct (exec b) as [items|e]; cbn; [|done].
    intros Hrest. rewrite IH by done. by rewrite <- app_assoc.
Qed.

Lemma extend_loop_raises {B : Type} (exec : list string → result (option (list B)))
    (bs : list (list string)) (acc : list B) :
  forallb (λ batch, returned (exec batch)) bs = false →
  ∃ e, for_each (λ out batch, items ← exec batch; Ok (out ++ default [] items)) bs acc
       = Raise e.
Proof.
  revert acc. induction bs as [|b bs IH]; intros acc; cbn; [done|].
  destruct (exec b) as [items|e]; cbn; [|by eexists].
  intros Hrest. apply IH, Hrest.
Qed.

(** X3.  [get_video_details] and [get_channel_details] of the function app
    never raise and are all-or-nothing over their batches of 50: when every
    batch request returns, the result is the items of the responses joined
    in batch order; when one batch request raises, the result is the empty
    list, the items of the batches already answered included. *)
Theorem get_details_all_or_nothing `{YouTubeClient} (ids : list string) :
  YouTubeCollectorService.get_video_details ids
  = (if forallb (λ batch, returned (videos_list_execute batch)) (batches 50 ids)
     then batch ← batches 50 ids; items_of (videos_list_execute batch)
     else [])
  ∧ YouTubeCollectorService.get_channel_details ids
    = (if forallb (λ batch, returned (channels_list_execute batch)) (batches 50 ids)
       then batch ← batches 50 ids; items_of (channels_list_execute batch)
       else []).
Proof.
  unfold YouTubeCollectorService.get_video_details,
    YouTubeCollectorService.get_channel_details.
  split.
  - destruct (forallb _ (batches 50 ids)) eqn:Hall.
    + by rewrite extend_loop.
    + destruct (extend_loop_raises videos_list_execute _ [] Hall) as [e ->]. done.
  - destruct (forallb _ (batches 50 ids)) eqn:Hall.
    + by rewrite extend_loop.
    + destruct (extend_loop_raises channels_list_execute _ [] Hall) as [e ->]. done.
Qed.

(** ** Classifier and EngagementScorer: further properties *)

Lemma keyword_count_bounds (keywords : list string) (text : string) :
  0 ≤ keyword_count keywords text ≤ Z.of_nat (length keywords).
Proof.
  unfold keyword_count. split; [lia|].
  apply inj_le. induction keywords as [|k ks IH]; cbn; [lia|].
  destruct (str_contains k text); cbn; lia.
Qed.

Lemma classify_video_inv `{PyBuiltins} (cfg : Config) (video : VideoItem)
    (c : Classification) :
  classify_video cfg video = Ok c →
  ∃ code text,
    c = {| final_sentiment := final_sentiment c;
           classification_method := classification_method c;
           positive_keyword_count := keyword_count (POSITIVE_KEYWORDS cfg) text;
           negative_keyword_count := keyword_count (NEGATIVE_KEYWORDS cfg) text |}
    ∧ (final_sentiment c, classification_method c)
      = if bool_decide (code ∈ POSITIVE_CATEGORIES cfg) then (POSITIVE, CATEGORY_BASED)
        else if bool_decide (code ∈ NEGATIVE_CATEGORIES cfg) then (NEGATIVE, CATEGORY_BASED)
        else if bool_decide (code ∈ MIXED_CATEGORIES cfg) then
          ((if keyword_count (NEGATIVE_KEYWORDS cfg) text
               <? keyword_count (POSITIVE_KEYWORDS cfg) text then POSITIVE
            else if keyword_count (POSITIVE_KEYWORDS cfg) text
                    <? keyword_count (NEGATIVE_KEYWORDS cfg) text then NEGATIVE
            else NEUTRAL), KEYWORD_BASED)
        else (UNKNOWN, UNCATEGORIZED).
Proof.
  unfold classify_video.
  destruct (v_snippet video) as [sn|]; cbn; [|done].
  destruct (sn_categoryId sn) as [raw|]; cbn; [|done].
  unfold int_of_str. destruct (py_int raw) as [code|]; cbn; [|done].
  destruct (sn_title sn) as [title|]; cbn; [|done].
  intros Hc. eexists code, _.
  repeat case_bool_decide; injection Hc as <-; cbn; split; reflexivity.
Qed.

(** X4.  In every classification that [classify_video] returns, method and
    sentiment go together: the method is UNCATEGORIZED exactly when the
    sentiment is UNKNOWN; CATEGORY_BASED comes only with POSITIVE or
    NEGATIVE; and NEUTRAL comes only with KEYWORD_BASED and equal keyword
    counts. *)
Theorem classify_video_method_sentiment `{PyBuiltins} (cfg : Config)
    (video : VideoItem) (c : Classification) :
  classify_video cfg video = Ok c →
  (classification_method c = UNCATEGORIZED ↔ final_sentiment c = UNKNOWN)
  ∧ (classification_method c = CATEGORY_BASED →
     final_sentiment c = POSITIVE ∨ final_sentiment c = NEGATIVE)
  ∧ (final_sentiment c = NEUTRAL →
     classification_method c = KEYWORD_BASED
     ∧ positive_keyword_count c = negative_keyword_count c).
Proof.
  intros (code & text & Hc & Hsm)%classify_video_inv.
  destruct c as [sentiment method pos_count neg_count]. cbn in *.
  injection Hc as -> ->.
  repeat case_bool_decide;
    [| |destruct (_ <? _) eqn:Hlt1 in Hsm; [|destruct (_ <? _) eqn:Hlt2 in Hsm]|];
    injection Hsm as -> ->;
    (split; [by split|]); (split; [intros; by auto|]); intros; try done.
  split; [done|]. apply Z.ltb_ge in Hlt1, Hlt2. lia.
Qed.

(** X4 on a video of category 7, which is in none of the sets. *)
Lemma classify_video_method_sentiment_witness :
  ∃ c, classify_video (H := AsciiBuiltins.builtins) AzureFunctionConfig
         (demo_video "7" "Great stuff") = Ok c
       ∧ (classification_method c = UNCATEGORIZED ↔ final_sentiment c = UNKNOWN).
Proof.
  eexists. split; [reflexivity|].
  eapply (classify_video_method_sentiment (H := AsciiBuiltins.builtins)
            AzureFunctionConfig (demo_video "7" "Great stuff")).
  reflexivity.
Defined.

(** X5.  The keyword counts of a classification count keywords, not
    occurrences: each lies between 0 and the number of keywords of its
    list, however often a keyword occurs in the text. *)
Theorem classify_video_keyword_counts `{PyBuiltins} (cfg : Config)
    (video : VideoItem) (c : Classification) :
  classify_video cfg video = Ok c →
  0 ≤ positive_keyword_count c ≤ Z.of_nat (length (POSITIVE_KEYWORDS cfg))
  ∧ 0 ≤ negative_keyword_count c ≤ Z.of_nat (length (NEGATIVE_KEYWORDS cfg)).
Proof.
  intros (code & text & Hc & _)%classify_video_inv.
  rewrite Hc. cbn. split; apply keyword_count_bounds.
Qed.

(** X5 on a title that has the keyword "great" twice: it counts once. *)
Lemma classify_video_keyword_counts_witness :
  ∃ c, classify_video (H := AsciiBuiltins.builtins) AzureFunctionConfig
         (demo_video "22" "Great great stuff") = Ok c
       ∧ positive_keyword_count c = 1
       ∧ 0 ≤ positive_keyword_count c ≤ 5 ∧ 0 ≤ negative_keyword_count c ≤ 5.
Proof.
  eexists. split; [reflexivity|]. split; [reflexivity|].
  apply (classify_video_keyword_counts (H := AsciiBuiltins.builtins)
           AzureFunctionConfig (demo_video "22" "Great great stuff")).
  reflexivity.
Defined.

Lemma stat_count_cases `{PyBuiltins} (statistics : gmap string string) (key : string) :
  (∃ n, stat_count statistics key = Ok n)
  ∨ (stat_count statistics key = Raise ValueError
     ∧ ∃ s, statistics !! key = Some s ∧ py_int s = None).
Proof.
  unfold stat_count, int_of_str.
  destruct (statistics !! key) as [s|]; [|left; by eexists].
  destruct (py_int s) as [n|] eqn:Hs; [left; by eexists|right].
  split; [done|]. by exists s.
Qed.

Lemma stat_count_ok `{PyBuiltins} (statistics : gmap string string) (key : string)
    (n : Z) (s : string) :
  stat_count statistics key = Ok n → statistics !! key = Some s → py_int s = Some n.
Proof.
  unfold stat_count, int_of_str. intros Hn Hs. rewrite Hs in Hn.
  destruct (py_int s); by simplify_eq.
Qed.

(** X6.  [calculate_engagement] raises [ValueError] exactly when one of
    the three counts is present and is no integer literal, even a like or
    comment count next to zero views.  It raises nothing else but
    [OverflowError]: the division by the view count is guarded, so there is
    no [ZeroDivisionError], and absent keys give no [KeyError]. *)
Theorem calculate_engagement_exceptions `{PyBuiltins} (statistics : gmap string string) :
  (calculate_engagement statistics = Raise ValueError
   ↔ ∃ key s, key ∈ ["viewCount"; "likeCount"; "commentCount"]
              ∧ statistics !! key = Some s ∧ py_int s = None)
  ∧ ∀ e, calculate_engagement statistics = Raise e →
         e = ValueError ∨ e = OverflowError.
Proof.
  unfold calculate_engagement.
  destruct (stat_count_cases statistics "viewCount") as [[views Hv]|[Hv (s & Hs & Hn)]];
    rewrite Hv; cbn.
  2: { split; [|intros e [= <-]; by left].
       split; [|done]. intros _. exists "viewCount", s. split; [set_solver|done]. }
  destruct (stat_count_cases statistics "likeCount") as [[likes Hl]|[Hl (s & Hs & Hn)]];
    rewrite Hl; cbn.
  2: { split; [|intros e [= <-]; by left].
       split; [|done]. intros _. exists "likeCount", s. split; [set_solver|done]. }
  destruct (stat_count_cases statistics "commentCount")
    as [[comments Hc]|[Hc (s & Hs & Hn)]]; rewrite Hc; cbn.
  2: { split; [|intros e [= <-]; by left].
       split; [|done]. intros _. exists "commentCount", s. split; [set_solver|done]. }
  assert (Hparse : ¬ ∃ key s, key ∈ ["viewCount"; "likeCount"; "commentCount"]
                             ∧ statistics !! key = Some s ∧ py_int s = None).
  { intros (key & s & Hkey & Hs & Hn).
    apply elem_of_cons in Hkey as [->|Hkey]; [by rewrite (stat_count_ok _ _ _ _ Hv Hs) in Hn|].
    apply elem_of_cons in Hkey as [->|Hkey]; [by rewrite (stat_count_ok _ _ _ _ Hl Hs) in Hn|].
    apply list_elem_of_singleton in Hkey as ->.
    by rewrite (stat_count_ok _ _ _ _ Hc Hs) in Hn. }
  destruct (views =? 0) eqn:Hz.
  { split; [split; [done|intros; by destruct Hparse]|done]. }
  unfold Float64.truediv. rewrite Hz.
  destruct (Float64.div _ _); cbn;
    (split; [split; [done|intros; by destruct Hparse]|]); intros e' He; simplify_eq; auto.
Qed.

(** ** RecordAssembler: the collection loops *)

Lemma for_each_visits {A S : Type} (R : S → S → Prop) `{!PreOrder R}
    (body : S → A → result S) (xs : list A) (acc r : S) :
  (∀ s x s', body s x = Ok s' → R s s') →
  for_each body xs acc = Ok r →
  R acc r ∧ ∀ x, x ∈ xs → ∃ s s', R acc s ∧ body s x = Ok s' ∧ R s' r.
Proof.
  intros Hstep. revert acc. induction xs as [|x xs IH]; intros acc; cbn.
  - intros [= <-]. split; [done|]. intros x Hx. by apply elem_of_nil in Hx.
  - destruct (body acc x) as [acc'|e] eqn:Hb; cbn; [|done].
    intros [Hacc' Hrest]%IH. pose proof (Hstep _ _ _ Hb) as Hgrow. split.
    + by etrans.
    + intros y [->|Hy]%elem_of_cons.
      * exists acc, acc'. done.
      * destruct (Hrest y Hy) as (s & s' & Hs & Hbody & Hr).
        exists s, s'. split; [by etrans|done].
Qed.

Lemma for_each_skip {A S : Type} (body : S → A → result S) (xs : list A) (acc : S) :
  (∀ s x, x ∈ xs → body s x = Ok s) → for_each body xs acc = Ok acc.
Proof.
  induction xs as [|x xs IH]; intros Hskip; cbn; [done|].
  rewrite Hskip; [|by left]. cbn. apply IH. intros s y Hy. apply Hskip. by right.
Qed.

Lemma video_step_grows `{PyBuiltins} `{YouTubeClient} {V : Type} (cfg : Config)
    (keyword region : string) (placeholder : V) (s s' : Collected V) (video : VideoItem) :
  (λ '(all_videos, all_channels) video,
     record ← video_record cfg keyword region (length all_videos) video;
     Ok (all_videos ++ [record],
         dict_set (VideoRecord.channel_id record) placeholder all_channels))
    s video = Ok s' →
  ∃ record, video_record cfg keyword region (length s.1) video = Ok record
            ∧ s' = (s.1 ++ [record],
                    dict_set (VideoRecord.channel_id record) placeholder s.2).
Proof.
  destruct s as [vs chs]. cbn.
  destruct (video_record _ _ _ _ _) as [record|]; cbn; [|done].
  intros [= <-]. by exists record.
Qed.

Lemma keyword_step_grows `{PyBuiltins} `{YouTubeClient} {V : Type} (cfg : Config)
    (get_video_details : list string → list VideoItem) (placeholder : V)
    (region keyword : string) (s s' : Collected V) :
  match search_videos keyword region (VIDEOS_PER_KEYWORD cfg) with
  | [] => Ok s
  | _ =>
      for_each (λ '(all_videos, all_channels) video,
          record ← video_record cfg keyword region (length all_videos) video;
          Ok (all_videos ++ [record],
              dict_set (VideoRecord.channel_id record) placeholder all_channels))
        (get_video_details (search_videos keyword region (VIDEOS_PER_KEYWORD cfg))) s
  end = Ok s' →
  grows s s'.
Proof.
  destruct (search_videos _ _ _) as [|v vs]; [by intros [= <-]|].
  intros Hloop. eapply (for_each_visits grows) in Hloop as [Hg _]; [done|].
  intros a video a' (record & _ & ->)%video_step_grows.
  unfold grows. cbn. by apply prefix_app_r.
Qed.

Lemma region_step_grows `{PyBuiltins} `{YouTubeClient} {V : Type} (cfg : Config)
    (get_video_details : list string → list VideoItem) (placeholder : V)
    (region : string) (s s' : Collected V) :
  for_each (λ acc keyword,
      match search_videos keyword region (VIDEOS_PER_KEYWORD cfg) with
      | [] => Ok acc
      | _ =>
          for_each (λ '(all_videos, all_channels) video,
              record ← video_record cfg keyword region (length all_videos) video;
              Ok (all_videos ++ [record],
                  dict_set (VideoRecord.channel_id record) placeholder all_channels))
            (get_video_details (search_videos keyword region (VIDEOS_PER_KEYWORD cfg)))
            acc
      end) (SEARCH_KEYWORDS cfg) s = Ok s' →
  grows s s'.
Proof.
  intros Hloop. eapply (for_each_visits grows) in Hloop as [Hg _]; [done|].
  intros a keyword a'. apply keyword_step_grows.
Qed.

Lemma video_record_search `{PyBuiltins} `{YouTubeClient} (cfg : Config)
    (keyword region : string) (tick : nat) (video : VideoItem) (record : VideoRecord.t) :
  video_record cfg keyword region tick video = Ok record →
  VideoRecord.search_keyword record = keyword
  ∧ VideoRecord.search_region record = region.
Proof.
  unfold video_record. intros Hrec.
  repeat match type of Hrec with
         | (mbind _ ?m) = _ => destruct m; cbn in Hrec; [|done]
         end.
  by injection Hrec as <-.
Qed.

Lemma collect_videos_assembled `{PyBuiltins} `{YouTubeClient} {V : Type}
    (cfg : Config) (get_video_details : list string → list VideoItem)
    (placeholder : V) (collected : Collected V) :
  collect_videos cfg get_video_details placeholder = Ok collected →
  Forall (assembled_from cfg get_video_details) collected.1.
Proof.
  unfold collect_videos.
  set (P := λ acc : Collected V, Forall (assembled_from cfg get_video_details) acc.1).
  apply (for_each_invariant P); [by constructor|].
  intros acc region acc' Hregion Hacc. apply (for_each_invariant P); [done|].
  clear acc acc' Hacc. intros acc keyword acc' Hkeyword Hacc.
  destruct (search_videos keyword region _) as [|v vs] eqn:Hsearch; [by intros [= <-]|].
  apply (for_each_invariant P); [done|].
  clear acc acc' Hacc.
  intros acc video acc' Hvideo Hacc (record & Hrec & ->)%video_step_grows.
  unfold P. cbn. apply Forall_app. split; [done|]. constructor; [|done].
  destruct (video_record_search _ _ _ _ _ _ Hrec) as [Hk Hr].
  unfold assembled_from. rewrite Hk, Hr, Hsearch.
  split; [done|]. split; [done|]. by exists video, (length acc.1).
Qed.

Lemma collect_videos_complete `{PyBuiltins} `{YouTubeClient} {V : Type}
    (cfg : Config) (get_video_details : list string → list VideoItem)
    (placeholder : V) (collected : Collected V)
    (region keyword : string) (video : VideoItem) :
  collect_videos cfg get_video_details placeholder = Ok collected →
  region ∈ REGIONS cfg →
  keyword ∈ SEARCH_KEYWORDS cfg →
  search_videos keyword region (VIDEOS_PER_KEYWORD cfg) ≠ [] →
  video ∈ get_video_details (search_videos keyword region (VIDEOS_PER_KEYWORD cfg)) →
  ∃ record tick,
    record ∈ collected.1 ∧ video_record cfg keyword region tick video = Ok record.
Proof.
  unfold collect_videos. intros Hloop Hregion Hkeyword Hfound Hvideo.
  eapply (for_each_visits grows) in Hloop as [_ Hall];
    [|intros ???; apply region_step_grows].
  destruct (Hall region Hregion) as (s1 & s1' & _ & Hinner & Hg1). clear Hall.
  eapply (for_each_visits grows) in Hinner as [_ Hall];
    [|intros ???; apply keyword_step_grows].
  destruct (Hall keyword Hkeyword) as (s2 & s2' & _ & Hinner & Hg2). clear Hall.
  destruct (search_videos keyword region _) as [|v vs] eqn:Hsearch; [done|].
  eapply (for_each_visits grows) in Hinner as [_ Hall].
  2: { intros a x a' (record & _ & ->)%video_step_grows.
       unfold grows. cbn. by apply prefix_app_r. }
  destruct (Hall video Hvideo) as (s3 & s3' & _ & Hbody & Hg3). clear Hall.
  apply video_step_grows in Hbody as (record & Hrec & ->).
  exists record, (length s3.1). split; [|done].
  assert (Hg : grows (s3.1 ++ [record], dict_set (VideoRecord.channel_id record)
                                          placeholder s3.2) collected).
  { etrans; [exact Hg3|]. etrans; [exact Hg2|]. exact Hg1. }
  destruct Hg as [rest Hrest]. cbn in Hrest. rewrite Hrest. set_solver.
Qed.

Lemma video_record_tick `{PyBuiltins} `{YouTubeClient} (cfg : Config)
    (keyword region : string) (tick tick' : nat) (video : VideoItem) (e : exn) :
  video_record cfg keyword region tick video = Raise e →
  video_record cfg keyword region tick' video = Raise e.
Proof.
  unfold video_record. intros Hrec.
  repeat match type of Hrec with
         | (mbind _ ?m) = _ => destruct m; cbn in Hrec |- *; [|done]
         end.
  done.
Qed.

Lemma service_collect_data_videos `{PyBuiltins} `{YouTubeClient} (cfg : Config)
    (videos : list VideoRecord.t) (channels : list ChannelRecord.t) :
  YouTubeCollectorService.collect_data cfg = Ok (videos, channels) →
  ∃ collected,
    collect_videos cfg YouTubeCollectorService.get_video_details () = Ok collected
    ∧ collected.1 = videos.
Proof.
  unfold YouTubeCollectorService.collect_data.
  destruct (collect_videos _ _ _) as [collected|]; cbn; [|done].
  destruct (for_each _ _ _); cbn; [|done].
  intros [= <- _]. by exists collected.
Qed.

Lemma script_collect_data_videos `{PyBuiltins} `{YouTubeClient} (cfg : Config)
    (videos : list VideoRecord.t) (channels : list (option ChannelRecord.t)) :
  YouTubeCollector.collect_data cfg = Ok (videos, channels) →
  ∃ collected all_channels,
    collect_videos cfg YouTubeCollector.get_video_details None = Ok collected
    ∧ collected.1 = videos
    ∧ for_each (λ all_channels batch,
          for_each (λ all_channels channel,
              channel_id ← getitem "id" (c_id channel);
              record ← channel_record channel;
              Ok (dict_set channel_id (Some record) all_channels))
            (YouTubeCollector.get_channel_details batch) all_channels)
        (batches 50 collected.2.*1) collected.2 = Ok all_channels
    ∧ channels = all_channels.*2.
Proof.
  unfold YouTubeCollector.collect_data.
  destruct (collect_videos _ _ _) as [collected|]; cbn; [|done].
  destruct (for_each _ _ _) as [all_channels|] eqn:Hloop; cbn; [|done].
  intros [= <- <-]. by exists collected, all_channels.
Qed.

(** X7.  Every video record that [collect_data] returns, in the function
    app and in the script, was assembled from an item that
    [get_video_details] returned for the record's own search: its
    [search_region] is a configured region, its [search_keyword] a configured
    keyword, and the item is among the details of the identifiers which the
    search for that keyword in that region found. *)
Theorem collect_data_records_assembled `{PyBuiltins} `{YouTubeClient} (cfg : Config) :
  (∀ videos channels,
     YouTubeCollectorService.collect_data cfg = Ok (videos, channels) →
     Forall (assembled_from cfg YouTubeCollectorService.get_video_details) videos)
  ∧ (∀ videos channels,
       YouTubeCollector.collect_data cfg = Ok (videos, channels) →
       Forall (assembled_from cfg YouTubeCollector.get_video_details) videos).
Proof.
  split; intros videos channels.
  - intros (collected & Hc & <-)%service_collect_data_videos.
    by eapply collect_videos_assembled.
  - intros (collected & ? & Hc & <- & _)%script_collect_data_videos.
    by eapply collect_videos_assembled.
Qed.

(** X8.  [collect_data] of the function app records every item it is
    given and stops at the first one it cannot read.  For a configured
    region and keyword whose search finds something, and an item among the
    details returned: when [collect_data] returns, a record assembled from
    that item is in the video list (a video found by two searches has a
    record for each); and when the item is malformed, so that assembling its record
    raises, [collect_data] raises and returns no record at all. *)
Theorem collect_data_all_items `{PyBuiltins} `{YouTubeClient} (cfg : Config)
    (region keyword : string) (video : VideoItem) :
  region ∈ REGIONS cfg →
  keyword ∈ SEARCH_KEYWORDS cfg →
  search_videos keyword region (VIDEOS_PER_KEYWORD cfg) ≠ [] →
  video ∈ YouTubeCollectorService.get_video_details
            (search_videos keyword region (VIDEOS_PER_KEYWORD cfg)) →
  (∀ videos channels,
     YouTubeCollectorService.collect_data cfg = Ok (videos, channels) →
     ∃ record tick,
       record ∈ videos ∧ video_record cfg keyword region tick video = Ok record)
  ∧ (∀ e, video_record cfg keyword region 0 video = Raise e →
          ∃ e', YouTubeCollectorService.collect_data cfg = Raise e').
Proof.
  intros Hregion Hkeyword Hfound Hvideo.
  assert (Hall : ∀ videos channels,
     YouTubeCollectorService.collect_data cfg = Ok (videos, channels) →
     ∃ record tick,
       record ∈ videos ∧ video_record cfg keyword region tick video = Ok record).
  { intros videos channels (collected & Hc & <-)%service_collect_data_videos.
    by eapply collect_videos_complete. }
  split; [exact Hall|].
  intros e He.
  destruct (YouTubeCollectorService.collect_data cfg) as [[videos channels]|e'] eqn:Hrun;
    [|by exists e'].
  destruct (Hall videos channels eq_refl) as (record & tick & _ & Hrec).
  by rewrite (video_record_tick _ _ _ 0 tick _ _ He) in Hrec.
Qed.

(** X8 on a client whose videos have the category code ["abc"]: the
    collection raises. *)
Lemma collect_data_all_items_witness :
  ∃ e', YouTubeCollectorService.collect_data (H := AsciiBuiltins.builtins)
          (H0 := malformed_client) AzureFunctionConfig = Raise e'.
Proof.
  apply (proj2 (collect_data_all_items (H := AsciiBuiltins.builtins)
                  (H0 := malformed_client) AzureFunctionConfig "US" "technology"
                  (demo_video "abc" "Great stuff")
                  ltac:(by_decide) ltac:(by_decide) ltac:(vm_compute; discriminate)
                  ltac:(vm_compute; left))
           ValueError).
  reflexivity.
Defined.

Lemma collect_videos_nothing_found `{PyBuiltins} `{YouTubeClient} {V : Type}
    (cfg : Config) (get_video_details : list string → list VideoItem)
    (placeholder : V) :
  (∀ region keyword, region ∈ REGIONS cfg → keyword ∈ SEARCH_KEYWORDS cfg →
     search_videos keyword region (VIDEOS_PER_KEYWORD cfg) = []) →
  collect_videos cfg get_video_details placeholder = Ok ([], []).
Proof.
  intros Hnone. unfold collect_videos.
  apply for_each_skip. intros acc region Hregion.
  apply for_each_skip. intros acc' keyword Hkeyword.
  by rewrite Hnone.
Qed.

(** X9.  When every search of the configured regions and keywords finds
    nothing, or fails, [collect_data] returns two empty lists in both
    sources: the detail lookups are not reached, and nothing raises. *)
Theorem collect_data_nothing_found `{PyBuiltins} `{YouTubeClient} (cfg : Config) :
  (∀ region keyword, region ∈ REGIONS cfg → keyword ∈ SEARCH_KEYWORDS cfg →
     search_videos keyword region (VIDEOS_PER_KEYWORD cfg) = []) →
  YouTubeCollectorService.collect_data cfg = Ok ([], [])
  ∧ YouTubeCollector.collect_data cfg = Ok ([], []).
Proof.
  intros Hnone.
  unfold YouTubeCollectorService.collect_data, YouTubeCollector.collect_data.
  rewrite !collect_videos_nothing_found by done. done.
Qed.

(** X9 on a client whose searches all raise. *)
Lemma collect_data_nothing_found_witness :
  YouTubeCollectorService.collect_data (H := AsciiBuiltins.builtins)
    (H0 := failing_client) AzureFunctionConfig = Ok ([], [])
  ∧ YouTubeCollector.collect_data (H := AsciiBuiltins.builtins)
      (H0 := failing_client) AzureFunctionConfig = Ok ([], []).
Proof.
  apply (collect_data_nothing_found (H := AsciiBuiltins.builtins)
           (H0 := failing_client) AzureFunctionConfig).
  intros region keyword _ _. reflexivity.
Defined.

Lemma collect_videos_placeholders `{PyBuiltins} `{YouTubeClient} {V : Type}
    (cfg : Config) (get_video_details : list string → list VideoItem)
    (placeholder : V) (collected : Collected V) :
  collect_videos cfg get_video_details placeholder = Ok collected →
  Forall (λ kv, kv.2 = placeholder) collected.2.
Proof.
  unfold collect_videos.
  set (P := λ acc : Collected V, Forall (λ kv : string * V, kv.2 = placeholder) acc.2).
  apply (for_each_invariant P); [by constructor|].
  intros acc region acc' _ Hacc. apply (for_each_invariant P); [done|].
  clear acc acc' Hacc. intros acc keyword acc' _ Hacc.
  destruct (search_videos keyword region _) as [|v vs]; [by intros [= <-]|].
  apply (for_each_invariant P); [done|].
  clear acc acc' Hacc.
  intros acc video acc' _ Hacc (record & Hrec & ->)%video_step_grows.
  unfold P, dict_set in *. cbn. case_bool_decide.
  - apply Forall_fmap. eapply Forall_impl; [exact Hacc|].
    intros kv Hkv. cbn. by case_bool_decide.
  - apply Forall_app. split; [done|]. by constructor.
Qed.

Lemma dict_set_entries (key : string) (record : ChannelRecord.t)
    (d : list (string * option ChannelRecord.t)) :
  ChannelRecord.channel_id record = key →
  Forall (λ kv, entry_of kv.1 kv.2) d →
  Forall (λ kv, entry_of kv.1 kv.2) (dict_set key (Some record) d).
Proof.
  intros Hkey Hd. unfold dict_set. case_bool_decide.
  - apply Forall_fmap. eapply Forall_impl; [exact Hd|].
    intros kv Hkv. cbn. by case_bool_decide.
  - apply Forall_app. split; [done|]. by constructor.
Qed.

Lemma dict_set_NoDup {V : Type} (key : string) (value : V) (d : list (string * V)) :
  NoDup d.*1 → NoDup (dict_set key value d).*1.
Proof.
  intros Hd. rewrite dict_set_keys. case_bool_decide as Hin; [done|].
  apply NoDup_app. split; [done|]. split; [|apply NoDup_singleton].
  intros k Hk ->%list_elem_of_singleton. done.
Qed.

Lemma dict_set_keeps_keys {V : Type} (key : string) (value : V)
    (d : list (string * V)) (k : string) :
  k ∈ d.*1 → k ∈ (dict_set key value d).*1.
Proof.
  intros Hk. rewrite dict_set_keys. case_bool_decide; [done|].
  apply elem_of_app. by left.
Qed.

(** X10.  The channel list that [collect_data] of the script returns is
    the list of values of a dictionary: there are keys, as many as entries
    and none doubled, among them the channel identifier of every video
    collected, and the entry of a key is [None] or the record of the channel
    that the key names.  So no channel has two records, and a channel
    without details is a [None] entry, not a missing one. *)
Theorem script_collect_data_channels `{PyBuiltins} `{YouTubeClient} (cfg : Config)
    (videos : list VideoRecord.t) (channels : list (option ChannelRecord.t)) :
  YouTubeCollector.collect_data cfg = Ok (videos, channels) →
  ∃ keys,
    NoDup keys
    ∧ (∀ video, video ∈ videos → VideoRecord.channel_id video ∈ keys)
    ∧ Forall2 entry_of keys channels.
Proof.
  intros (collected & all_channels & Hc & <- & Hloop & ->)%script_collect_data_videos.
  pose proof (collect_videos_channels _ _ _ _ Hc) as [Hnd Hkeys].
  pose proof (collect_videos_placeholders _ _ _ _ Hc) as Hnone.
  assert (Hfilled : filled_in collected.2.*1 all_channels).
  { revert Hloop. apply (for_each_invariant (filled_in collected.2.*1)).
    - split; [done|]. split; [done|].
      eapply Forall_impl; [exact Hnone|]. intros kv Hkv. by rewrite Hkv.
    - intros d batch d' _ Hd. apply (for_each_invariant (filled_in collected.2.*1)); [done|].
      clear d d' Hd. intros d channel d' _ (Hd1 & Hd2 & Hd3).
      destruct (c_id channel) as [channel_id|] eqn:Hid; cbn; [|done].
      destruct (channel_record channel) as [record|] eqn:Hrec; cbn; [|done].
      intros [= <-]. apply channel_record_id in Hrec. rewrite Hid in Hrec.
      injection Hrec as ->. split; [by apply dict_set_NoDup|]. split.
      + intros k Hk. by apply dict_set_keeps_keys, Hd2.
      + by apply dict_set_entries. }
  destruct Hfilled as (Hf1 & Hf2 & Hf3).
  exists all_channels.*1. split; [done|]. split.
  - intros video Hvideo. apply Hf2, Hkeys. by apply list_elem_of_fmap_2.
  - apply Forall2_fmap. clear -Hf3. induction Hf3; by constructor.
Qed.

(** X10 on the sample client with a failing channel lookup: the one
    channel of the one video is a [None] entry. *)
Lemma script_collect_data_channels_witness :
  ∃ videos channels keys,
    YouTubeCollector.collect_data (H := AsciiBuiltins.builtins)
      (H0 := demo_client (Raise HttpError)) AzureFunctionConfig = Ok (videos, channels)
    ∧ channels = [None]
    ∧ NoDup keys
    ∧ (∀ video, video ∈ videos → VideoRecord.channel_id video ∈ keys)
    ∧ Forall2 entry_of keys channels.
Proof.
  eexists _, _.
  destruct (script_collect_data_channels (H := AsciiBuiltins.builtins)
              (H0 := demo_client (Raise HttpError)) AzureFunctionConfig _ _ eq_refl)
    as (keys & Hkeys).
  exists keys. split; [reflexivity|]. split; [reflexivity|]. exact Hkeys.
Defined.

(** ** LoadOrchestrator: the other paths *)

(** X11.  Once connected, [load_todays_data] of the function app returns
    [True] exactly when the bodies of StagingLoader, DimensionMerger and
    FactMerger return, each on the state the one before committed; what
    AggregateRefresher and StagingCleaner do has no part in the result. *)
Theorem load_todays_data_result `{PhaseBodies} (c : Connection) :
  (SnowflakeLoaderService.load_todays_data true c).1 = true
  ↔ ∃ w1 w2 w3,
      body StagingLoader (session c) = Returned w1
      ∧ body DimensionMerger w1 = Returned w2
      ∧ body FactMerger w2 = Returned w3.
Proof.
  unfold SnowflakeLoaderService.load_todays_data, attempt. cbn.
  destruct (body StagingLoader (session c)) as [w1|w1] eqn:H1; cbn.
  2: { split; [done|]. by intros (? & ? & ? & ? & _). }
  destruct (body DimensionMerger w1) as [w2|w2] eqn:H2; cbn.
  2: { split; [done|]. intros (? & ? & ? & [= <-] & ? & _). congruence. }
  destruct (body FactMerger w2) as [w3|w3] eqn:H3; cbn.
  2: { split; [done|]. intros (? & ? & ? & [= <-] & ? & ?). congruence. }
  destruct (body AggregateRefresher w3) as [w4|w4]; cbn;
    match goal with
    | |- context [body StagingCleaner ?w] => destruct (body StagingCleaner w)
    end; cbn; (split; [intros _; by exists w1, w2, w3|done]).
Qed.

(** X12.  Once connected, the calls of [load_todays_data] of the function
    app are a sequence of phases, each followed by its own [commit] or
    [rollback], and then one [close], which is the last call on every path.
    The phases are an initial part of the fixed order, all five exactly when
    the result is [True], and nothing is left uncommitted: at the end the
    session's view is the committed warehouse. *)
Theorem load_todays_data_transactions `{PhaseBodies} (c : Connection) :
  let run := SnowflakeLoaderService.load_todays_data true c in
  ∃ steps,
    calls run.2 = calls c ++ (steps ≫= transaction) ++ [Close]
    ∧ steps.*1 `prefix_of` phase_order
    ∧ (run.1 = true ↔ steps.*1 = phase_order)
    ∧ session run.2 = committed run.2.
Proof.
  unfold SnowflakeLoaderService.load_todays_data, attempt. cbn.
  destruct (body StagingLoader (session c)) as [w1|w1]; cbn.
  2: { exists [(StagingLoader, false)]. cbn. rewrite <- !app_assoc.
       split; [done|]. split; [by eexists|]. done. }
  destruct (body DimensionMerger w1) as [w2|w2]; cbn.
  2: { exists [(StagingLoader, true); (DimensionMerger, false)]. cbn.
       rewrite <- !app_assoc. split; [done|]. split; [by eexists|]. done. }
  destruct (body FactMerger w2) as [w3|w3]; cbn.
  2: { exists [(StagingLoader, true); (DimensionMerger, true); (FactMerger, false)].
       cbn. rewrite <- !app_assoc. split; [done|]. split; [by eexists|]. done. }
  destruct (body AggregateRefresher w3) as [w4|w4]; cbn;
    match goal with
    | |- context [body StagingCleaner ?w] => destruct (body StagingCleaner w)
    end; cbn;
    [exists [(StagingLoader, true); (DimensionMerger, true); (FactMerger, true);
             (AggregateRefresher, true); (StagingCleaner, true)]
    |exists [(StagingLoader, true); (DimensionMerger, true); (FactMerger, true);
             (AggregateRefresher, true); (StagingCleaner, false)]
    |exists [(StagingLoader, true); (DimensionMerger, true); (FactMerger, true);
             (AggregateRefresher, false); (StagingCleaner, true)]
    |exists [(StagingLoader, true); (DimensionMerger, true); (FactMerger, true);
             (AggregateRefresher, false); (StagingCleaner, false)]];
    cbn; rewrite <- !app_assoc; (split; [done|]); (split; [by exists []|]); done.
Qed.

(** X13.  A failure of StagingLoader or of DimensionMerger aborts the
    run as one of FactMerger does: [rollback] is called, the connection is
    closed, the result is [False] and no later phase is invoked.  The
    rollback undoes nothing: the warehouse stays, committed, as the
    statements of the failed phase left it. *)
Theorem early_failure_aborts `{PhaseBodies} (w0 : Warehouse) :
  (∀ w, body StagingLoader w0 = Raised w →
        SnowflakeLoaderService.load_todays_data true (connect w0)
        = (false, {| committed := w; session := w;
                     calls := [Invoked StagingLoader; Rollback; Close] |}))
  ∧ (∀ w1 w, body StagingLoader w0 = Returned w1 →
             body DimensionMerger w1 = Raised w →
             SnowflakeLoaderService.load_todays_data true (connect w0)
             = (false, {| committed := w; session := w;
                          calls := [Invoked StagingLoader; Commit;
                                    Invoked DimensionMerger; Rollback; Close] |})).
Proof.
  split.
  - intros w Hw. unfold SnowflakeLoaderService.load_todays_data, attempt. cbn.
    by rewrite Hw.
  - intros w1 w H1 H2. unfold SnowflakeLoaderService.load_todays_data, attempt. cbn.
    rewrite H1. cbn. by rewrite H2.
Qed.

(** X13 on the sample warehouse, with StagingLoader raising once its INSERT
    has run (the two staged rows stay), and with DimensionMerger raising
    once its MERGE has run (the staged rows and both channels stay). *)
Lemma early_failure_aborts_witness :
  let env := demo_env 1705384800 in
  let staged := SnowflakeLoaderService._load_videos_to_staging env demo_warehouse in
  let merged := SnowflakeLoaderService._load_channels env staged in
  (SnowflakeLoaderService.load_todays_data (H := sql_bodies env [StagingLoader]) true
     (connect demo_warehouse)
   = (false, {| committed := staged; session := staged;
                calls := [Invoked StagingLoader; Rollback; Close] |})
   ∧ STG_VIDEOS demo_warehouse = []
   ∧ length (STG_VIDEOS staged) = 2%nat)
  ∧ (SnowflakeLoaderService.load_todays_data (H := sql_bodies env [DimensionMerger]) true
       (connect demo_warehouse)
     = (false, {| committed := merged; session := merged;
                  calls := [Invoked StagingLoader; Commit;
                            Invoked DimensionMerger; Rollback; Close] |})
     ∧ Dim.channel_id <$> DIM_CHANNELS demo_warehouse = [Some "UC1"]
     ∧ Dim.channel_id <$> DIM_CHANNELS merged = [Some "UC1"; Some "UC2"]).
Proof.
  split.
  - split; [|by vm_compute].
    eapply (proj1 (early_failure_aborts
                     (H := sql_bodies (demo_env 1705384800) [StagingLoader])
                     demo_warehouse)).
    reflexivity.
  - split; [|by vm_compute].
    eapply (proj2 (early_failure_aborts
                     (H := sql_bodies (demo_env 1705384800) [DimensionMerger])
                     demo_warehouse)); reflexivity.
Defined.

Lemma run_steps_committed `{PhaseBodies} (steps : list Phase) (c : Connection) :
  committed c = session c →
  let run := SnowflakeLoader.run_steps steps c in
  committed run.2 = session run.2.
Proof.
  revert c. induction steps as [|p steps IH]; intros c Hc; cbn; [done|].
  destruct (body p (session c)) as [w|w]; cbn; [|done].
  by apply IH.
Qed.

Lemma run_steps_cons_committed `{PhaseBodies} (p : Phase) (steps : list Phase)
    (c : Connection) :
  let run := SnowflakeLoader.run_steps (p :: steps) c in
  committed run.2 = session run.2.
Proof.
  cbn. destruct (body p (session c)) as [w|w]; cbn; [|done].
  by apply run_steps_committed.
Qed.

Lemma run_steps_calls `{PhaseBodies} (steps : list Phase) (c : Connection) :
  let run := SnowflakeLoader.run_steps steps c in
  ∃ phases,
    calls run.2 = calls c ++ (Invoked <$> phases)
    ∧ phases `prefix_of` steps
    ∧ (run.1 = true → phases = steps).
Proof.
  revert c. induction steps as [|p steps IH]; intros c; cbn.
  - exists []. by rewrite app_nil_r.
  - destruct (body p (session c)) as [w|w]; cbn.
    + destruct (IH {| committed := w; session := w;
                      calls := calls c ++ [Invoked p] |})
        as (phases & Hcalls & Hprefix & Hresult).
      cbn in *. exists (p :: phases).
      rewrite Hcalls, <- app_assoc. split; [done|].
      split; [by apply prefix_cons|].
      intros Hrun. by rewrite Hresult.
    + exists [p]. split; [done|].
      split; [by apply prefix_cons, prefix_nil|done].
Qed.

(** X14.  [load_todays_data] of the script calls neither [commit] nor
    [rollback] nor [close]: its calls are phase bodies only, an initial part
    of the fixed order (all five when the result is [True]).  Even so
    nothing is left uncommitted: at the end the committed warehouse is the
    session's view, with what every phase invoked has done, the one that
    raised included. *)
Theorem script_load_never_commits `{PhaseBodies} (c : Connection) :
  let run := SnowflakeLoader.load_todays_data c in
  committed run.2 = session run.2
  ∧ ∃ phases,
      calls run.2 = calls c ++ (Invoked <$> phases)
      ∧ phases `prefix_of` phase_order
      ∧ (run.1 = true → phases = phase_order).
Proof.
  split; [apply run_steps_cons_committed|apply run_steps_calls].
Qed.

(** X14 on the sample warehouse, in a run of the script where every phase
    returns: the five bodies are the only calls, and the two fact rows
    merged into the empty table are committed. *)
Lemma script_load_never_commits_witness :
  let run :=
    SnowflakeLoader.load_todays_data (H := sql_bodies (demo_env 1705384800) [])
      (connect demo_warehouse) in
  (committed run.2 = session run.2
   ∧ ∃ phases,
       calls run.2 = calls (connect demo_warehouse) ++ (Invoked <$> phases)
       ∧ phases `prefix_of` phase_order
       ∧ (run.1 = true → phases = phase_order))
  ∧ run.1 = true
  ∧ calls run.2 = Invoked <$> phase_order
  ∧ FACT_VIDEOS demo_warehouse = []
  ∧ Fact.video_id <$> FACT_VIDEOS (committed run.2) = [Some "v1"; Some "v1"].
Proof.
  split.
  - apply (script_load_never_commits (H := sql_bodies (demo_env 1705384800) [])
             (connect demo_warehouse)).
  - by vm_compute.
Defined.

(** ** The stage and the channel merge: further properties *)

Lemma elem_of_List_filter {A : Type} (f : A → bool) (l : list A) (x : A) :
  x ∈ List.filter f l ↔ x ∈ l ∧ f x = true.
Proof. by rewrite !list_elem_of_In, filter_In. Qed.

Lemma string_length_app (a b : string) :
  String.length (a +:+ b) = (String.length a + String.length b)%nat.
Proof. induction a as [|c a IH]; [done|]. rewrite app_String. cbn. by rewrite IH. Qed.

Lemma like_word_then_char_unfold (word s : string) :
  like_word_then_char word s
  = (String.prefix word s && (String.length word <? String.length s)%nat)
    || match s with
       | EmptyString => false
       | String _ rest => like_word_then_char word rest
       end.
Proof. by destruct s. Qed.

Lemma like_word_then_char_spec (word s : string) :
  like_word_then_char word s = true ↔ has_word_then_char word s.
Proof.
  unfold has_word_then_char. split.
  - induction s as [|a s IH]; rewrite like_word_then_char_unfold.
    + rewrite orb_false_r. intros [Hp Hl]%andb_true_iff.
      apply Nat.ltb_lt in Hl. cbn in Hl. lia.
    + intros [[Hp Hl]%andb_true_iff|Hrest]%orb_true_iff.
      * apply string_prefix_app in Hp as [rest Hrest]. rewrite Hrest in Hl.
        apply Nat.ltb_lt in Hl. rewrite string_length_app in Hl.
        destruct rest as [|c post]; [cbn in Hl; lia|].
        by exists "", c, post.
      * destruct (IH Hrest) as (pre & c & post & ->).
        by exists (String a pre), c, post.
  - intros (pre & c & post & ->). induction pre as [|a pre IH].
    + rewrite like_word_then_char_unfold. apply orb_true_iff. left.
      apply andb_true_iff. split.
      * apply string_prefix_app. by eexists.
      * apply Nat.ltb_lt. rewrite !string_length_app. cbn. lia.
    + rewrite app_String, like_word_then_char_unfold.
      apply orb_true_iff. right. exact IH.
Qed.

Lemma elem_of_flatten_stage (word : string) (files : list StageFile)
    (r : Element.t * string) :
  r ∈ flatten_stage word files
  ↔ ∃ f, f ∈ files ∧ METADATA_FILENAME f = r.2 ∧ r.1 ∈ json_array f
         ∧ like_word_then_char word r.2 = true.
Proof.
  unfold flatten_stage. rewrite list_elem_of_bind. split.
  - intros (f & Hv & Hf). apply list_elem_of_fmap in Hv as (v & -> & Hv).
    apply elem_of_List_filter in Hf as [Hf Hlike]. by exists f.
  - intros (f & Hf & Hname & Hv & Hlike). exists f. split.
    + apply list_elem_of_fmap. exists r.1. split; [|done].
      rewrite Hname. by destruct r.
    + apply elem_of_List_filter. split; [done|]. by rewrite Hname.
Qed.

(** X15.  The elements a statement reads from the stage with
    [LIKE '%word_%'] are the elements of the files whose name has [word]
    followed by at least one more character, each with the name of its
    file; the underscore of the pattern stands for any character, so a name
    that ends with [word] is not read. *)
Theorem flatten_stage_reads (word : string) (files : list StageFile)
    (value : Element.t) (name : string) :
  (value, name) ∈ flatten_stage word files
  ↔ ∃ f, f ∈ files ∧ METADATA_FILENAME f = name ∧ value ∈ json_array f
         ∧ has_word_then_char word name.
Proof.
  rewrite elem_of_flatten_stage. cbn.
  by setoid_rewrite like_word_then_char_spec.
Qed.

Lemma string_ltb_irrefl (s : string) : String.ltb s s = false.
Proof.
  unfold String.ltb. pose proof (String.compare_antisym s s) as Hs.
  by destruct (String.compare s s).
Qed.

Lemma string_ltb_trans (a b c : string) :
  String.ltb a b = true → String.ltb b c = true → String.ltb a c = true.
Proof.
  unfold String.ltb. intros Hab Hbc.
  assert (String.compare a b = Lt) as Hab' by (by destruct (String.compare a b)).
  assert (String.compare b c = Lt) as Hbc' by (by destruct (String.compare b c)).
  apply OrderedTypeEx.String_as_OT.cmp_lt in Hab', Hbc'.
  pose proof (OrderedTypeEx.String_as_OT.lt_trans _ _ _ Hab' Hbc') as Hac.
  apply OrderedTypeEx.String_as_OT.cmp_lt in Hac.
  unfold OrderedTypeEx.String_as_OT.cmp in Hac. by rewrite Hac.
Qed.

Lemma sql_eq_keys (a b : Element.t * string) :
  is_Some (row_key a) → row_key a = row_key b →
  sql_eq (Element.channel_id a.1) (Element.channel_id b.1) = true.
Proof.
  unfold row_key. intros [k Hk] Hab. apply sql_eq_true. exists k.
  by rewrite <- Hab.
Qed.

Lemma sql_eq_keys_inv (a b : Element.t * string) :
  sql_eq (Element.channel_id a.1) (Element.channel_id b.1) = true →
  row_key a = row_key b.
Proof. unfold row_key. intros (k & -> & ->)%sql_eq_true. done. Qed.

Lemma keep_latest_latest_of (seen best : list (Element.t * string))
    (r : Element.t * string) :
  is_Some (row_key r) →
  latest_of seen best →
  latest_of (seen ++ [r]) (keep_latest best r).
Proof.
  intros Hr (Hsome & Hsub & Hcov & Hmax).
  assert (Hbest : ∀ b, b ∈ best → is_Some (row_key b)).
  { intros b Hb%Hsub. by apply (proj1 (Forall_forall _ _) Hsome). }
  unfold latest_of, keep_latest.
  split; [apply Forall_app; split; [done|by constructor]|].
  destruct (existsb _ best) eqn:Hex.
  - apply existsb_exists in Hex as (b0 & Hb0%list_elem_of_In & Hm0).
    split; [|split].
    + intros x (b & -> & Hb)%list_elem_of_fmap.
      destruct (_ && _); apply elem_of_app; [right; by left|left; by apply Hsub].
    + intros r' [Hr'| ->%list_elem_of_singleton]%elem_of_app.
      * destruct (Hcov r' Hr') as (b & Hb & Hkey).
        eexists. split; [apply list_elem_of_fmap; exists b; by split|].
        destruct (_ && _) eqn:Hrepl; [|done].
        apply andb_true_iff in Hrepl as [Hm _]. apply sql_eq_keys_inv in Hm.
        by rewrite <- Hm.
      * eexists. split; [apply list_elem_of_fmap; exists b0; by split|].
        destruct (_ && _); [done|]. by apply sql_eq_keys_inv.
    + intros x r' (b & -> & Hb)%list_elem_of_fmap Hr' Hkey.
      destruct (_ && _) eqn:Hrepl.
      * apply andb_true_iff in Hrepl as [Hm Hlt]. apply sql_eq_keys_inv in Hm.
        apply elem_of_app in Hr' as [Hr'| ->%list_elem_of_singleton];
          [|apply string_ltb_irrefl].
        assert (Hold : String.ltb b.2 r'.2 = false).
        { apply Hmax; [done|done|]. by rewrite Hm. }
        destruct (String.ltb r.2 r'.2) eqn:Hnew; [|done].
        by rewrite (string_ltb_trans _ _ _ Hlt Hnew) in Hold.
      * apply elem_of_app in Hr' as [Hr'| ->%list_elem_of_singleton];
          [by apply Hmax|].
        apply andb_false_iff in Hrepl as [Hm|Hlt]; [|done].
        rewrite sql_eq_keys in Hm; [done|by apply Hbest|done].
  - assert (Hnone : ∀ b, b ∈ best → row_key b ≠ row_key r).
    { intros b Hb Hkey. apply not_true_iff_false in Hex. apply Hex.
      apply existsb_exists. exists b. split; [by apply list_elem_of_In|].
      apply sql_eq_keys; [by apply Hbest|done]. }
    split; [|split].
    + intros b [Hb| ->%list_elem_of_singleton]%elem_of_app; apply elem_of_app;
        [left; by apply Hsub|right; by left].
    + intros r' [Hr'| ->%list_elem_of_singleton]%elem_of_app.
      * destruct (Hcov r' Hr') as (b & Hb & Hkey).
        exists b. split; [apply elem_of_app; by left|done].
      * exists r. split; [apply elem_of_app; right; by left|done].
    + intros b r' [Hb| ->%list_elem_of_singleton]%elem_of_app
        [Hr'| ->%list_elem_of_singleton]%elem_of_app Hkey.
      * by apply Hmax.
      * by destruct (Hnone b Hb).
      * destruct (Hcov r' Hr') as (b & Hb & Hkey').
        destruct (Hnone b Hb). by rewrite Hkey'.
      * apply string_ltb_irrefl.
Qed.

Lemma fold_keep_latest (rows seen best : list (Element.t * string)) :
  Forall (is_Some ∘ row_key) rows →
  latest_of seen best →
  latest_of (seen ++ rows) (fold_left keep_latest rows best).
Proof.
  revert seen best. induction rows as [|r rows IH]; intros seen best Hrows Hinv; cbn.
  - by rewrite app_nil_r.
  - apply Forall_cons in Hrows as [Hr Hrows].
    replace (seen ++ r :: rows) with ((seen ++ [r]) ++ rows)
      by (by rewrite <- app_assoc).
    apply IH; [done|]. by apply keep_latest_latest_of.
Qed.

Lemma qualify_latest_latest_of (rows : list (Element.t * string)) :
  Forall (is_Some ∘ row_key) rows → latest_of rows (qualify_latest rows).
Proof.
  intros Hrows. apply (fold_keep_latest rows [] []); [done|].
  split; [constructor|]. split; [done|].
  split; [intros r Hr|intros b r Hb]; by apply elem_of_nil in Hr || apply elem_of_nil in Hb.
Qed.

Lemma channel_source_rows (env : SqlEnv) (r : Element.t * string) :
  r ∈ List.filter (λ r, bool_decide (is_Some (Element.channel_id r.1)))
        (flatten_stage "channels" (stage env))
  ↔ channel_source env r.1 r.2.
Proof.
  rewrite elem_of_List_filter, elem_of_flatten_stage, bool_decide_eq_true.
  unfold channel_source. setoid_rewrite like_word_then_char_spec. tauto.
Qed.

Lemma TEMP_CHANNELS_latest_of (env : SqlEnv) :
  latest_of
    (List.filter (λ r, bool_decide (is_Some (Element.channel_id r.1)))
       (flatten_stage "channels" (stage env)))
    (qualify_latest
       (List.filter (λ r, bool_decide (is_Some (Element.channel_id r.1)))
          (flatten_stage "channels" (stage env)))).
Proof.
  apply qualify_latest_latest_of, Forall_forall.
  intros r Hr. by apply channel_source_rows in Hr as [Hr _].
Qed.

Lemma TEMP_CHANNELS_covers (env : SqlEnv) (value : Element.t) (name : string) :
  channel_source env value name →
  ∃ s, s ∈ TEMP_CHANNELS env
       ∧ TempChannels.channel_id s = Element.channel_id value.
Proof.
  intros Hsrc. destruct (TEMP_CHANNELS_latest_of env) as (_ & _ & Hcov & _).
  destruct (Hcov (value, name)) as (b & Hb & Hkey); [by apply channel_source_rows|].
  exists (temp_channels_row b.1). split; [|done].
  unfold TEMP_CHANNELS. apply list_elem_of_fmap. by exists b.
Qed.

(** X16.  [TEMP_CHANNELS] holds the latest snapshot of every channel of
    the day: each of its rows is the SELECT list of a channel element of
    today's stage, and no element with the same identifier comes from a file
    with a greater name; every channel identifier of today's channel files
    has a row; and no identifier has two. *)
Theorem TEMP_CHANNELS_latest_snapshot (env : SqlEnv) :
  (∀ row, row ∈ TEMP_CHANNELS env →
     ∃ value name,
       channel_source env value name
       ∧ row = temp_channels_row value
       ∧ ∀ value' name',
           channel_source env value' name' →
           Element.channel_id value' = Element.channel_id value →
           String.ltb name name' = false)
  ∧ (∀ value name,
       channel_source env value name →
       Element.channel_id value ∈ TempChannels.channel_id <$> TEMP_CHANNELS env)
  ∧ NoDup (TempChannels.channel_id <$> TEMP_CHANNELS env).
Proof.
  pose proof (TEMP_CHANNELS_unique_keys env) as [_ Hnd].
  split; [|split; [|done]].
  - destruct (TEMP_CHANNELS_latest_of env) as (_ & Hsub & _ & Hmax).
    unfold TEMP_CHANNELS. intros row (b & -> & Hb)%list_elem_of_fmap.
    exists b.1, b.2. split; [by apply channel_source_rows, Hsub|].
    split; [done|]. intros value' name' Hsrc Hkey.
    apply (Hmax b (value', name')); [done| |done].
    by apply channel_source_rows.
  - intros value name (s & Hs & <-)%TEMP_CHANNELS_covers.
    by apply list_elem_of_fmap_2.
Qed.

Lemma merge_dim_channels_nothing (env : SqlEnv) (tgt : list Dim.row) :
  merge_dim_channels env [] tgt = tgt.
Proof.
  unfold merge_dim_channels. cbn. rewrite app_nil_r.
  induction tgt as [|t tgt IH]; cbn; [done|]. by rewrite IH.
Qed.

(** X17.  The channel merge deletes nothing and moves nothing: the
    table does not shrink, and a row keeps its position, its [channel_id]
    and its [first_seen_date].  On a day whose stage has no channel element
    with an identifier the warehouse is left as it is. *)
Theorem load_channels_keeps_rows (env : SqlEnv) (w : Warehouse) :
  let tgt := DIM_CHANNELS w in
  let tgt' := DIM_CHANNELS (SnowflakeLoaderService._load_channels env w) in
  (length tgt ≤ length tgt')%nat
  ∧ (∀ i t, tgt !! i = Some t →
       ∃ t', tgt' !! i = Some t'
             ∧ Dim.channel_id t' = Dim.channel_id t
             ∧ Dim.first_seen_date t' = Dim.first_seen_date t)
  ∧ ((∀ value name, ¬ channel_source env value name) →
     SnowflakeLoaderService._load_channels env w = w).
Proof.
  cbn. split; [|split].
  - unfold merge_dim_channels. rewrite length_app, length_fmap. lia.
  - intros i t Hi. rewrite (merge_dim_channels_lookup _ _ _ _ _ Hi).
    eexists. split; [done|]. by destruct (List.find _ _).
  - intros Hnone. unfold SnowflakeLoaderService._load_channels, TEMP_CHANNELS.
    assert (List.filter (λ r : Element.t * string,
                           bool_decide (is_Some (Element.channel_id r.1)))
              (flatten_stage "channels" (stage env)) = []) as ->.
    { apply elem_of_nil_inv. intros r Hr%channel_source_rows. by eapply Hnone. }
    cbn. rewrite merge_dim_channels_nothing. by destruct w.
Qed.

(** ** FactMerger and AggregateRefresher: further properties *)

Lemma merge_fact_videos_covers (stg : list Stg.row) (tgt : list Fact.row) (s : Fact.row) :
  s ∈ staged_facts stg →
  existsb (λ t, fact_matches t s) (merge_fact_videos stg tgt) = true.
Proof.
  intros Hs. unfold merge_fact_videos. rewrite existsb_app.
  destruct (existsb (λ t, fact_matches t s) tgt) eqn:Hold; [done|]. cbn.
  apply existsb_exists. exists s. split.
  - apply list_elem_of_In, elem_of_List_filter. split.
    + by apply elem_of_remove_dups.
    + by rewrite Hold.
  - apply fact_matches_true. split; [|done]. by eapply staged_facts_video_id.
Qed.

Lemma merge_fact_videos_nothing_new (stg : list Stg.row) (tgt : list Fact.row) :
  (∀ s, s ∈ staged_facts stg → existsb (λ t, fact_matches t s) tgt = true) →
  merge_fact_videos stg tgt = tgt.
Proof.
  intros Hall. unfold merge_fact_videos.
  rewrite (filter_nothing (λ s, existsb (λ t, fact_matches t s) tgt));
    [by rewrite app_nil_r|].
  intros s Hs. rewrite elem_of_remove_dups in Hs. by rewrite Hall.
Qed.

(** X18.  The fact merge only inserts.  The rows the table had stay as
    they were and where they were, also when the staging area has newer
    counts for their videos; an appended row is a staged row with a video
    identifier that the table did not have; and afterwards every staged
    video identifier is in the table. *)
Theorem load_video_facts_insert_only (w : Warehouse) :
  let tgt := FACT_VIDEOS w in
  let tgt' := FACT_VIDEOS (SnowflakeLoaderService._load_video_facts w) in
  take (length tgt) tgt' = tgt
  ∧ (∀ r, r ∈ drop (length tgt) tgt' →
       r ∈ staged_facts (STG_VIDEOS w)
       ∧ is_Some (Fact.video_id r)
       ∧ ∀ t, t ∈ tgt → Fact.video_id t ≠ Fact.video_id r)
  ∧ (∀ s, s ∈ staged_facts (STG_VIDEOS w) → Fact.video_id s ∈ Fact.video_id <$> tgt').
Proof.
  cbn. split; [apply merge_fact_videos_keeps_rows|].
  split; [apply merge_fact_videos_inserts_new|].
  intros s Hs.
  pose proof (merge_fact_videos_covers _ (FACT_VIDEOS w) _ Hs) as Hcov.
  apply existsb_exists in Hcov as (t & Ht & Hm).
  apply fact_matches_true in Hm as [_ <-].
  apply list_elem_of_fmap_2. by apply list_elem_of_In.
Qed.

(** X19.  The fact merge is idempotent: run again on the same staging
    area it inserts nothing, whatever was staged. *)
Theorem load_video_facts_idempotent (w : Warehouse) :
  SnowflakeLoaderService._load_video_facts (SnowflakeLoaderService._load_video_facts w)
  = SnowflakeLoaderService._load_video_facts w.
Proof.
  unfold SnowflakeLoaderService._load_video_facts. cbn. f_equal.
  apply merge_fact_videos_nothing_new. intros s Hs.
  by apply merge_fact_videos_covers.
Qed.

Lemma staged_facts_app (a b : list Stg.row) :
  staged_facts (a ++ b) = staged_facts a ++ staged_facts b.
Proof. unfold staged_facts. by rewrite List.filter_app, fmap_app. Qed.

Lemma staged_facts_load_timestamp (ts ts' : option Z) (rows : list (Element.t * string)) :
  staged_facts ((λ r : Element.t * string,
                   {| Stg.raw_json := r.1; Stg.load_timestamp := ts;
                      Stg.file_name := Some r.2 |}) <$> rows)
  = staged_facts ((λ r : Element.t * string,
                     {| Stg.raw_json := r.1; Stg.load_timestamp := ts';
                        Stg.file_name := Some r.2 |}) <$> rows).
Proof.
  unfold staged_facts. induction rows as [|r rows IH]; [done|]. cbn.
  case_bool_decide; cbn; by rewrite IH.
Qed.

(** X20.  A second run on the same stage files with the staging area not
    cleared in between, as after a failed StagingCleaner: the staging load
    appends the day's elements once more, so the staging area holds them
    twice, and the fact merge inserts nothing, so the fact table is as the
    first run left it. *)
Theorem rerun_without_cleanup (env env' : SqlEnv) (w : Warehouse) :
  stage env' = stage env →
  let first :=
    SnowflakeLoaderService._load_video_facts
      (SnowflakeLoaderService._load_videos_to_staging env w) in
  let second :=
    SnowflakeLoaderService._load_video_facts
      (SnowflakeLoaderService._load_videos_to_staging env' first) in
  FACT_VIDEOS second = FACT_VIDEOS first
  ∧ length (STG_VIDEOS second)
    = (length (STG_VIDEOS w) + 2 * length (flatten_stage "videos" (stage env)))%nat.
Proof.
  intros Hstage. cbn. rewrite Hstage. split.
  - apply merge_fact_videos_nothing_new. intros s Hs.
    apply merge_fact_videos_covers.
    rewrite staged_facts_app in Hs. apply elem_of_app in Hs as [Hs|Hs]; [done|].
    rewrite staged_facts_app. apply elem_of_app. right.
    by rewrite (staged_facts_load_timestamp _ (Some (CURRENT_TIMESTAMP env'))).
  - rewrite !length_app, !length_fmap. lia.
Qed.

(** X20 on the sample stage, the second run one hour after the first. *)
Lemma rerun_without_cleanup_witness :
  let first :=
    SnowflakeLoaderService._load_video_facts
      (SnowflakeLoaderService._load_videos_to_staging (demo_env 1705384800)
         demo_warehouse) in
  let second :=
    SnowflakeLoaderService._load_video_facts
      (SnowflakeLoaderService._load_videos_to_staging (demo_env 1705388400) first) in
  FACT_VIDEOS second = FACT_VIDEOS first
  ∧ length (STG_VIDEOS second) = 4%nat.
Proof.
  apply (rerun_without_cleanup (demo_env 1705384800) (demo_env 1705388400)
           demo_warehouse).
  reflexivity.
Defined.

(** X21.  When the fact table has one row per video identifier and all
    staged copies of a video agree in every column, the fact merge keeps the
    table at one row per video identifier. *)
Theorem load_video_facts_identical_copies (w : Warehouse) :
  one_row_per_video (FACT_VIDEOS w) →
  (∀ a b, a ∈ staged_facts (STG_VIDEOS w) → b ∈ staged_facts (STG_VIDEOS w) →
          Fact.video_id a = Fact.video_id b → a = b) →
  one_row_per_video (FACT_VIDEOS (SnowflakeLoaderService._load_video_facts w)).
Proof. intros Hone Hcopies. by apply merge_fact_videos_identical_copies. Qed.

(** X21 on a staging area that holds one video element twice: the table
    gets one row. *)
Lemma load_video_facts_identical_copies_witness :
  let row :=
    {| Stg.raw_json := video_element "v1" "UC1" "technology";
       Stg.load_timestamp := Some 1705384800;
       Stg.file_name := Some "raw/2024/01/16/videos_20240116_060000.json" |} in
  let w :=
    {| STG_VIDEOS := [row; row]; DIM_CHANNELS := []; FACT_VIDEOS := [];
       AGG_DAILY_BY_REGION := [] |} in
  one_row_per_video (FACT_VIDEOS (SnowflakeLoaderService._load_video_facts w))
  ∧ length (FACT_VIDEOS (SnowflakeLoaderService._load_video_facts w)) = 1%nat.
Proof.
  split; [|reflexivity].
  apply load_video_facts_identical_copies.
  - constructor.
  - intros a b Ha Hb _.
    apply elem_of_cons in Ha as [->|Ha]; [|apply list_elem_of_singleton in Ha as ->];
      (apply elem_of_cons in Hb as [->|Hb]; [|apply list_elem_of_singleton in Hb as ->]);
      reflexivity.
Defined.

(** X22.  The fact load of the script is a plain INSERT: run twice on the
    same staging area it appends the staged rows twice, so that, unless
    nothing with a video identifier is staged, the table no longer has one
    row per video identifier. *)
Theorem script_load_video_facts_twice (w : Warehouse) :
  let twice := SnowflakeLoader.load_video_facts (SnowflakeLoader.load_video_facts w) in
  FACT_VIDEOS twice
  = FACT_VIDEOS w ++ staged_facts (STG_VIDEOS w) ++ staged_facts (STG_VIDEOS w)
  ∧ (staged_facts (STG_VIDEOS w) ≠ [] → ¬ one_row_per_video (FACT_VIDEOS twice)).
Proof.
  set (staged := staged_facts (STG_VIDEOS w)).
  assert (Htwice :
    FACT_VIDEOS (SnowflakeLoader.load_video_facts (SnowflakeLoader.load_video_facts w))
    = FACT_VIDEOS w ++ staged ++ staged).
  { cbn. by rewrite <- app_assoc. }
  cbv zeta. rewrite Htwice. split; [done|].
  intros Hne Hnd. unfold one_row_per_video in Hnd.
  destruct staged as [|s rest]; [done|].
  rewrite !fmap_app in Hnd. apply NoDup_app in Hnd as (_ & _ & Hnd).
  apply NoDup_app in Hnd as (_ & Hnd & _).
  apply (Hnd (Fact.video_id s)); cbn; left.
Qed.

(** X23.  The aggregate refresh replaces today's rows only: afterwards
    the table holds the rows it had for other dates (and those without a
    date) and the rows of the grouped SELECT.  When those rows carry today's
    date, as [CURRENT_DATE() as analysis_date] makes them, a second refresh
    changes nothing. *)
Theorem refresh_aggregations_today (env : SqlEnv) (w : Warehouse) :
  let today := CURRENT_DATE env in
  let fresh := daily_aggregates env today (FACT_VIDEOS w) (DIM_CHANNELS w) in
  let w' := SnowflakeLoaderService._refresh_aggregations env w in
  (∀ a, a ∈ AGG_DAILY_BY_REGION w'
        ↔ (a ∈ AGG_DAILY_BY_REGION w ∧ Agg.analysis_date a ≠ Some today) ∨ a ∈ fresh)
  ∧ ((∀ a, a ∈ fresh → Agg.analysis_date a = Some today) →
     SnowflakeLoaderService._refresh_aggregations env w' = w').
Proof.
  assert (Hkeep : ∀ a, negb (sql_eq (Agg.analysis_date a) (Some (CURRENT_DATE env))) = true
                       ↔ Agg.analysis_date a ≠ Some (CURRENT_DATE env)).
  { intros a. rewrite negb_true_iff, <- not_true_iff_false, sql_eq_true.
    split.
    - intros Hne Heq. apply Hne. eexists. by rewrite Heq.
    - intros Hne (x & Hx & [= <-]). done. }
  cbn. split.
  - intros a. rewrite elem_of_app, elem_of_List_filter, Hkeep. tauto.
  - intros Hfresh. unfold SnowflakeLoaderService._refresh_aggregations. cbn.
    f_equal. f_equal. rewrite List.filter_app.
    set (keep := λ a, negb (sql_eq (Agg.analysis_date a) (Some (CURRENT_DATE env)))).
    assert (List.filter keep (daily_aggregates env (CURRENT_DATE env) (FACT_VIDEOS w)
                                (DIM_CHANNELS w)) = []) as ->.
    { apply elem_of_nil_inv. intros a [Ha Hk]%elem_of_List_filter.
      apply Hkeep in Hk. by apply Hk, Hfresh. }
    rewrite app_nil_r. clear Hfresh.
    induction (AGG_DAILY_BY_REGION w) as [|a rows IH]; cbn; [done|].
    destruct (keep a) eqn:Ha; cbn; [|done]. by rewrite Ha, IH.
Qed.

(** X24.  A run of the function app's loader in which no phase fails
    returns [True] and commits the five phases in order; afterwards the
    staging area is empty, every video identifier of today's video files is
    in the fact table, and every channel identifier of today's channel files
    is in the dimension table. *)
Theorem full_run_loads_stage (env : SqlEnv) (w0 : Warehouse) :
  let run :=
    SnowflakeLoaderService.load_todays_data (H := sql_bodies env []) true (connect w0) in
  run.1 = true
  ∧ committed run.2
    = SnowflakeLoaderService._cleanup_staging
        (SnowflakeLoaderService._refresh_aggregations env
           (SnowflakeLoaderService._load_video_facts
              (SnowflakeLoaderService._load_channels env
                 (SnowflakeLoaderService._load_videos_to_staging env w0))))
  ∧ STG_VIDEOS (committed run.2) = []
  ∧ (∀ value, video_source env value →
       Element.video_id value ∈ Fact.video_id <$> FACT_VIDEOS (committed run.2))
  ∧ (∀ value name, channel_source env value name →
       Element.channel_id value ∈ Dim.channel_id <$> DIM_CHANNELS (committed run.2)).
Proof.
  cbv zeta. split; [done|]. split; [done|]. split; [done|]. split.
  - intros value (Hid & f & Hf & Hvalue & Hname).
    change (Element.video_id value)
      with (Fact.video_id (fact_of_element value)).
    assert (Hstaged : fact_of_element value
              ∈ staged_facts (STG_VIDEOS w0
                  ++ ((λ r : Element.t * string,
                         {| Stg.raw_json := r.1;
                            Stg.load_timestamp := Some (CURRENT_TIMESTAMP env);
                            Stg.file_name := Some r.2 |})
                      <$> flatten_stage "videos" (stage env)))).
    { rewrite staged_facts_app. apply elem_of_app. right. unfold staged_facts.
      apply list_elem_of_fmap. eexists. split; [|apply elem_of_List_filter; split].
      2: { apply list_elem_of_fmap. exists (value, METADATA_FILENAME f).
           split; [done|]. apply elem_of_flatten_stage. exists f.
           by rewrite like_word_then_char_spec. }
      - done.
      - by apply bool_decide_eq_true. }
    pose proof (merge_fact_videos_covers _ (FACT_VIDEOS w0) _ Hstaged) as Hcov.
    apply existsb_exists in Hcov as (t & Ht & Hm).
    apply fact_matches_true in Hm as [_ <-].
    apply list_elem_of_fmap_2. by apply list_elem_of_In.
  - intros value name (s & Hs & <-)%TEMP_CHANNELS_covers.
    pose proof (merge_dim_channels_covers env _ (DIM_CHANNELS w0) s
                  (TEMP_CHANNELS_unique_keys env) Hs) as Hcov.
    apply existsb_exists in Hcov as (t & Ht & Hm).
    apply dim_matches_true in Hm as [_ <-].
    apply list_elem_of_fmap_2. by apply list_elem_of_In.
Qed.

Lemma merge_dim_channels_ids (env : SqlEnv) (src : list TempChannels.row)
    (tgt : list Dim.row) :
  Dim.channel_id <$> merge_dim_channels env src tgt
  = (Dim.channel_id <$> tgt)
    ++ (TempChannels.channel_id
          <$> List.filter (λ s, negb (existsb (λ t, dim_matches t s) tgt)) src).
Proof.
  unfold merge_dim_channels. rewrite fmap_app, <- !list_fmap_compose. f_equal.
  apply list_fmap_ext. intros i t _. cbn. by destruct (List.find _ _).
Qed.

Lemma merge_dim_channels_again (env env' : SqlEnv) (src : list TempChannels.row)
    (tgt : list Dim.row) :
  unique_keys src →
  Dim.channel_id <$> merge_dim_channels env' src (merge_dim_channels env src tgt)
  = Dim.channel_id <$> merge_dim_channels env src tgt.
Proof.
  intros Hsrc. rewrite (merge_dim_channels_ids env').
  rewrite (filter_nothing (λ s, existsb (λ t, dim_matches t s)
                                  (merge_dim_channels env src tgt))).
  - by rewrite app_nil_r.
  - intros s Hs. by rewrite merge_dim_channels_covers.
Qed.

Lemma full_run_committed (env : SqlEnv) (w : Warehouse) :
  committed
    (SnowflakeLoaderService.load_todays_data (H := sql_bodies env []) true (connect w)).2
  = SnowflakeLoaderService._cleanup_staging
      (SnowflakeLoaderService._refresh_aggregations env
         (SnowflakeLoaderService._load_video_facts
            (SnowflakeLoaderService._load_channels env
               (SnowflakeLoaderService._load_videos_to_staging env w)))).
Proof. reflexivity. Qed.

(** X30.  A second run of the function app's loader on the same day, on
    the stage files of the first and with no phase failing in either: it
    returns [True], leaves the staging area empty, inserts no fact row (the
    fact table is as the first run left it) and inserts no channel (the
    dimension table has the same channel identifiers in the same places). *)
Theorem second_run_same_day (env env' : SqlEnv) (w0 : Warehouse) :
  stage env' = stage env →
  let run1 :=
    SnowflakeLoaderService.load_todays_data (H := sql_bodies env []) true (connect w0) in
  let run2 :=
    SnowflakeLoaderService.load_todays_data (H := sql_bodies env' []) true
      (connect (committed run1.2)) in
  run2.1 = true
  ∧ STG_VIDEOS (committed run2.2) = []
  ∧ FACT_VIDEOS (committed run2.2) = FACT_VIDEOS (committed run1.2)
  ∧ Dim.channel_id <$> DIM_CHANNELS (committed run2.2)
    = Dim.channel_id <$> DIM_CHANNELS (committed run1.2).
Proof.
  intros Hstage. cbv zeta. split; [done|]. split; [done|].
  rewrite !full_run_committed. split.
  - cbn. rewrite Hstage. apply merge_fact_videos_nothing_new. intros s Hs.
    apply merge_fact_videos_covers.
    rewrite staged_facts_app. apply elem_of_app. right.
    by rewrite (staged_facts_load_timestamp _ (Some (CURRENT_TIMESTAMP env'))).
  - cbn. assert (TEMP_CHANNELS env' = TEMP_CHANNELS env) as ->.
    { unfold TEMP_CHANNELS. by rewrite Hstage. }
    apply merge_dim_channels_again, TEMP_CHANNELS_unique_keys.
Qed.

(** X30 on the sample warehouse, the second run one hour after the first. *)
Lemma second_run_same_day_witness :
  let run1 :=
    SnowflakeLoaderService.load_todays_data
      (H := sql_bodies (demo_env 1705384800) []) true (connect demo_warehouse) in
  let run2 :=
    SnowflakeLoaderService.load_todays_data
      (H := sql_bodies (demo_env 1705388400) []) true (connect (committed run1.2)) in
  run2.1 = true
  ∧ STG_VIDEOS (committed run2.2) = []
  ∧ FACT_VIDEOS (committed run2.2) = FACT_VIDEOS (committed run1.2)
  ∧ Dim.channel_id <$> DIM_CHANNELS (committed run2.2)
    = Dim.channel_id <$> DIM_CHANNELS (committed run1.2).
Proof.
  apply (second_run_same_day (demo_env 1705384800) (demo_env 1705388400)
           demo_warehouse).
  reflexivity.
Defined.

(** ** Publisher *)

Lemma string_app_assoc (a b c : string) : (a +:+ b) +:+ c = a +:+ (b +:+ c).
Proof. induction a as [|x a IH]; [done|]. by rewrite !app_String, IH. Qed.

Lemma all_chars_app (P : ascii → bool) (a b : string) :
  all_chars P (a +:+ b) = all_chars P a && all_chars P b.
Proof.
  induction a as [|x a IH]; [done|].
  rewrite app_String. cbn. by rewrite IH, andb_assoc.
Qed.

Lemma digit_is_decimal (n : nat) : is_decimal_digit (digit n) = true.
Proof.
  unfold is_decimal_digit, digit.
  pose proof (Nat.mod_upper_bound n 10 ltac:(lia)) as Hlt.
  rewrite nat_ascii_embedding by lia.
  apply andb_true_iff. split; [apply Nat.leb_le|apply Nat.leb_le]; lia.
Qed.

Lemma all_chars_decimal (P : ascii → bool) (fuel n : nat) (acc : string) :
  (∀ c, is_decimal_digit c = true → P c = true) →
  all_chars P acc = true →
  all_chars P (decimal fuel n acc) = true.
Proof.
  intros HP. revert n acc.
  induction fuel as [|fuel IH]; intros n acc Hacc; cbn [decimal].
  - cbn [all_chars]. by rewrite HP, Hacc by apply digit_is_decimal.
  - destruct (n <? 10)%nat.
    + cbn [all_chars]. by rewrite HP, Hacc by apply digit_is_decimal.
    + apply IH. cbn [all_chars]. by rewrite HP, Hacc by apply digit_is_decimal.
Qed.

Lemma all_chars_zero_padded (P : ascii → bool) (width n : nat) :
  (∀ c, is_decimal_digit c = true → P c = true) →
  all_chars P (zero_padded width n) = true.
Proof.
  intros HP. unfold zero_padded, str. rewrite all_chars_app.
  rewrite all_chars_decimal by done. rewrite andb_true_r.
  induction (width - _)%nat as [|k IH]; [done|]. cbn. rewrite IH, andb_true_r.
  by apply HP.
Qed.

Lemma all_chars_str (P : ascii → bool) (n : nat) :
  (∀ c, is_decimal_digit c = true → P c = true) →
  all_chars P (str n) = true.
Proof. intros HP. by apply all_chars_decimal. Qed.

Lemma digit_or_in_digit (word : string) (c : ascii) :
  is_decimal_digit c = true → digit_or_in word c = true.
Proof. unfold digit_or_in. by intros ->. Qed.

Lemma all_chars_timestamp (word : string) (now : Datetime.t) :
  digit_or_in word "_" = true →
  all_chars (digit_or_in word) (timestamp now) = true.
Proof.
  intros Hsep. unfold timestamp.
  rewrite !all_chars_app, !all_chars_zero_padded by apply digit_or_in_digit.
  cbn. by rewrite Hsep.
Qed.

Lemma all_chars_date_path (word : string) (now : Datetime.t) :
  all_chars (digit_or_in word) "raw/" = true →
  all_chars (digit_or_in word) (date_path now) = true.
Proof.
  intros Hraw. unfold date_path.
  rewrite !all_chars_app, !all_chars_zero_padded, all_chars_str
    by apply digit_or_in_digit.
  assert (Hslash : all_chars (digit_or_in word) "/" = true).
  { cbn [all_chars] in *. by do 3 (apply andb_true_iff in Hraw as [_ Hraw]). }
  by rewrite Hraw, Hslash.
Qed.

Lemma like_needs_chars (P : ascii → bool) (word s : string) :
  all_chars P s = true → all_chars P word = false →
  like_word_then_char word s = false.
Proof.
  intros Hs Hword. apply not_true_iff_false.
  intros (pre & c & post & ->)%like_word_then_char_spec.
  rewrite !all_chars_app in Hs.
  apply andb_true_iff in Hs as [_ [Hs _]%andb_true_iff]. congruence.
Qed.

Lemma like_after_path (path word rest : string) :
  like_word_then_char word (path +:+ "/" +:+ word +:+ "_" +:+ rest) = true.
Proof.
  apply like_word_then_char_spec. exists (path +:+ "/"), "_"%char, rest.
  by rewrite string_app_assoc.
Qed.

(** A blob name made of digits and the characters of [allowed] does not
    match a word with another character. *)
Ltac blob_name_lacks allowed :=
  apply (like_needs_chars (digit_or_in allowed)); [|reflexivity];
  unfold videos_blob_name, channels_blob_name, metadata_blob_name;
  rewrite !all_chars_app, all_chars_date_path, all_chars_timestamp by reflexivity;
  reflexivity.

(** X25.  The blob names of [upload_to_azure] and the filters of the
    loader fit, at every date and time: the videos blob matches
    [LIKE '%videos_%'] and not [LIKE '%channels_%'], the channels blob
    matches [LIKE '%channels_%'] and not [LIKE '%videos_%'], and the
    metadata blob matches neither.  So the staging load reads the videos
    blob only and the channel merge the channels blob only. *)
Theorem blob_names_match_filters (now : Datetime.t) :
  (like_word_then_char "videos" (videos_blob_name now) = true
   ∧ like_word_then_char "channels" (videos_blob_name now) = false)
  ∧ (like_word_then_char "channels" (channels_blob_name now) = true
     ∧ like_word_then_char "videos" (channels_blob_name now) = false)
  ∧ (like_word_then_char "videos" (metadata_blob_name now) = false
     ∧ like_word_then_char "channels" (metadata_blob_name now) = false).
Proof.
  split; [|split]; split.
  - apply (like_after_path (date_path now) "videos").
  - blob_name_lacks "raw/videos_.json".
  - apply (like_after_path (date_path now) "channels").
  - blob_name_lacks "raw/channels_.json".
  - blob_name_lacks "raw/metadata_.json".
  - blob_name_lacks "raw/metadata_.json".
Qed.

(** The three blob names at 16 January 2024, 06:00:00. *)
Example blob_names_sample :
  videos_blob_name sample_now = "raw/2024/01/16/videos_20240116_060000.json"
  ∧ channels_blob_name sample_now = "raw/2024/01/16/channels_20240116_060000.json"
  ∧ metadata_blob_name sample_now = "raw/2024/01/16/metadata_20240116_060000.json".
Proof. by vm_compute. Qed.

Lemma blob_names_distinct (now : Datetime.t) :
  videos_blob_name now ≠ channels_blob_name now
  ∧ videos_blob_name now ≠ metadata_blob_name now
  ∧ channels_blob_name now ≠ metadata_blob_name now.
Proof.
  unfold videos_blob_name, channels_blob_name, metadata_blob_name.
  repeat split; intros Heq%(inj (String.app _)); vm_compute in Heq; congruence.
Qed.

(** X26.  [upload_to_azure] never raises, and returns [True] exactly when
    none of its three uploads is refused; the container then holds the
    videos, the channels, and a metadata blob whose totals are the lengths
    of the two lists.  The upload is not atomic: once the videos blob is
    written it stays, also when a later upload fails and the result is
    [False].  Blobs of other names are left alone. *)
Theorem upload_to_azure_outcome {C : Type} `{BlobService} (cfg : Config)
    (function_execution : option bool) (now : Datetime.t)
    (videos : list VideoRecord.t) (channels : list C)
    (container : gmap string (Blob C)) :
  let run := upload_to_azure cfg function_execution now videos channels container in
  (run.1 = true
   ↔ upload_raises (videos_blob_name now) = false
     ∧ upload_raises (channels_blob_name now) = false
     ∧ upload_raises (metadata_blob_name now) = false)
  ∧ (run.1 = true →
     run.2 !! videos_blob_name now = Some (VideosJson videos)
     ∧ run.2 !! channels_blob_name now = Some (ChannelsJson channels)
     ∧ ∃ metadata,
         run.2 !! metadata_blob_name now = Some (MetadataJson metadata)
         ∧ total_videos metadata = length videos
         ∧ total_channels metadata = length channels)
  ∧ (upload_raises (videos_blob_name now) = false →
     run.2 !! videos_blob_name now = Some (VideosJson videos))
  ∧ (∀ name,
       name ≠ videos_blob_name now → name ≠ channels_blob_name now →
       name ≠ metadata_blob_name now →
       run.2 !! name = container !! name).
Proof.
  destruct (blob_names_distinct now) as (Hvc & Hvm & Hcm).
  unfold upload_to_azure, upload_blob.
  destruct (upload_raises (videos_blob_name now)); cbn.
  { split; [split; [done|by intros [? _]]|]. split; [done|]. split; done. }
  destruct (upload_raises (channels_blob_name now)); cbn.
  { split; [split; [done|by intros (_ & ? & _)]|]. split; [done|].
    split; [intros _; by rewrite lookup_insert_eq|].
    intros name Hv _ _. by rewrite lookup_insert_ne by congruence. }
  destruct (upload_raises (metadata_blob_name now)); cbn.
  { split; [split; [done|by intros (_ & _ & ?)]|]. split; [done|].
    split; [intros _; by rewrite lookup_insert_ne, lookup_insert_eq by congruence|].
    intros name Hv Hc _. by rewrite !lookup_insert_ne by congruence. }
  split; [done|]. split; [|split].
  - intros _. split; [by rewrite !lookup_insert_ne, lookup_insert_eq by congruence|].
    split; [by rewrite lookup_insert_ne, lookup_insert_eq by congruence|].
    eexists. split; [by rewrite lookup_insert_eq|done].
  - intros _. by rewrite !lookup_insert_ne, lookup_insert_eq by congruence.
  - intros name Hv Hc Hm. by rewrite !lookup_insert_ne by congruence.
Qed.

(** ** Settings and entry points *)

Lemma truthy_lookup (environ : gmap string string) (key : string) :
  truthy (environ !! key) = true ↔ is_set environ key.
Proof.
  unfold is_set. destruct (environ !! key) as [[|c s]|]; cbn.
  - split; [done|]. by intros (? & [= <-] & ?).
  - split; [|done]. intros _. by eexists.
  - split; [done|]. by intros (? & ? & _).
Qed.

Lemma truthy_environ_get (environ : gmap string string) (key : string)
    (c : ascii) (fallback : string) :
  truthy (environ_get environ key (String c fallback)) = true
  ↔ not_emptied environ key.
Proof.
  unfold not_emptied, environ_get. destruct (environ !! key) as [[|? ?]|]; cbn;
    split; congruence.
Qed.

Lemma missing_nil (self : Settings) :
  missing self = [] ↔ Forall (λ key, truthy (key.2 self) = true) required.
Proof.
  unfold missing. induction required as [|key keys IH]; cbn.
  - split; [constructor|done].
  - rewrite Forall_cons. destruct (truthy (key.2 self)); cbn.
    + rewrite IH. tauto.
    + split; [done|]. by intros [? _].
Qed.

Lemma AzureFunctionConfig_validate_cases (self : Settings) :
  (AzureFunctionConfig_validate self = Ok () ↔ missing self = [])
  ∧ (AzureFunctionConfig_validate self ≠ Ok () →
     AzureFunctionConfig_validate self = Raise ValueError).
Proof. unfold AzureFunctionConfig_validate. by destruct (missing self). Qed.

Lemma Config_validate_cases (cls : Settings) :
  (Config_validate cls = Ok true
   ↔ truthy (YOUTUBE_API_KEY cls) = true
     ∧ truthy (AZURE_CONNECTION_STRING cls) = true
     ∧ truthy (SNOWFLAKE_USER cls) = true)
  ∧ (Config_validate cls ≠ Ok true → Config_validate cls = Raise ValueError).
Proof.
  unfold Config_validate, Config_errors.
  destruct (truthy (YOUTUBE_API_KEY cls)), (truthy (AZURE_CONNECTION_STRING cls)),
    (truthy (SNOWFLAKE_USER cls)); cbn; intuition congruence.
Qed.

(** X27.  What the two validations accept.  [AzureFunctionConfig.validate]
    returns exactly when the five credentials are set and not empty and the
    warehouse and database names are not set to the empty string (unset,
    they have defaults).  [Config.validate] of the scripts returns exactly
    when the API key, the storage connection string (read from
    AZURE_STORAGE_CONNECTION_STRING, not AZURE_CONNECTION_STRING) and the
    Snowflake user are set and not empty; it does not look at the Snowflake
    password or account.  Either raises [ValueError] otherwise. *)
Theorem validate_accepts (environ : gmap string string) :
  (AzureFunctionConfig_validate (AzureFunctionConfig_settings environ) = Ok ()
   ↔ is_set environ "YOUTUBE_API_KEY"
     ∧ is_set environ "AZURE_CONNECTION_STRING"
     ∧ is_set environ "SNOWFLAKE_USER"
     ∧ is_set environ "SNOWFLAKE_PASSWORD"
     ∧ is_set environ "SNOWFLAKE_ACCOUNT"
     ∧ not_emptied environ "SNOWFLAKE_WAREHOUSE"
     ∧ not_emptied environ "SNOWFLAKE_DATABASE")
  ∧ (Config_validate (Config_settings environ) = Ok true
     ↔ is_set environ "YOUTUBE_API_KEY"
       ∧ is_set environ "AZURE_STORAGE_CONNECTION_STRING"
       ∧ is_set environ "SNOWFLAKE_USER")
  ∧ (AzureFunctionConfig_validate (AzureFunctionConfig_settings environ) ≠ Ok () →
     AzureFunctionConfig_validate (AzureFunctionConfig_settings environ)
     = Raise ValueError)
  ∧ (Config_validate (Config_settings environ) ≠ Ok true →
     Config_validate (Config_settings environ) = Raise ValueError).
Proof.
  destruct (AzureFunctionConfig_validate_cases (AzureFunctionConfig_settings environ))
    as [Hfun Hfun'].
  destruct (Config_validate_cases (Config_settings environ)) as [Hscript Hscript'].
  split; [|split; [|done]].
  - rewrite Hfun, missing_nil. unfold required.
    rewrite !Forall_cons, Forall_nil. cbn.
    rewrite !truthy_lookup.
    rewrite (truthy_environ_get environ "SNOWFLAKE_WAREHOUSE" "C" "OMPUTE_WH").
    rewrite (truthy_environ_get environ "SNOWFLAKE_DATABASE" "Y" "OUTUBE_ANALYTICS").
    tauto.
  - rewrite Hscript. cbn. by rewrite !truthy_lookup.
Qed.

(** X28.  The timer function raises exactly when the validation or the
    collection raises, with their exception; a failed upload or load ends
    the invocation without one.  The container changes only through the
    upload of a non-empty batch of videos, and the connection only through
    [load_todays_data] after an upload that returned [True]. *)
Theorem YouTubeCollectorFunction_steps `{PyBuiltins} `{YouTubeClient} `{BlobService}
    `{PhaseBodies} (environ : gmap string string) (now : Datetime.t)
    (connected : bool) (container : gmap string (Blob ChannelRecord.t))
    (c : Connection) :
  let run := YouTubeCollectorFunction environ now connected container c in
  let validated := AzureFunctionConfig_validate (AzureFunctionConfig_settings environ) in
  let collected := YouTubeCollectorService.collect_data AzureFunctionConfig in
  (∀ e, run.1.1 = Raise e
        ↔ validated = Raise e ∨ (validated = Ok () ∧ collected = Raise e))
  ∧ (run.1.2 ≠ container ∨ run.2 ≠ c →
     ∃ videos channels,
       validated = Ok () ∧ collected = Ok (videos, channels) ∧ videos ≠ []
       ∧ run.1.2
         = (upload_to_azure AzureFunctionConfig (Some true) now videos channels
              container).2)
  ∧ (run.2 ≠ c →
     ∃ videos channels,
       collected = Ok (videos, channels)
       ∧ (upload_to_azure AzureFunctionConfig (Some true) now videos channels
            container).1 = true
       ∧ run.2 = (SnowflakeLoaderService.load_todays_data connected c).2).
Proof.
  unfold YouTubeCollectorFunction. cbv zeta.
  destruct (AzureFunctionConfig_validate (AzureFunctionConfig_settings environ))
    as [[]|e0]; cbn [fst snd].
  2: { split; [|split].
       - intros e. split; [intros [= <-]; by left|]. by intros [[= <-]|[? _]].
       - by intros [?|?].
       - done. }
  destruct (YouTubeCollectorService.collect_data AzureFunctionConfig)
    as [[videos channels]|e0]; cbn [fst snd].
  2: { split; [|split].
       - intros e. split; [intros [= <-]; by right|]. by intros [?|[_ [= <-]]].
       - by intros [?|?].
       - done. }
  destruct videos as [|video videos].
  { cbn [fst snd]. split; [|split].
    - intros e. split; [intros; congruence|intros [?|[_ ?]]; congruence].
    - by intros [?|?].
    - done. }
  destruct (upload_to_azure AzureFunctionConfig (Some true) now (video :: videos)
              channels container) as [[] container'] eqn:Hup; cbn [fst snd negb].
  - destruct (SnowflakeLoaderService.load_todays_data connected c)
      as [ok c'] eqn:Hload; cbn [fst snd].
    split; [|split].
    + intros e. split; [intros; congruence|intros [?|[_ ?]]; congruence].
    + intros _. exists (video :: videos), channels. by rewrite Hup.
    + intros _. exists (video :: videos), channels. by rewrite Hup.
  - split; [|split].
    + intros e. split; [intros; congruence|intros [?|[_ ?]]; congruence].
    + intros _. exists (video :: videos), channels. by rewrite Hup.
    + done.
Qed.

Lemma service_collect_data_nothing `{PyBuiltins} `{YouTubeClient} (cfg : Config) :
  (∀ region keyword, region ∈ REGIONS cfg → keyword ∈ SEARCH_KEYWORDS cfg →
     search_videos keyword region (VIDEOS_PER_KEYWORD cfg) = []) →
  YouTubeCollectorService.collect_data cfg = Ok ([], []).
Proof.
  intros Hnone. unfold YouTubeCollectorService.collect_data.
  by rewrite collect_videos_nothing_found.
Qed.

Lemma script_collect_data_nothing `{PyBuiltins} `{YouTubeClient} (cfg : Config) :
  (∀ region keyword, region ∈ REGIONS cfg → keyword ∈ SEARCH_KEYWORDS cfg →
     search_videos keyword region (VIDEOS_PER_KEYWORD cfg) = []) →
  YouTubeCollector.collect_data cfg = Ok ([], []).
Proof.
  intros Hnone. unfold YouTubeCollector.collect_data.
  by rewrite collect_videos_nothing_found.
Qed.

(** X29.  On a collection that finds nothing, with valid settings and a
    storage service that accepts every upload, the two entry points differ:
    the timer function ends without an upload or a load, leaving container
    and connection as they were, while [main] of the collector script
    uploads the empty lists and exits with 0. *)
Theorem entry_points_nothing_found `{PyBuiltins} `{YouTubeClient} `{BlobService}
    `{PhaseBodies} (environ : gmap string string) (now : Datetime.t) :
  (∀ cfg region keyword, cfg ∈ [AzureFunctionConfig; ScriptConfig] →
     region ∈ REGIONS cfg → keyword ∈ SEARCH_KEYWORDS cfg →
     search_videos keyword region (VIDEOS_PER_KEYWORD cfg) = []) →
  AzureFunctionConfig_validate (AzureFunctionConfig_settings environ) = Ok () →
  Config_validate (Config_settings environ) = Ok true →
  (∀ name, upload_raises name = false) →
  (∀ connected container c,
     YouTubeCollectorFunction environ now connected container c
     = (Ok (), container, c))
  ∧ (∀ container,
       let run := youtube_collector_main environ now container in
       run.1 = 0
       ∧ run.2 !! videos_blob_name now = Some (VideosJson [])
       ∧ run.2 !! channels_blob_name now = Some (ChannelsJson [])).
Proof.
  intros Hnone Hvalid Hvalid' Hup. split.
  - intros connected container c. unfold YouTubeCollectorFunction.
    rewrite Hvalid, service_collect_data_nothing; [done|].
    intros region keyword. apply (Hnone AzureFunctionConfig). by left.
  - intros container. unfold youtube_collector_main.
    rewrite Hvalid', script_collect_data_nothing
      by (intros region keyword; apply (Hnone ScriptConfig); right; by left).
    destruct (blob_names_distinct now) as (Hvc & Hvm & Hcm).
    unfold upload_to_azure, upload_blob. rewrite !Hup. cbn.
    split; [done|].
    split; [by rewrite !lookup_insert_ne, lookup_insert_eq by congruence|].
    by rewrite lookup_insert_ne, lookup_insert_eq by congruence.
Qed.

(** X29 on a client whose searches all raise. *)
Lemma entry_points_nothing_found_witness :
  (∀ connected container c,
     YouTubeCollectorFunction (H := AsciiBuiltins.builtins) (H0 := failing_client)
       (H1 := accepting_service) (H2 := sql_bodies (demo_env 1705384800) [])
       demo_environ sample_now connected container c
     = (Ok (), container, c))
  ∧ (∀ container,
       let run :=
         youtube_collector_main (H := AsciiBuiltins.builtins) (H0 := failing_client)
           (H1 := accepting_service) demo_environ sample_now container in
       run.1 = 0
       ∧ run.2 !! videos_blob_name sample_now = Some (VideosJson [])
       ∧ run.2 !! channels_blob_name sample_now = Some (ChannelsJson [])).
Proof.
  apply (entry_points_nothing_found (H := AsciiBuiltins.builtins)
           (H0 := failing_client) (H1 := accepting_service)
           (H2 := sql_bodies (demo_env 1705384800) []) demo_environ sample_now).
  - intros cfg region keyword _ _ _. reflexivity.
  - vm_compute. reflexivity.
  - vm_compute. reflexivity.
  - intros name. reflexivity.
Defined.
